(** * send_wecom.py: the WeCom message dispatcher

    A shallow embedding of [skills/wecom-notify/scripts/send_wecom.py].

    - Python [str] values are sequences of Unicode code points ([pystr]);
      [bytes] values are sequences of byte values.
    - Parsed JSON documents are the values [json.loads] builds: [None],
      [bool], [int], [str], [list] and [dict] (insertion ordered, so an
      association list).  JSON numbers are integers here: floating-point
      numbers are outside the embedding.
    - The program's effects (network calls, printing, [sys.exit], uncaught
      exceptions) are threaded by a state-and-abort monad [M] whose state
      survives an abort, so that the calls made before a failure stay
      observable. *)

From Stdlib Require Import List ZArith NArith Lia Bool String Ascii.
From Stdlib Require Import Decimal DecimalFacts DecimalPos DecimalN DecimalZ.
Import ListNotations.

Local Open Scope N_scope.

(** ** Strings and bytes *)

Abbreviation codepoint := N (only parsing).
Abbreviation pystr := (list N) (only parsing).
Abbreviation bytes := (list N) (only parsing).

(** A literal of the source, as a Python string. *)
Definition lit (s : string) : pystr :=
  map N_of_ascii (list_ascii_of_string s).

Definition pystr_eq_dec : forall a b : pystr, {a = b} + {a <> b} :=
  list_eq_dec N.eq_dec.

Definition pystr_eqb (a b : pystr) : bool :=
  if pystr_eq_dec a b then true else false.

(** Code points a Python string can hold. *)
Definition valid_str (s : pystr) : bool :=
  forallb (fun c => c <? 0x110000) s.

Definition is_high (c : codepoint) : bool := (0xD800 <=? c) && (c <=? 0xDBFF).
Definition is_low (c : codepoint) : bool := (0xDC00 <=? c) && (c <=? 0xDFFF).

(** [str.encode()]: UTF-8, strict.  A surrogate code point cannot be encoded
    ([None] stands for [UnicodeEncodeError]). *)
Definition utf8_char (c : codepoint) : option bytes :=
  if c <? 0x80 then Some [c]
  else if c <? 0x800 then Some [0xC0 + c / 64; 0x80 + c mod 64]
  else if is_high c || is_low c then None
  else if c <? 0x10000 then
    Some [0xE0 + c / 4096; 0x80 + (c / 64) mod 64; 0x80 + c mod 64]
  else
    Some [0xF0 + c / 262144; 0x80 + (c / 4096) mod 64;
          0x80 + (c / 64) mod 64; 0x80 + c mod 64].

Fixpoint str_encode (s : pystr) : option bytes :=
  match s with
  | [] => Some []
  | c :: r =>
      match utf8_char c, str_encode r with
      | Some b, Some br => Some (b ++ br)
      | _, _ => None
      end
  end.



(** ** JSON values *)

#[warnings="-register-all"]
Inductive json : Type :=
| JNull
| JBool (b : bool)
| JInt (n : Z)
| JStr (s : pystr)
| JArr (l : list json)
| JObj (m : list (pystr * json)).

(** [dict] lookup by key. *)
Fixpoint lookup (k : pystr) (m : list (pystr * json)) : option json :=
  match m with
  | [] => None
  | (k', v) :: r => if pystr_eq_dec k k' then Some v else lookup k r
  end.

(** [d[k] = v] on an insertion-ordered [dict]: an existing key keeps its
    place and takes the new value, a new key goes last. *)
Fixpoint dict_set (k : pystr) (v : json) (m : list (pystr * json))
  : list (pystr * json) :=
  match m with
  | [] => [(k, v)]
  | (k', v') :: r =>
      if pystr_eq_dec k k' then (k, v) :: r else (k', v') :: dict_set k v r
  end.

(** [dict(pairs)]. *)
Definition dict_of_pairs (l : list (pystr * json)) : list (pystr * json) :=
  fold_left (fun m kv => dict_set (fst kv) (snd kv) m) l [].

Fixpoint nodup_keys (m : list (pystr * json)) : bool :=
  match m with
  | [] => true
  | (k, _) :: r =>
      match lookup k r with Some _ => false | None => nodup_keys r end
  end.

(** ** [json.dumps] *)

Definition hexdig (d : N) : codepoint :=
  if d <? 10 then 48 + d else 87 + d.

(** ['\\u{0:04x}'.format(n)] *)
Definition u_escape (n : N) : pystr :=
  [92; 117; hexdig (n / 4096); hexdig ((n / 256) mod 16);
   hexdig ((n / 16) mod 16); hexdig (n mod 16)].

(** One character of a string, as [encode_basestring_ascii]
    ([ensure_ascii = true]) and [encode_basestring] ([false]) write it. *)
Definition escape_char (ensure_ascii : bool) (c : codepoint) : pystr :=
  if c =? 34 then [92; 34]
  else if c =? 92 then [92; 92]
  else if c =? 10 then [92; 110]
  else if c =? 13 then [92; 114]
  else if c =? 9 then [92; 116]
  else if c =? 8 then [92; 98]
  else if c =? 12 then [92; 102]
  else if c <? 32 then u_escape c
  else if negb ensure_ascii then [c]
  else if c <? 127 then [c]
  else if c <? 0x10000 then u_escape c
  else
    let v := c - 0x10000 in
    u_escape (0xD800 + v / 1024) ++ u_escape (0xDC00 + v mod 1024).

Definition escape_str (ensure_ascii : bool) (s : pystr) : pystr :=
  flat_map (escape_char ensure_ascii) s.

Definition encode_str (ensure_ascii : bool) (s : pystr) : pystr :=
  34 :: escape_str ensure_ascii s ++ [34].

Fixpoint uint_chars (u : uint) : pystr :=
  match u with
  | Nil => []
  | D0 u => 48 :: uint_chars u
  | D1 u => 49 :: uint_chars u
  | D2 u => 50 :: uint_chars u
  | D3 u => 51 :: uint_chars u
  | D4 u => 52 :: uint_chars u
  | D5 u => 53 :: uint_chars u
  | D6 u => 54 :: uint_chars u
  | D7 u => 55 :: uint_chars u
  | D8 u => 56 :: uint_chars u
  | D9 u => 57 :: uint_chars u
  end.

(** [int.__repr__] *)
Definition int_repr (z : Z) : pystr :=
  match Z.to_int z with
  | Decimal.Pos u => uint_chars u
  | Decimal.Neg u => 45 :: uint_chars u
  end.

(** [', '.join]-style concatenation with the default item separator. *)
Fixpoint join_items (l : list pystr) : pystr :=
  match l with
  | [] => []
  | x :: r =>
      match r with
      | [] => x
      | _ :: _ => x ++ [44; 32] ++ join_items r
      end
  end.

(** [json.dumps(j, ensure_ascii=...)], default separators [', '] and
    [': ']. *)
Fixpoint dumps (ensure_ascii : bool) (j : json) : pystr :=
  match j with
  | JNull => lit "null"
  | JBool true => lit "true"
  | JBool false => lit "false"
  | JInt n => int_repr n
  | JStr s => encode_str ensure_ascii s
  | JArr l => 91 :: join_items (map (dumps ensure_ascii) l) ++ [93]
  | JObj m =>
      123 :: join_items
               (map (fun kv => let '(k, v) := kv in
                      encode_str ensure_ascii k ++ [58; 32]
                      ++ dumps ensure_ascii v) m)
          ++ [125]
  end.

(** ** [json.loads] *)

Definition is_ws (c : codepoint) : bool :=
  (c =? 32) || (c =? 9) || (c =? 10) || (c =? 13).

Fixpoint skip_ws (s : pystr) : pystr :=
  match s with
  | c :: r => if is_ws c then skip_ws r else s
  | [] => []
  end.

Definition hexval (c : codepoint) : option N :=
  if (48 <=? c) && (c <=? 57) then Some (c - 48)
  else if (97 <=? c) && (c <=? 102) then Some (c - 87)
  else if (65 <=? c) && (c <=? 70) then Some (c - 55)
  else None.

Definition hex4 (a b c d : codepoint) : option N :=
  match hexval a, hexval b, hexval c, hexval d with
  | Some x, Some y, Some z, Some t => Some (x * 4096 + y * 256 + z * 16 + t)
  | _, _, _, _ => None
  end.

Definition unescape (e : codepoint) : option codepoint :=
  if e =? 34 then Some 34
  else if e =? 92 then Some 92
  else if e =? 47 then Some 47
  else if e =? 98 then Some 8
  else if e =? 102 then Some 12
  else if e =? 110 then Some 10
  else if e =? 114 then Some 13
  else if e =? 116 then Some 9
  else None.

Definition consc (c : codepoint) (r : option (pystr * pystr))
  : option (pystr * pystr) :=
  match r with
  | Some (s, rest) => Some (c :: s, rest)
  | None => None
  end.

(** [scanstring], strict: the text after an opening quote, up to and
    including the closing one.  A [\uXXXX] high surrogate directly followed
    by a [\uXXXX] low surrogate is one code point. *)
Fixpoint scanstring (s : pystr) : option (pystr * pystr) :=
  match s with
  | [] => None
  | c :: r =>
      if c =? 34 then Some ([], r)
      else if c =? 92 then
        match r with
        | [] => None
        | e :: r1 =>
            if e =? 117 then
              match r1 with
              | h1 :: h2 :: h3 :: h4 :: r2 =>
                  match hex4 h1 h2 h3 h4 with
                  | None => None
                  | Some u =>
                      if is_high u then
                        match r2 with
                        | b :: e2 :: l1 :: l2 :: l3 :: l4 :: r3 =>
                            if (b =? 92) && (e2 =? 117) then
                              match hex4 l1 l2 l3 l4 with
                              | None => None
                              | Some u2 =>
                                  if is_low u2
                                  then consc (0x10000 + (u - 0xD800) * 1024
                                              + (u2 - 0xDC00))
                                             (scanstring r3)
                                  else consc u (scanstring r2)
                              end
                            else consc u (scanstring r2)
                        | _ => consc u (scanstring r2)
                        end
                      else consc u (scanstring r2)
                  end
              | _ => None
              end
            else
              match unescape e with
              | Some c' => consc c' (scanstring r1)
              | None => None
              end
        end
      else if c <? 32 then None
      else consc c (scanstring r)
  end.

Definition digit_of (c : codepoint) : option (uint -> uint) :=
  if c =? 48 then Some D0 else if c =? 49 then Some D1
  else if c =? 50 then Some D2 else if c =? 51 then Some D3
  else if c =? 52 then Some D4 else if c =? 53 then Some D5
  else if c =? 54 then Some D6 else if c =? 55 then Some D7
  else if c =? 56 then Some D8 else if c =? 57 then Some D9
  else None.

Definition is_digit (c : codepoint) : bool := (48 <=? c) && (c <=? 57).

Fixpoint read_uint (s : pystr) : uint * pystr :=
  match s with
  | [] => (Nil, [])
  | c :: r =>
      match digit_of c with
      | Some d => let '(u, rest) := read_uint r in (d u, rest)
      | None => (Nil, s)
      end
  end.

(** Whether a fraction or an exponent follows the integer part: the number
    is then a float. *)
Definition float_follows (s : pystr) : bool :=
  match s with
  | c :: d :: r =>
      if c =? 46 then is_digit d
      else if (c =? 101) || (c =? 69) then
        if is_digit d then true
        else if (d =? 43) || (d =? 45) then
          match r with e :: _ => is_digit e | [] => false end
        else false
      else false
  | _ => false
  end.

(** The integer part [0 | [1-9][0-9]*] of a number, sign excluded. *)
Definition read_intpart (s : pystr) : option (uint * pystr) :=
  match s with
  | c :: r =>
      if c =? 48 then Some (D0 Nil, r)
      else if is_digit c then Some (read_uint s)
      else None
  | [] => None
  end.

(** A JSON number.  [None] also for a float, which the embedding leaves
    out. *)
Definition parse_number (s : pystr) : option (json * pystr) :=
  match s with
  | [] => None
  | c :: r =>
      if c =? 45 then
        match read_intpart r with
        | Some (u, rest) =>
            if float_follows rest then None
            else Some (JInt (Z.of_int (Decimal.Neg u)), rest)
        | None => None
        end
      else
        match read_intpart s with
        | Some (u, rest) =>
            if float_follows rest then None
            else Some (JInt (Z.of_int (Decimal.Pos u)), rest)
        | None => None
        end
  end.

Fixpoint strip_prefix (p s : pystr) : option pystr :=
  match p, s with
  | [], _ => Some s
  | a :: p', b :: s' => if a =? b then strip_prefix p' s' else None
  | _ :: _, [] => None
  end.

(** The scanner: one value at the head of [s].  [fuel] bounds the number of
    nested and successive values; [loads] gives it the length of the text,
    which is never exceeded. *)
Fixpoint parse_value (fuel : nat) (s : pystr) : option (json * pystr) :=
  match fuel with
  | O => None
  | S f =>
      match s with
      | [] => None
      | c :: r =>
          if c =? 34 then
            match scanstring r with
            | Some (str, rest) => Some (JStr str, rest)
            | None => None
            end
          else if c =? 123 then
            match skip_ws r with
            | c1 :: r1 =>
                if c1 =? 125 then Some (JObj [], r1)
                else
                  match parse_members f (c1 :: r1) with
                  | Some (ps, rest) => Some (JObj (dict_of_pairs ps), rest)
                  | None => None
                  end
            | [] => None
            end
          else if c =? 91 then
            match skip_ws r with
            | c1 :: r1 =>
                if c1 =? 93 then Some (JArr [], r1)
                else
                  match parse_elements f (c1 :: r1) with
                  | Some (vs, rest) => Some (JArr vs, rest)
                  | None => None
                  end
            | [] => None
            end
          else if c =? 110 then
            option_map (fun rest => (JNull, rest)) (strip_prefix (lit "ull") r)
          else if c =? 116 then
            option_map (fun rest => (JBool true, rest))
                       (strip_prefix (lit "rue") r)
          else if c =? 102 then
            option_map (fun rest => (JBool false, rest))
                       (strip_prefix (lit "alse") r)
          else parse_number s
      end
  end

with parse_members (fuel : nat) (s : pystr)
  : option (list (pystr * json) * pystr) :=
  match fuel with
  | O => None
  | S f =>
      match s with
      | c :: r =>
          if c =? 34 then
            match scanstring r with
            | Some (k, r1) =>
                match skip_ws r1 with
                | c2 :: r2 =>
                    if c2 =? 58 then
                      match parse_value f (skip_ws r2) with
                      | Some (v, r3) =>
                          match skip_ws r3 with
                          | c4 :: r4 =>
                              if c4 =? 125 then Some ([(k, v)], r4)
                              else if c4 =? 44 then
                                match parse_members f (skip_ws r4) with
                                | Some (ps, rest) => Some ((k, v) :: ps, rest)
                                | None => None
                                end
                              else None
                          | [] => None
                          end
                      | None => None
                      end
                    else None
                | [] => None
                end
            | None => None
            end
          else None
      | [] => None
      end
  end

with parse_elements (fuel : nat) (s : pystr) : option (list json * pystr) :=
  match fuel with
  | O => None
  | S f =>
      match parse_value f s with
      | Some (v, r1) =>
          match skip_ws r1 with
          | c2 :: r2 =>
              if c2 =? 93 then Some ([v], r2)
              else if c2 =? 44 then
                match parse_elements f (skip_ws r2) with
                | Some (vs, rest) => Some (v :: vs, rest)
                | None => None
                end
              else None
          | [] => None
          end
      | None => None
      end
  end.

(** [json.loads] of a [str]: one value, white space around it allowed,
    nothing else. *)
Definition loads (s : pystr) : option json :=
  match parse_value (S (List.length s)) (skip_ws s) with
  | Some (j, rest) =>
      match skip_ws rest with
      | [] => Some j
      | _ :: _ => None
      end
  | None => None
  end.



(** ** Python values and the operations the script applies to them *)

Inductive exn : Type :=
| AttributeError
| KeyError (k : pystr)
| TypeError
| ValueError
| JSONDecodeError
| UnicodeEncodeError
| OSError
| URLError.

(** Library functions whose text processing is left to the interpreter:
    [repr] of a [str], [int] of a [str] ([None]: [ValueError]),
    [str(Path(p))], [Path(p).name] and [mimetypes.guess_type(p)[0]]; and
    whether [sys.stdout], with the encoding and the error handler the
    environment gives it, can encode a text. *)
Record runtime : Type := {
  repr_str : pystr -> pystr;
  int_of_str : pystr -> option Z;
  path_str : pystr -> pystr;
  path_name : pystr -> pystr;
  guess_type : pystr -> option pystr;
  stdout_encodes : pystr -> bool
}.

(** [bool(v)] *)
Definition py_truthy (v : json) : bool :=
  match v with
  | JNull => false
  | JBool b => b
  | JInt n => negb (n =? 0)%Z
  | JStr s => match s with [] => false | _ :: _ => true end
  | JArr l => match l with [] => false | _ :: _ => true end
  | JObj m => match m with [] => false | _ :: _ => true end
  end.

(** [v != 0] *)
Definition py_ne_zero (v : json) : bool :=
  match v with
  | JInt n => negb (n =? 0)%Z
  | JBool b => b
  | _ => true
  end.

(** [int(v)] *)
Definition py_int (rt : runtime) (v : json) : exn + Z :=
  match v with
  | JInt n => inr n
  | JBool b => inr (if b then 1 else 0)%Z
  | JStr s =>
      match int_of_str rt s with
      | Some n => inr n
      | None => inl ValueError
      end
  | JNull | JArr _ | JObj _ => inl TypeError
  end.

(** [v.get(k, default)] *)
Definition py_get (v : json) (k : pystr) (default : json) : exn + json :=
  match v with
  | JObj m =>
      match lookup k m with
      | Some x => inr x
      | None => inr default
      end
  | _ => inl AttributeError
  end.

(** [v[k]] for a [str] key *)
Definition py_getitem (v : json) (k : pystr) : exn + json :=
  match v with
  | JObj m =>
      match lookup k m with
      | Some x => inr x
      | None => inl (KeyError k)
      end
  | _ => inl TypeError
  end.

(** [repr(v)] *)
Fixpoint py_repr (rt : runtime) (v : json) : pystr :=
  match v with
  | JNull => lit "None"
  | JBool true => lit "True"
  | JBool false => lit "False"
  | JInt n => int_repr n
  | JStr s => repr_str rt s
  | JArr l => 91 :: join_items (map (py_repr rt) l) ++ [93]
  | JObj m =>
      123 :: join_items
               (map (fun kv => let '(k, x) := kv in
                      repr_str rt k ++ [58; 32] ++ py_repr rt x) m)
          ++ [125]
  end.

(** [str(v)], which is what an f-string field [{v}] inserts. *)
Definition py_str (rt : runtime) (v : json) : pystr :=
  match v with
  | JStr s => s
  | _ => py_repr rt v
  end.

(** ** The world the script runs in *)

Inductive cfg_state : Type :=
| NoConfig                      (* the file does not exist *)
| ConfigRaises (e : exn)        (* reading or decoding it raises *)
| ConfigData (data : json).     (* [json.loads(config_path.read_text())] *)

Inductive file_state : Type :=
| Absent
| Unreadable (e : exn)          (* exists, [read_bytes] raises *)
| Content (data : bytes).

(** What [json.loads(opener.open(...).read())] comes to. *)
Inductive reply : Type :=
| NetFail (e : exn)             (* [open] or [read] raises *)
| NetJunk                       (* the body is not JSON *)
| NetJson (data : json).

Record request : Type := {
  req_url : pystr;
  req_data : option bytes;
  req_headers : list (pystr * pystr);
  req_timeout : Z
}.

(** The opener [main] builds: [build_opener()], with the handlers
    [urllib] installs by default, the proxies of the environment among
    them; or [build_opener(ProxyHandler({"https": proxy, "http": proxy}))]. *)
Inductive opener : Type :=
| Direct
| Proxied (proxy : json).

Definition call : Type := opener * request.

(** The script issues at most three requests, to three different URLs, so
    a reply that depends on the request alone loses nothing. *)
Record world : Type := {
  py : runtime;
  config_file : cfg_state;
  fs : pystr -> file_state;
  uuid_hex : pystr;
  net : opener -> request -> reply
}.

(** ** Effects *)

Inductive halt : Type :=
| SysExit (msg : pystr)         (* [sys.exit(msg)]: [msg] on stderr, status 1 *)
| Usage (msg : pystr)           (* [parser.error(msg)]: status 2 *)
| Uncaught (e : exn).           (* traceback on stderr, status 1 *)

Inductive result (A : Type) : Type :=
| Ok (a : A)
| Halt (h : halt).
Arguments Ok {A} a.
Arguments Halt {A} h.

Record state : Type := {
  calls : list call;
  stdout : list pystr
}.

Definition init : state := {| calls := []; stdout := [] |}.

Definition M (A : Type) : Type := state -> state * result A.

Definition ret {A} (a : A) : M A := fun st => (st, Ok a).

Definition bind {A B} (c : M A) (k : A -> M B) : M B :=
  fun st =>
    match c st with
    | (st', Ok a) => k a st'
    | (st', Halt h) => (st', Halt h)
    end.

Notation "x <- c ;; k" := (bind c (fun x => k))
  (at level 61, c at next level, right associativity).

Definition abort {A} (h : halt) : M A := fun st => (st, Halt h).
Definition sys_exit {A} (msg : pystr) : M A := abort (SysExit msg).
Definition raise {A} (e : exn) : M A := abort (Uncaught e).

Definition lift {A} (r : exn + A) : M A :=
  match r with
  | inl e => raise e
  | inr a => ret a
  end.

(** [print(line)]: a line [sys.stdout] cannot encode raises
    [UnicodeEncodeError] and nothing of it is written. *)
Definition print (rt : runtime) (line : pystr) : M unit :=
  fun st =>
    if stdout_encodes rt line
    then ({| calls := calls st; stdout := stdout st ++ [line] |}, Ok tt)
    else (st, Halt (Uncaught UnicodeEncodeError)).

(** [json.loads(opener.open(req, timeout=...).read())] *)
Definition open_json (w : world) (op : opener) (r : request) : M json :=
  fun st =>
    let st' := {| calls := calls st ++ [(op, r)]; stdout := stdout st |} in
    match net w op r with
    | NetFail e => (st', Halt (Uncaught e))
    | NetJunk => (st', Halt (Uncaught JSONDecodeError))
    | NetJson data => (st', Ok data)
    end.

(** [s.encode()] *)
Definition encode (s : pystr) : M bytes :=
  match str_encode s with
  | Some b => ret b
  | None => raise UnicodeEncodeError
  end.

Definition exit_status {A} (r : result A) : Z :=
  match r with
  | Ok _ => 0
  | Halt (SysExit _) => 1
  | Halt (Usage _) => 2
  | Halt (Uncaught _) => 1
  end%Z.

(** ** The script *)

Definition config_missing : pystr :=
  lit "Error: Missing WECOM_CORP_ID/CORP_SECRET/AGENT_ID in config".

Definition load_config (w : world) : M (json * json * Z * json) :=
  match config_file w with
  | NoConfig => sys_exit (lit "Error: ~/.openclaw/openclaw.json not found")
  | ConfigRaises e => raise e
  | ConfigData data =>
      e <- lift (py_get data (lit "env") (JObj [])) ;;
      env <- lift (py_get e (lit "vars") (JObj [])) ;;
      corp_id <- lift (py_get env (lit "WECOM_CORP_ID") JNull) ;;
      corp_secret <- lift (py_get env (lit "WECOM_CORP_SECRET") JNull) ;;
      agent_id <- lift (py_get env (lit "WECOM_AGENT_ID") JNull) ;;
      proxy <- lift (py_get env (lit "WECOM_PROXY") (JStr [])) ;;
      if negb (forallb py_truthy [corp_id; corp_secret; agent_id])
      then sys_exit config_missing
      else
        n <- lift (py_int (py w) agent_id) ;;
        ret (corp_id, corp_secret, n, proxy)
  end.

Definition token_request (rt : runtime) (corp_id corp_secret : json)
  : request :=
  {| req_url := lit "https://qyapi.weixin.qq.com/cgi-bin/gettoken?corpid="
                ++ py_str rt corp_id ++ lit "&corpsecret="
                ++ py_str rt corp_secret;
     req_data := None;
     req_headers := [];
     req_timeout := 10 |}.

Definition get_access_token (w : world) (corp_id corp_secret : json)
  (op : opener) : M json :=
  data <- open_json w op (token_request (py w) corp_id corp_secret) ;;
  errcode <- lift (py_get data (lit "errcode") (JInt 0)) ;;
  if py_ne_zero errcode
  then sys_exit (lit "Error getting token: " ++ py_str (py w) data)
  else lift (py_getitem data (lit "access_token")).

Definition upload_url (rt : runtime) (access_token : json)
  (media_type : pystr) : pystr :=
  lit "https://qyapi.weixin.qq.com/cgi-bin/media/upload?access_token="
  ++ py_str rt access_token ++ lit "&type=" ++ media_type.

Definition multipart_head (boundary filename content_type : pystr) : pystr :=
  lit "--" ++ boundary ++ [13; 10]
  ++ lit "Content-Disposition: form-data; name=" ++ [34] ++ lit "media"
  ++ [34] ++ lit "; filename=" ++ [34] ++ filename ++ [34] ++ [13; 10]
  ++ lit "Content-Type: " ++ content_type ++ [13; 10; 13; 10].

Definition multipart_tail (boundary : pystr) : pystr :=
  [13; 10] ++ lit "--" ++ boundary ++ lit "--" ++ [13; 10].

Definition upload_media (w : world) (access_token : json)
  (file_path media_type : pystr) (op : opener) : M json :=
  let url := upload_url (py w) access_token media_type in
  match fs w file_path with
  | Absent =>
      sys_exit (lit "Error: File not found: " ++ path_str (py w) file_path)
  | Unreadable e => raise e
  | Content file_data =>
      let filename := path_name (py w) file_path in
      let content_type :=
        match guess_type (py w) (path_str (py w) file_path) with
        | Some (c :: t) => c :: t
        | _ => lit "application/octet-stream"
        end in
      let boundary := uuid_hex w in
      head <- encode (multipart_head boundary filename content_type) ;;
      tail <- encode (multipart_tail boundary) ;;
      let req :=
        {| req_url := url;
           req_data := Some (head ++ file_data ++ tail);
           req_headers :=
             [(lit "Content-Type",
               lit "multipart/form-data; boundary=" ++ boundary)];
           req_timeout := 30 |} in
      data <- open_json w op req ;;
      errcode <- lift (py_get data (lit "errcode") (JInt 0)) ;;
      if py_ne_zero errcode
      then sys_exit (lit "Error uploading media: " ++ py_str (py w) data)
      else lift (py_getitem data (lit "media_id"))
  end.

Definition send_url (rt : runtime) (access_token : json) : pystr :=
  lit "https://qyapi.weixin.qq.com/cgi-bin/message/send?access_token="
  ++ py_str rt access_token.

Definition json_headers : list (pystr * pystr) :=
  [(lit "Content-Type", lit "application/json")].

Definition send_text (w : world) (access_token : json) (agent_id : Z)
  (to_user text : json) (op : opener) : M json :=
  let url := send_url (py w) access_token in
  let payload :=
    JObj [(lit "touser", to_user);
          (lit "msgtype", JStr (lit "text"));
          (lit "agentid", JInt agent_id);
          (lit "text", JObj [(lit "content", text)]);
          (lit "safe", JInt 0)] in
  data_bytes <- encode (dumps true payload) ;;
  let req :=
    {| req_url := url;
       req_data := Some data_bytes;
       req_headers := json_headers;
       req_timeout := 10 |} in
  data <- open_json w op req ;;
  errcode <- lift (py_get data (lit "errcode") (JInt 0)) ;;
  if py_ne_zero errcode
  then sys_exit (lit "Error sending message: " ++ py_str (py w) data)
  else ret data.

Definition send_image (w : world) (access_token : json) (agent_id : Z)
  (to_user media_id : json) (op : opener) : M json :=
  let url := send_url (py w) access_token in
  let payload :=
    JObj [(lit "touser", to_user);
          (lit "msgtype", JStr (lit "image"));
          (lit "agentid", JInt agent_id);
          (lit "image", JObj [(lit "media_id", media_id)]);
          (lit "safe", JInt 0)] in
  data_bytes <- encode (dumps true payload) ;;
  let req :=
    {| req_url := url;
       req_data := Some data_bytes;
       req_headers := json_headers;
       req_timeout := 10 |} in
  data <- open_json w op req ;;
  errcode <- lift (py_get data (lit "errcode") (JInt 0)) ;;
  if py_ne_zero errcode
  then sys_exit (lit "Error sending image: " ++ py_str (py w) data)
  else ret data.

Definition send_file (w : world) (access_token : json) (agent_id : Z)
  (to_user media_id : json) (op : opener) : M json :=
  let url := send_url (py w) access_token in
  let payload :=
    JObj [(lit "touser", to_user);
          (lit "msgtype", JStr (lit "file"));
          (lit "agentid", JInt agent_id);
          (lit "file", JObj [(lit "media_id", media_id)]);
          (lit "safe", JInt 0)] in
  data_bytes <- encode (dumps true payload) ;;
  let req :=
    {| req_url := url;
       req_data := Some data_bytes;
       req_headers := json_headers;
       req_timeout := 10 |} in
  data <- open_json w op req ;;
  errcode <- lift (py_get data (lit "errcode") (JInt 0)) ;;
  if py_ne_zero errcode
  then sys_exit (lit "Error sending file: " ++ py_str (py w) data)
  else ret data.

(** The command line, as given, and the namespace [parse_args] returns. *)
Record cli : Type := {
  cli_message : option pystr;
  cli_to : option pystr;
  cli_image : option pystr;
  cli_file : option pystr
}.

Record namespace : Type := {
  message : option pystr;
  to : pystr;
  image : option pystr;
  file : option pystr
}.

Definition parse_args (a : cli) : namespace :=
  {| message := cli_message a;
     to := match cli_to a with Some t => t | None => lit "LiXueHeng" end;
     image := cli_image a;
     file := cli_file a |}.

(** Truth value of an optional argument: [None] and the empty string are
    false. *)
Definition opt_truthy (o : option pystr) : bool :=
  match o with
  | Some (_ :: _) => true
  | _ => false
  end.

(** An argument known to be a string. *)
Definition opt_str (o : option pystr) : pystr :=
  match o with
  | Some s => s
  | None => []
  end.

(** An argument as a Python value. *)
Definition py_opt (o : option pystr) : json :=
  match o with
  | Some s => JStr s
  | None => JNull
  end.

Definition main (w : world) (a : cli) : M unit :=
  let args := parse_args a in
  if negb (opt_truthy (message args)) && negb (opt_truthy (image args))
     && negb (opt_truthy (file args))
  then abort (Usage (lit "Must provide a message, --image, or --file"))
  else
    cfg <- load_config w ;;
    let '(corp_id, corp_secret, agent_id, proxy) := cfg in
    let op := if py_truthy proxy then Proxied proxy else Direct in
    token <- get_access_token w corp_id corp_secret op ;;
    if opt_truthy (image args) then
      media_id <- upload_media w token (opt_str (image args)) (lit "image")
                               op ;;
      result <- send_image w token agent_id (JStr (to args)) media_id op ;;
      msgid <- lift (py_get result (lit "msgid") (JStr [])) ;;
      print (py w) (dumps false
               (JObj [(lit "ok", JBool true); (lit "type", JStr (lit "image"));
                      (lit "to", JStr (to args)); (lit "media_id", media_id);
                      (lit "msgid", msgid)]))
    else if opt_truthy (file args) then
      media_id <- upload_media w token (opt_str (file args)) (lit "file")
                               op ;;
      result <- send_file w token agent_id (JStr (to args)) media_id op ;;
      msgid <- lift (py_get result (lit "msgid") (JStr [])) ;;
      print (py w) (dumps false
               (JObj [(lit "ok", JBool true); (lit "type", JStr (lit "file"));
                      (lit "to", JStr (to args)); (lit "media_id", media_id);
                      (lit "msgid", msgid)]))
    else
      result <- send_text w token agent_id (JStr (to args))
                          (py_opt (message args)) op ;;
      msgid <- lift (py_get result (lit "msgid") (JStr [])) ;;
      print (py w) (dumps false
               (JObj [(lit "ok", JBool true); (lit "type", JStr (lit "text"));
                      (lit "to", JStr (to args)); (lit "msgid", msgid)])).

(** A whole run: the calls made, the lines printed, and how it ended. *)
Definition run (w : world) (a : cli) : state * result unit :=
  main w a init.

(** ** Well-formedness of the values the codec is applied to *)

(** A high surrogate directly followed by a low surrogate, as two code
    points of one string. *)
Fixpoint no_split_pair (s : pystr) : bool :=
  match s with
  | [] => true
  | c :: r =>
      match r with
      | [] => true
      | d :: _ => negb (is_high c && is_low d)
      end && no_split_pair r
  end.

Definition wf_str (s : pystr) : bool := valid_str s && no_split_pair s.

(** Values that [json.loads] gives back after [json.dumps]: an object has
    a key once, as a Python [dict] does, and, when [ensure_ascii] is set,
    the strings are [wf_str]. *)
Fixpoint wf_json (ensure_ascii : bool) (j : json) : bool :=
  match j with
  | JNull | JBool _ | JInt _ => true
  | JStr s => negb ensure_ascii || wf_str s
  | JArr l => forallb (wf_json ensure_ascii) l
  | JObj m =>
      nodup_keys m
      && forallb (fun kv => let '(k, v) := kv in
                    (negb ensure_ascii || wf_str k) && wf_json ensure_ascii v)
                 m
  end.

(** The text after a number does not continue it. *)
Definition ends_number (rest : pystr) : bool :=
  match rest with
  | [] => true
  | c :: _ => negb (is_digit c || (c =? 46) || (c =? 101) || (c =? 69))
  end.

(** The text after a [\uXXXX] escape is not a [\uXXXX] low surrogate. *)
Definition harmless (r : pystr) : bool :=
  match r with
  | b :: e :: l1 :: l2 :: l3 :: l4 :: _ =>
      if (b =? 92) && (e =? 117) then
        match hex4 l1 l2 l3 l4 with
        | Some u => negb (is_low u)
        | None => false
        end
      else true
  | _ => true
  end.

(** * Properties *)

(** ** The codec: [json.loads] inverts [json.dumps] *)

Lemma json_induction (P : json -> Prop) :
  P JNull -> (forall b, P (JBool b)) -> (forall n, P (JInt n)) ->
  (forall s, P (JStr s)) ->
  (forall l, Forall P l -> P (JArr l)) ->
  (forall m, Forall (fun kv => P (snd kv)) m -> P (JObj m)) ->
  forall j, P j.
Proof.
  intros HN HB HI HS HA HO.
  fix IH 1. intros [ | b | n | s | l | m ].
  - exact HN.
  - apply HB.
  - apply HI.
  - apply HS.
  - apply HA.
    induction l as [ | x r IHr ]; constructor; [ apply IH | exact IHr ].
  - apply HO.
    induction m as [ | [k v] r IHr ]; constructor; [ apply IH | exact IHr ].
Qed.

Lemma hexval_hexdig d : d < 16 -> hexval (hexdig d) = Some d.
Proof.
  intros H. unfold hexdig, hexval.
  destruct (N.ltb_spec d 10).
  - replace ((48 <=? 48 + d) && (48 + d <=? 57)) with true.
    + f_equal. lia.
    + symmetry. apply andb_true_iff. split; apply N.leb_le; lia.
  - replace ((48 <=? 87 + d) && (87 + d <=? 57)) with false.
    + replace ((97 <=? 87 + d) && (87 + d <=? 102)) with true.
      * f_equal. lia.
      * symmetry. apply andb_true_iff. split; apply N.leb_le; lia.
    + symmetry. apply andb_false_iff. right. apply N.leb_gt. lia.
Qed.

Lemma hex4_u_escape n :
  n < 65536 ->
  hex4 (hexdig (n / 4096)) (hexdig ((n / 256) mod 16))
       (hexdig ((n / 16) mod 16)) (hexdig (n mod 16)) = Some n.
Proof.
  intros H. unfold hex4.
  rewrite !hexval_hexdig.
  - f_equal.
    pose proof (N.div_mod n 16 ltac:(lia)).
    pose proof (N.div_mod (n / 16) 16 ltac:(lia)).
    pose proof (N.div_mod (n / 16 / 16) 16 ltac:(lia)).
    rewrite !N.Div0.div_div in *.
    change (16 * 16) with 256 in *. change (256 * 16) with 4096 in *.
    pose proof (N.mod_lt (n / 256) 16 ltac:(lia)).
    pose proof (N.mod_lt (n / 16) 16 ltac:(lia)).
    pose proof (N.mod_lt n 16 ltac:(lia)).
    lia.
  - apply N.mod_lt; lia.
  - apply N.mod_lt; lia.
  - apply N.mod_lt; lia.
  - apply N.Div0.div_lt_upper_bound; lia.
Qed.

Arguments hex4 : simpl never.
Arguments is_high : simpl never.
Arguments is_low : simpl never.
Arguments hexdig : simpl never.

Lemma scanstring_u h1 h2 h3 h4 r2 :
  scanstring (92 :: 117 :: h1 :: h2 :: h3 :: h4 :: r2)
  = match hex4 h1 h2 h3 h4 with
    | None => None
    | Some u =>
        if is_high u then
          match r2 with
          | b :: e2 :: l1 :: l2 :: l3 :: l4 :: r3 =>
              if (b =? 92) && (e2 =? 117) then
                match hex4 l1 l2 l3 l4 with
                | None => None
                | Some u2 =>
                    if is_low u2
                    then consc (0x10000 + (u - 0xD800) * 1024
                                + (u2 - 0xDC00))
                               (scanstring r3)
                    else consc u (scanstring r2)
                end
              else consc u (scanstring r2)
          | _ => consc u (scanstring r2)
          end
        else consc u (scanstring r2)
    end.
Proof. reflexivity. Qed.

Lemma scan_u h1 h2 h3 h4 u r2 :
  hex4 h1 h2 h3 h4 = Some u ->
  (is_high u = true -> harmless r2 = true) ->
  scanstring (92 :: 117 :: h1 :: h2 :: h3 :: h4 :: r2)
  = consc u (scanstring r2).
Proof.
  intros Hx Hh. rewrite scanstring_u, Hx.
  destruct (is_high u); [ | reflexivity ].
  specialize (Hh eq_refl).
  destruct r2 as [ | b [ | e [ | l1 [ | l2 [ | l3 [ | l4 r3 ] ] ] ] ] ];
    try reflexivity.
  unfold harmless in Hh.
  destruct ((b =? 92) && (e =? 117)); [ | reflexivity ].
  destruct (hex4 l1 l2 l3 l4) as [ u2 | ]; [ | discriminate ].
  destruct (is_low u2); [ discriminate | reflexivity ].
Qed.

Lemma scan_pair h1 h2 h3 h4 l1 l2 l3 l4 u u2 r3 :
  hex4 h1 h2 h3 h4 = Some u -> is_high u = true ->
  hex4 l1 l2 l3 l4 = Some u2 -> is_low u2 = true ->
  scanstring (92 :: 117 :: h1 :: h2 :: h3 :: h4
              :: 92 :: 117 :: l1 :: l2 :: l3 :: l4 :: r3)
  = consc (0x10000 + (u - 0xD800) * 1024 + (u2 - 0xDC00)) (scanstring r3).
Proof.
  intros Hx Hh Hy Hl. rewrite scanstring_u, Hx, Hh.
  change ((92 =? 92) && (117 =? 117)) with true. cbv iota.
  rewrite Hy, Hl. reflexivity.
Qed.

Lemma harmless_not_bs b t : (b =? 92) = false -> harmless (b :: t) = true.
Proof.
  intros H.
  destruct t as [ | e [ | l1 [ | l2 [ | l3 [ | l4 r ] ] ] ] ]; try reflexivity.
  unfold harmless. rewrite H. reflexivity.
Qed.

Lemma harmless_not_u b e t : (e =? 117) = false -> harmless (b :: e :: t) = true.
Proof.
  intros H.
  destruct t as [ | l1 [ | l2 [ | l3 [ | l4 r ] ] ] ]; try reflexivity.
  unfold harmless. rewrite H, andb_false_r. reflexivity.
Qed.

Lemma harmless_u_escape n t :
  n < 65536 -> is_low n = false -> harmless (u_escape n ++ t) = true.
Proof.
  intros Hn Hl. unfold u_escape. cbn.
  rewrite hex4_u_escape by assumption. rewrite Hl. reflexivity.
Qed.

Lemma is_high_bounds c : is_high c = true <-> 0xD800 <= c <= 0xDBFF.
Proof.
  unfold is_high. rewrite andb_true_iff, !N.leb_le. reflexivity.
Qed.

Lemma is_low_bounds c : is_low c = true <-> 0xDC00 <= c <= 0xDFFF.
Proof.
  unfold is_low. rewrite andb_true_iff, !N.leb_le. reflexivity.
Qed.

Lemma is_high_false c : c < 0xD800 \/ 0xDBFF < c -> is_high c = false.
Proof.
  intros H. destruct (is_high c) eqn:E; [ | reflexivity ].
  apply is_high_bounds in E. lia.
Qed.

Lemma is_low_false c : c < 0xDC00 \/ 0xDFFF < c -> is_low c = false.
Proof.
  intros H. destruct (is_low c) eqn:E; [ | reflexivity ].
  apply is_low_bounds in E. lia.
Qed.

(** The two halves of an escaped code point above the basic plane. *)
Lemma pair_halves c :
  0x10000 <= c -> c < 0x110000 ->
  let v := c - 0x10000 in
  0xD800 <= 0xD800 + v / 1024 <= 0xDBFF
  /\ 0xDC00 <= 0xDC00 + v mod 1024 <= 0xDFFF
  /\ 0x10000 + (0xD800 + v / 1024 - 0xD800) * 1024
     + (0xDC00 + v mod 1024 - 0xDC00) = c.
Proof.
  intros H1 H2 v.
  assert (Hv : v < 1048576) by (unfold v; lia).
  pose proof (N.div_mod v 1024 ltac:(lia)) as Hd.
  pose proof (N.mod_lt v 1024 ltac:(lia)) as Hm.
  assert (Hq : v / 1024 < 1024) by (apply N.Div0.div_lt_upper_bound; lia).
  assert (Hc : c = v + 0x10000) by (unfold v; lia).
  generalize dependent (v / 1024). generalize dependent (v mod 1024).
  intros. lia.
Qed.

(** What the escape of a character starts with never reads as the low half
    of a pair, unless the character is a low surrogate itself. *)
Lemma harmless_escape_char a d t :
  d < 0x110000 -> is_low d = false -> harmless (escape_char a d ++ t) = true.
Proof.
  intros Hv Hl. unfold escape_char.
  repeat match goal with
         | |- context [ if ?x =? ?y then _ else _ ] =>
             destruct (N.eqb_spec x y);
             [ apply harmless_not_u; reflexivity | ]
         end.
  destruct (N.ltb_spec d 32).
  { apply harmless_u_escape; [ lia | assumption ]. }
  assert (Hlit : harmless ([d] ++ t) = true).
  { apply harmless_not_bs. apply N.eqb_neq. assumption. }
  destruct a; cbn [negb]; [ | exact Hlit ].
  destruct (N.ltb_spec d 127); [ exact Hlit | ].
  destruct (N.ltb_spec d 0x10000).
  { apply harmless_u_escape; assumption. }
  destruct (pair_halves d) as (Hh & _ & _); [ assumption .. | ].
  rewrite <- List.app_assoc. apply harmless_u_escape.
  - lia.
  - apply is_low_false. lia.
Qed.

Lemma scanstring_lit c t :
  c <> 34 -> c <> 92 -> 32 <= c ->
  scanstring (c :: t) = consc c (scanstring t).
Proof.
  intros H1 H2 H3. cbn [scanstring].
  rewrite (proj2 (N.eqb_neq c 34) H1), (proj2 (N.eqb_neq c 92) H2).
  rewrite (proj2 (N.ltb_ge c 32) H3). reflexivity.
Qed.

Lemma scan_char a c t :
  (a = true -> c < 0x110000) ->
  (a = true -> is_high c = true -> harmless t = true) ->
  scanstring (escape_char a c ++ t) = consc c (scanstring t).
Proof.
  intros Hv Hh. unfold escape_char.
  repeat match goal with
         | |- context [ if ?x =? ?y then _ else _ ] =>
             destruct (N.eqb_spec x y); [ subst; reflexivity | ]
         end.
  destruct (N.ltb_spec c 32).
  { unfold u_escape. cbn [List.app]. apply scan_u.
    - apply hex4_u_escape. lia.
    - intros E. apply is_high_bounds in E. lia. }
  assert (Hlit : scanstring ([c] ++ t) = consc c (scanstring t)).
  { apply scanstring_lit; assumption. }
  destruct a; cbn [negb]; [ | exact Hlit ].
  destruct (N.ltb_spec c 127); [ exact Hlit | ].
  specialize (Hv eq_refl). specialize (Hh eq_refl).
  destruct (N.ltb_spec c 0x10000).
  { unfold u_escape. cbn [List.app]. apply scan_u.
    - apply hex4_u_escape. assumption.
    - exact Hh. }
  destruct (pair_halves c) as (Ph & Pl & Pc); [ assumption .. | ].
  cbv zeta. rewrite <- List.app_assoc.
  transitivity
    (consc (0x10000 + (0xD800 + (c - 0x10000) / 1024 - 0xD800) * 1024
            + (0xDC00 + (c - 0x10000) mod 1024 - 0xDC00)) (scanstring t)).
  - apply scan_pair.
    + apply hex4_u_escape. lia.
    + apply is_high_bounds. assumption.
    + apply hex4_u_escape. lia.
    + apply is_low_bounds. assumption.
  - rewrite Pc. reflexivity.
Qed.

Lemma wf_str_cons c s :
  wf_str (c :: s) = true ->
  c < 0x110000 /\ wf_str s = true
  /\ match s with
     | [] => True
     | d :: _ => d < 0x110000 /\ (is_high c = true -> is_low d = false)
     end.
Proof.
  unfold wf_str. cbn [valid_str forallb no_split_pair].
  rewrite !andb_true_iff. intros [[Hc Hv] [Hp Hn]].
  apply N.ltb_lt in Hc.
  split; [ exact Hc | ]. split; [ split; assumption | ].
  destruct s as [ | d s' ]; [ exact I | ].
  cbn [forallb] in Hv. apply andb_true_iff in Hv. destruct Hv as [Hd _].
  apply N.ltb_lt in Hd. split; [ assumption | ].
  intros E. rewrite E in Hp. cbn in Hp.
  destruct (is_low d); [ discriminate | reflexivity ].
Qed.

(** [scanstring] reads back what [escape_str] wrote, up to the closing
    quote. *)
Lemma scan_escape_str a s rest :
  (a = true -> wf_str s = true) ->
  scanstring (escape_str a s ++ 34 :: rest) = Some (s, rest).
Proof.
  revert rest. induction s as [ | c s IH ]; intros rest Hwf.
  - reflexivity.
  - unfold escape_str. cbn [flat_map]. rewrite <- List.app_assoc.
    fold (escape_str a s).
    rewrite scan_char.
    + rewrite IH; [ reflexivity | ].
      intros E. apply (wf_str_cons c s). auto.
    + intros E. apply (wf_str_cons c s). auto.
    + intros E Hhi. destruct (wf_str_cons c s (Hwf E)) as (_ & _ & Hs).
      destruct s as [ | d s' ].
      * apply harmless_not_bs. reflexivity.
      * destruct Hs as [Hd Hl]. cbn [escape_str flat_map].
        rewrite <- List.app_assoc. apply harmless_escape_char; auto.
Qed.

(** *** Integers *)

Lemma is_digit_bounds c : is_digit c = true <-> 48 <= c <= 57.
Proof.
  unfold is_digit. rewrite andb_true_iff, !N.leb_le. reflexivity.
Qed.

Lemma digit_of_none c : is_digit c = false -> digit_of c = None.
Proof.
  intros H. unfold digit_of.
  repeat match goal with
         | |- context [ if ?x =? ?y then _ else _ ] =>
             destruct (N.eqb_spec x y); [ subst; discriminate H | ]
         end.
  reflexivity.
Qed.

Lemma ends_number_head c r :
  ends_number (c :: r) = true ->
  is_digit c = false /\ c <> 46 /\ c <> 101 /\ c <> 69.
Proof.
  unfold ends_number. rewrite negb_true_iff, !orb_false_iff.
  intros [[[H1 H2] H3] H4]. rewrite N.eqb_neq in H2, H3, H4. auto.
Qed.

Lemma read_uint_stop rest :
  ends_number rest = true -> read_uint rest = (Nil, rest).
Proof.
  destruct rest as [ | c r ]; [ reflexivity | ].
  intros H. apply ends_number_head in H. destruct H as [H _].
  cbn [read_uint]. rewrite (digit_of_none c H). reflexivity.
Qed.

Lemma read_uint_chars u rest :
  ends_number rest = true -> read_uint (uint_chars u ++ rest) = (u, rest).
Proof.
  intros H. induction u; cbn [uint_chars List.app];
    [ apply read_uint_stop; assumption | .. ];
    cbn [read_uint]; cbn; rewrite IHu; reflexivity.
Qed.

Lemma float_follows_stop rest :
  ends_number rest = true -> float_follows rest = false.
Proof.
  destruct rest as [ | c [ | d r ] ]; try reflexivity.
  intros H. apply ends_number_head in H. destruct H as (_ & H1 & H2 & H3).
  unfold float_follows.
  rewrite (proj2 (N.eqb_neq c 46) H1), (proj2 (N.eqb_neq c 101) H2),
    (proj2 (N.eqb_neq c 69) H3).
  reflexivity.
Qed.

(** The decimal digits of a positive number start with a digit other
    than zero. *)
Lemma pos_chars_head p :
  exists c t, uint_chars (Pos.to_uint p) = c :: t
              /\ 49 <= c <= 57.
Proof.
  assert (Hn : unorm (Pos.to_uint p) = Pos.to_uint p).
  { rewrite <- DecimalPos.Unsigned.to_of, DecimalPos.Unsigned.of_to.
    reflexivity. }
  pose proof (DecimalPos.Unsigned.to_uint_nonzero p) as Hz.
  pose proof (nzhead_nonzero (Pos.to_uint p)) as Hd.
  unfold unorm in Hn.
  destruct (nzhead (Pos.to_uint p)) eqn:E;
    try (rewrite <- Hn; cbn [uint_chars]; do 2 eexists;
         split; [ reflexivity | lia ]).
  - exfalso. apply Hz. symmetry. exact Hn.
  - exfalso. apply (Hd u). reflexivity.
Qed.

Lemma read_intpart_pos p rest :
  ends_number rest = true ->
  read_intpart (uint_chars (Pos.to_uint p) ++ rest)
  = Some (Pos.to_uint p, rest).
Proof.
  intros H. pose proof (read_uint_chars (Pos.to_uint p) rest H) as R.
  destruct (pos_chars_head p) as (c & t & E & Hc).
  rewrite E in *. cbn [List.app] in *. unfold read_intpart.
  rewrite (proj2 (N.eqb_neq c 48)) by lia.
  rewrite (proj2 (is_digit_bounds c)) by lia.
  rewrite R. reflexivity.
Qed.

Lemma parse_number_int z rest :
  ends_number rest = true ->
  parse_number (int_repr z ++ rest) = Some (JInt z, rest).
Proof.
  intros H. pose proof (float_follows_stop rest H) as F.
  pose proof (DecimalZ.of_to z) as Hz.
  unfold int_repr. destruct z as [ | p | p ].
  - cbn. rewrite F. reflexivity.
  - cbn [Z.to_int] in *.
    pose proof (read_intpart_pos p rest H) as R.
    destruct (pos_chars_head p) as (c & t & E & Hc).
    unfold parse_number. rewrite E in *. cbn [List.app] in *.
    rewrite (proj2 (N.eqb_neq c 45)) by lia.
    rewrite R, F, Hz. reflexivity.
  - cbn [Z.to_int] in *. cbn [List.app]. unfold parse_number.
    change (45 =? 45) with true. cbv iota.
    rewrite (read_intpart_pos p rest H), F, Hz. reflexivity.
Qed.

(** The first character of an integer is a digit or the sign. *)
Lemma int_repr_head z :
  exists c t, int_repr z = c :: t /\ (c = 45 \/ 48 <= c <= 57).
Proof.
  unfold int_repr. destruct z as [ | p | p ]; cbn [Z.to_int].
  - exists 48, []. split; [ reflexivity | lia ].
  - destruct (pos_chars_head p) as (c & t & E & Hc).
    exists c, t. split; [ exact E | lia ].
  - do 2 eexists. split; [ reflexivity | lia ].
Qed.

(** *** Values *)

Lemma lookup_app k a b :
  lookup k (a ++ b)
  = match lookup k a with Some x => Some x | None => lookup k b end.
Proof.
  induction a as [ | [k' v] a IH ]; [ reflexivity | ].
  cbn [List.app lookup]. destruct (pystr_eq_dec k k'); [ reflexivity | exact IH ].
Qed.

Lemma dict_set_new k v acc :
  lookup k acc = None -> dict_set k v acc = acc ++ [(k, v)].
Proof.
  induction acc as [ | [k' v'] acc IH ]; [ reflexivity | ].
  cbn [lookup dict_set List.app]. destruct (pystr_eq_dec k k'); [ discriminate | ].
  intros H. rewrite IH by assumption. reflexivity.
Qed.

Lemma dict_fold_nodup m : forall acc,
  nodup_keys m = true ->
  (forall k, lookup k acc <> None -> lookup k m = None) ->
  fold_left (fun d kv => dict_set (fst kv) (snd kv) d) m acc = acc ++ m.
Proof.
  induction m as [ | [k v] m IH ]; intros acc Hn Hd.
  - cbn. rewrite List.app_nil_r. reflexivity.
  - cbn [fold_left fst snd]. cbn [nodup_keys] in Hn.
    destruct (lookup k m) eqn:Ek; [ discriminate | ].
    assert (Ha : lookup k acc = None).
    { destruct (lookup k acc) eqn:E; [ | reflexivity ].
      assert (Hk : lookup k ((k, v) :: m) = None)
        by (apply Hd; rewrite E; discriminate).
      cbn [lookup] in Hk. destruct (pystr_eq_dec k k); [ discriminate | ].
      congruence. }
    rewrite dict_set_new by assumption.
    rewrite IH.
    + rewrite <- List.app_assoc. reflexivity.
    + assumption.
    + intros k' Hk'. rewrite lookup_app in Hk'.
      destruct (lookup k' acc) eqn:E.
      * assert (Hx : lookup k' ((k, v) :: m) = None)
          by (apply Hd; rewrite E; discriminate).
        cbn [lookup] in Hx. destruct (pystr_eq_dec k' k); [ discriminate | ].
        exact Hx.
      * cbn [lookup] in Hk'. destruct (pystr_eq_dec k' k); [ | congruence ].
        subst. exact Ek.
Qed.

(** [dict(pairs)] of pairs with different keys keeps them as they are. *)
Lemma dict_of_pairs_nodup m : nodup_keys m = true -> dict_of_pairs m = m.
Proof.
  intros H. unfold dict_of_pairs. rewrite dict_fold_nodup; auto.
  intros k Hk. exfalso. apply Hk. reflexivity.
Qed.

(** The characters a value can start with. *)
Definition value_start (c : codepoint) : Prop :=
  c = 110 \/ c = 116 \/ c = 102 \/ c = 34 \/ c = 91 \/ c = 123
  \/ c = 45 \/ 48 <= c <= 57.

Lemma dumps_head a j : exists c t, dumps a j = c :: t /\ value_start c.
Proof.
  unfold value_start. destruct j as [ | b | n | s | l | m ].
  - exists 110, (lit "ull"). split; [ reflexivity | lia ].
  - destruct b; [ exists 116, (lit "rue") | exists 102, (lit "alse") ];
      (split; [ reflexivity | lia ]).
  - destruct (int_repr_head n) as (c & t & E & Hc).
    exists c, t. split; [ exact E | lia ].
  - eexists 34, _. split; [ reflexivity | lia ].
  - eexists 91, _. split; [ reflexivity | lia ].
  - eexists 123, _. split; [ reflexivity | lia ].
Qed.

Lemma skip_ws_start c t : value_start c -> skip_ws (c :: t) = c :: t.
Proof.
  intros H. cbn [skip_ws]. replace (is_ws c) with false; [ reflexivity | ].
  symmetry. unfold is_ws. rewrite !orb_false_iff, !N.eqb_neq.
  unfold value_start in H. lia.
Qed.

Lemma skip_ws_dumps a j rest :
  skip_ws (dumps a j ++ rest) = dumps a j ++ rest.
Proof.
  destruct (dumps_head a j) as (c & t & E & H). rewrite E.
  apply skip_ws_start. exact H.
Qed.

Lemma pv_str f r :
  parse_value (S f) (34 :: r)
  = match scanstring r with
    | Some (str, rest) => Some (JStr str, rest)
    | None => None
    end.
Proof. reflexivity. Qed.

Lemma pv_arr f r :
  parse_value (S f) (91 :: r)
  = match skip_ws r with
    | c1 :: r1 =>
        if c1 =? 93 then Some (JArr [], r1)
        else match parse_elements f (c1 :: r1) with
             | Some (vs, rest) => Some (JArr vs, rest)
             | None => None
             end
    | [] => None
    end.
Proof. reflexivity. Qed.

Lemma pv_obj f r :
  parse_value (S f) (123 :: r)
  = match skip_ws r with
    | c1 :: r1 =>
        if c1 =? 125 then Some (JObj [], r1)
        else match parse_members f (c1 :: r1) with
             | Some (ps, rest) => Some (JObj (dict_of_pairs ps), rest)
             | None => None
             end
    | [] => None
    end.
Proof. reflexivity. Qed.

Lemma pv_num f c r :
  c = 45 \/ 48 <= c <= 57 ->
  parse_value (S f) (c :: r) = parse_number (c :: r).
Proof.
  intros H. cbn [parse_value].
  rewrite (proj2 (N.eqb_neq c 34)), (proj2 (N.eqb_neq c 123)),
    (proj2 (N.eqb_neq c 91)), (proj2 (N.eqb_neq c 110)),
    (proj2 (N.eqb_neq c 116)), (proj2 (N.eqb_neq c 102)) by lia.
  reflexivity.
Qed.

Lemma pe_S f s :
  parse_elements (S f) s
  = match parse_value f s with
    | Some (v, r1) =>
        match skip_ws r1 with
        | c2 :: r2 =>
            if c2 =? 93 then Some ([v], r2)
            else if c2 =? 44 then
              match parse_elements f (skip_ws r2) with
              | Some (vs, rest) => Some (v :: vs, rest)
              | None => None
              end
            else None
        | [] => None
        end
    | None => None
    end.
Proof. reflexivity. Qed.

Lemma pm_S f r :
  parse_members (S f) (34 :: r)
  = match scanstring r with
    | Some (k, r1) =>
        match skip_ws r1 with
        | c2 :: r2 =>
            if c2 =? 58 then
              match parse_value f (skip_ws r2) with
              | Some (v, r3) =>
                  match skip_ws r3 with
                  | c4 :: r4 =>
                      if c4 =? 125 then Some ([(k, v)], r4)
                      else if c4 =? 44 then
                        match parse_members f (skip_ws r4) with
                        | Some (ps, rest) => Some ((k, v) :: ps, rest)
                        | None => None
                        end
                      else None
                  | [] => None
                  end
              | None => None
              end
            else None
        | [] => None
        end
    | None => None
    end.
Proof. reflexivity. Qed.

Definition member_text (a : bool) (kv : pystr * json) : pystr :=
  let '(k, v) := kv in encode_str a k ++ [58; 32] ++ dumps a v.

Definition wf_member (a : bool) (kv : pystr * json) : bool :=
  let '(k, v) := kv in (negb a || wf_str k) && wf_json a v.

Lemma dumps_arr a l :
  dumps a (JArr l) = 91 :: join_items (map (dumps a) l) ++ [93].
Proof. reflexivity. Qed.

Lemma dumps_obj a m :
  dumps a (JObj m) = 123 :: join_items (map (member_text a) m) ++ [125].
Proof. reflexivity. Qed.

Lemma wf_json_obj a m :
  wf_json a (JObj m) = nodup_keys m && forallb (wf_member a) m.
Proof. reflexivity. Qed.

Lemma join_items_cons x y r :
  join_items (x :: y :: r) = x ++ [44; 32] ++ join_items (y :: r).
Proof. reflexivity. Qed.

Lemma wf_key a k : negb a || wf_str k = true -> a = true -> wf_str k = true.
Proof. intros H E. subst a. exact H. Qed.

Ltac norm_len H :=
  repeat (progress (try rewrite !length_app in H; cbn [List.length] in H)).

Lemma skip_ws_32 s : skip_ws (32 :: s) = skip_ws s.
Proof. reflexivity. Qed.

Lemma skip_ws_34 s : skip_ws (34 :: s) = 34 :: s.
Proof. reflexivity. Qed.

Lemma skip_ws_44 s : skip_ws (44 :: s) = 44 :: s.
Proof. reflexivity. Qed.

Lemma skip_ws_58 s : skip_ws (58 :: s) = 58 :: s.
Proof. reflexivity. Qed.

(** What [dumps] wrote, [parse_value] reads back, given fuel for the length
    of the text. *)
Lemma parse_dumps_fuel a : forall fuel,
  (forall j rest,
      (List.length (dumps a j) <= fuel)%nat ->
      wf_json a j = true -> ends_number rest = true ->
      parse_value fuel (dumps a j ++ rest) = Some (j, rest))
  /\ (forall l rest,
      l <> [] ->
      (List.length (join_items (map (dumps a) l)) < fuel)%nat ->
      forallb (wf_json a) l = true ->
      parse_elements fuel (join_items (map (dumps a) l) ++ 93 :: rest)
      = Some (l, rest))
  /\ (forall m rest,
      m <> [] ->
      (List.length (join_items (map (member_text a) m)) < fuel)%nat ->
      forallb (wf_member a) m = true ->
      parse_members fuel (join_items (map (member_text a) m) ++ 125 :: rest)
      = Some (m, rest)).
Proof.
  induction fuel as [ | f (IHV & IHE & IHM) ].
  { split; [ | split ].
    - intros j rest H. destruct (dumps_head a j) as (c & t & E & _).
      rewrite E in H. cbn in H. lia.
    - intros l rest _ H. lia.
    - intros m rest _ H. lia. }
  split; [ | split ].
  - (* one value *)
    intros j rest Hlen Hwf Hrest.
    destruct j as [ | b | n | s | l | m ].
    + reflexivity.
    + destruct b; reflexivity.
    + destruct (int_repr_head n) as (c & t & E & Hc).
      pose proof (parse_number_int n rest Hrest) as P.
      cbn [dumps] in *. rewrite E in *. cbn [List.app] in *.
      rewrite pv_num by exact Hc. exact P.
    + cbn [dumps encode_str List.app]. rewrite pv_str, <- List.app_assoc.
      cbn [List.app]. rewrite scan_escape_str; [ reflexivity | ].
      intros E. cbn [wf_json] in Hwf. apply (wf_key a); assumption.
    + rewrite dumps_arr in *. cbn [List.app]. rewrite pv_arr, <- List.app_assoc.
      cbn [List.app].
      destruct l as [ | x r ]; [ reflexivity | ].
      assert (Hs : exists c t,
                 join_items (map (dumps a) (x :: r)) = c :: t
                 /\ value_start c).
      { destruct (dumps_head a x) as (c & t & E & Hc).
        destruct r as [ | y r ]; cbn [map]; [ | rewrite join_items_cons ];
          cbn [join_items]; rewrite E; do 2 eexists;
          (split; [ reflexivity | exact Hc ]). }
      destruct Hs as (c & t & E & Hc).
      specialize (IHE (x :: r) rest).
      norm_len Hlen.
      rewrite E in *. cbn [List.app] in *.
      rewrite skip_ws_start by exact Hc.
      rewrite (proj2 (N.eqb_neq c 93)) by (unfold value_start in Hc; lia).
      rewrite IHE; [ reflexivity | discriminate | lia | exact Hwf ].
    + rewrite dumps_obj in *. rewrite wf_json_obj in Hwf.
      apply andb_true_iff in Hwf. destruct Hwf as [Hnd Hwf].
      cbn [List.app]. rewrite pv_obj, <- List.app_assoc. cbn [List.app].
      destruct m as [ | [k v] r ]; [ reflexivity | ].
      assert (Hs : exists t,
                 join_items (map (member_text a) ((k, v) :: r)) = 34 :: t).
      { destruct r as [ | y r ]; cbn [map]; [ | rewrite join_items_cons ];
          cbn [join_items member_text encode_str List.app]; eexists;
          reflexivity. }
      destruct Hs as (t & E).
      specialize (IHM ((k, v) :: r) rest).
      norm_len Hlen.
      rewrite E in *. cbn [List.app] in *.
      rewrite ?skip_ws_34.
      change (34 =? 125) with false. cbv iota.
      rewrite IHM; [ | discriminate | lia | exact Hwf ].
      rewrite dict_of_pairs_nodup by exact Hnd. reflexivity.
  - (* the elements of an array *)
    intros l rest Hne Hlen Hwf.
    destruct l as [ | x r ]; [ congruence | ].
    cbn [forallb] in Hwf. apply andb_true_iff in Hwf.
    destruct Hwf as [Hx Hr].
    rewrite pe_S. destruct r as [ | y r ].
    + cbn [map join_items] in *.
      rewrite IHV; [ | lia | exact Hx | reflexivity ].
      reflexivity.
    + cbn [map] in *. rewrite join_items_cons in *.
      norm_len Hlen.
      rewrite <- !List.app_assoc.
      rewrite IHV; [ | lia | exact Hx | reflexivity ].
      cbn [List.app]. rewrite skip_ws_44.
      change (44 =? 93) with false. change (44 =? 44) with true. cbv iota.
      rewrite skip_ws_32.
      assert (Hs : exists c t,
                 join_items (dumps a y :: map (dumps a) r) = c :: t
                 /\ value_start c).
      { destruct (dumps_head a y) as (c & t & E & Hc).
        destruct r as [ | z r ]; cbn [map]; [ | rewrite join_items_cons ];
          cbn [join_items]; rewrite E; do 2 eexists;
          (split; [ reflexivity | exact Hc ]). }
      destruct Hs as (c & t & E & Hc).
      specialize (IHE (y :: r) rest). cbn [map] in IHE.
      rewrite E in *. cbn [List.app] in *.
      rewrite skip_ws_start by exact Hc.
      rewrite IHE; [ reflexivity | discriminate | | exact Hr ].
      cbn [List.length] in *. lia.
  - (* the members of an object *)
    intros m rest Hne Hlen Hwf.
    destruct m as [ | [k v] r ]; [ congruence | ].
    cbn [forallb] in Hwf. apply andb_true_iff in Hwf.
    destruct Hwf as [Hkv Hr]. cbn [wf_member] in Hkv.
    apply andb_true_iff in Hkv. destruct Hkv as [Hk Hv].
    assert (Hscan : forall tail,
               scanstring (escape_str a k ++ 34 :: tail) = Some (k, tail)).
    { intros tail. apply scan_escape_str. apply (wf_key a). exact Hk. }
    destruct r as [ | y r ].
    + cbn [map join_items member_text] in *. unfold encode_str in *.
      norm_len Hlen.
      cbn [List.app]. rewrite pm_S. rewrite <- !List.app_assoc.
      cbn [List.app]. rewrite Hscan.
      rewrite skip_ws_58. change (58 =? 58) with true. cbv iota.
      rewrite skip_ws_32, skip_ws_dumps.
      rewrite IHV; [ | lia | exact Hv | reflexivity ].
      reflexivity.
    + cbn [map] in *. rewrite join_items_cons in *.
      cbn [member_text] in *. unfold encode_str in *.
      norm_len Hlen.
      cbn [List.app]. rewrite pm_S. rewrite <- !List.app_assoc.
      cbn [List.app]. rewrite Hscan.
      rewrite skip_ws_58. change (58 =? 58) with true. cbv iota.
      rewrite skip_ws_32, skip_ws_dumps.
      rewrite IHV; [ | lia | exact Hv | reflexivity ].
      cbn [List.app]. rewrite skip_ws_44.
      change (44 =? 125) with false. change (44 =? 44) with true. cbv iota.
      rewrite skip_ws_32.
      assert (Hs : exists t,
                 join_items (member_text a y :: map (member_text a) r)
                 = 34 :: t).
      { destruct y as [ky vy].
        destruct r as [ | z r ]; cbn [map]; [ | rewrite join_items_cons ];
          cbn [join_items member_text encode_str List.app]; eexists;
          reflexivity. }
      destruct Hs as (t & E).
      specialize (IHM (y :: r) rest). cbn [map] in IHM.
      rewrite E in *. cbn [List.app] in *.
      rewrite ?skip_ws_34.
      rewrite IHM; [ reflexivity | discriminate | | exact Hr ].
      cbn [List.length] in *. lia.
Qed.

(** [json.loads] inverts [json.dumps]. *)
Lemma loads_dumps a j : wf_json a j = true -> loads (dumps a j) = Some j.
Proof.
  intros Hwf. unfold loads.
  pose proof (skip_ws_dumps a j []) as Hs. rewrite List.app_nil_r in Hs.
  rewrite Hs.
  destruct (parse_dumps_fuel a (S (List.length (dumps a j)))) as (HV & _).
  specialize (HV j [] ltac:(lia) Hwf eq_refl).
  rewrite List.app_nil_r in HV. rewrite HV. reflexivity.
Qed.

(** *** The characters [json.dumps] writes *)

(** Every string of a value, keys included, satisfies [ok]. *)
Fixpoint all_strings (ok : pystr -> Prop) (j : json) : Prop :=
  match j with
  | JNull | JBool _ | JInt _ => True
  | JStr s => ok s
  | JArr l =>
      (fix each (l : list json) : Prop :=
         match l with
         | [] => True
         | x :: r => all_strings ok x /\ each r
         end) l
  | JObj m =>
      (fix each (m : list (pystr * json)) : Prop :=
         match m with
         | [] => True
         | (k, v) :: r => ok k /\ all_strings ok v /\ each r
         end) m
  end.

Section Characters.

Variable P : N -> Prop.
Hypothesis printable : forall c, 32 <= c < 127 -> P c.

Lemma uint_chars_all u : Forall P (uint_chars u).
Proof.
  induction u; cbn [uint_chars]; constructor;
    solve [ assumption | apply printable; lia ].
Qed.

Lemma int_repr_all z : Forall P (int_repr z).
Proof.
  unfold int_repr. destruct (Z.to_int z).
  - apply uint_chars_all.
  - constructor; [ apply printable; lia | apply uint_chars_all ].
Qed.

Lemma join_items_all l : Forall (Forall P) l -> Forall P (join_items l).
Proof.
  induction 1 as [ | x r Hx Hr IH ]; [ constructor | ].
  destruct r as [ | y r ]; [ exact Hx | ].
  rewrite join_items_cons. apply Forall_app. split; [ exact Hx | ].
  constructor; [ apply printable; lia | ].
  constructor; [ apply printable; lia | exact IH ].
Qed.

Lemma hexdig_all d : d < 16 -> P (hexdig d).
Proof.
  intros H. apply printable. unfold hexdig.
  destruct (N.ltb_spec d 10); lia.
Qed.

Lemma u_escape_all n : n < 65536 -> Forall P (u_escape n).
Proof.
  intros H. unfold u_escape.
  repeat constructor; try (apply printable; lia);
    apply hexdig_all;
    solve [ apply N.mod_lt; lia | apply N.Div0.div_lt_upper_bound; lia ].
Qed.

(** Given the strings are written in [P], so is the whole text. *)
Lemma dumps_all a (ok : pystr -> Prop) :
  (forall s, ok s -> Forall P (escape_str a s)) ->
  forall j, all_strings ok j ->
    Forall P (dumps a j).
Proof.
  intros Hesc.
  assert (Hstr : forall s, ok s -> Forall P (encode_str a s)).
  { intros s Hs. unfold encode_str.
    constructor; [ apply printable; lia | ].
    apply Forall_app. split; [ apply Hesc; exact Hs | ].
    constructor; [ apply printable; lia | constructor ]. }
  induction j as [ | b | n | s | l IH | m IH ] using json_induction;
    intros Hj.
  - repeat constructor; apply printable; cbn; lia.
  - destruct b; repeat constructor; apply printable; cbn; lia.
  - apply int_repr_all.
  - apply Hstr. exact Hj.
  - rewrite dumps_arr. constructor; [ apply printable; lia | ].
    apply Forall_app. split;
      [ | constructor; [ apply printable; lia | constructor ] ].
    apply join_items_all.
    induction IH as [ | x r Hx _ IHr ]; [ constructor | ].
    destruct Hj as [Hjx Hjr]. cbn [map]. constructor; auto.
  - rewrite dumps_obj. constructor; [ apply printable; lia | ].
    apply Forall_app. split;
      [ | constructor; [ apply printable; lia | constructor ] ].
    apply join_items_all.
    induction IH as [ | [k v] r Hx _ IHr ]; [ constructor | ].
    destruct Hj as (Hk & Hv & Hjr). cbn [map]. constructor; [ | auto ].
    cbn [member_text]. apply Forall_app. split; [ apply Hstr; exact Hk | ].
    constructor; [ apply printable; lia | ].
    constructor; [ apply printable; lia | ].
    apply Hx. exact Hv.
Qed.

End Characters.

Lemma escape_char_visible a c : Forall (fun x => 32 <= x) (escape_char a c).
Proof.
  assert (Hh : forall d, 32 <= hexdig d).
  { intros d. unfold hexdig. destruct (N.ltb_spec d 10); lia. }
  assert (Hu : forall n, Forall (fun x => 32 <= x) (u_escape n)).
  { intros n. unfold u_escape. repeat constructor; try lia; apply Hh. }
  unfold escape_char.
  repeat match goal with
         | |- context [ if ?x =? ?y then _ else _ ] =>
             destruct (N.eqb_spec x y); [ repeat constructor; lia | ]
         end.
  destruct (N.ltb_spec c 32); [ apply Hu | ].
  destruct a; cbn [negb]; [ | repeat constructor; lia ].
  destruct (N.ltb_spec c 127); [ repeat constructor; lia | ].
  destruct (N.ltb_spec c 0x10000); [ apply Hu | ].
  apply Forall_app. split; apply Hu.
Qed.

Lemma escape_str_visible a s : Forall (fun x => 32 <= x) (escape_str a s).
Proof.
  induction s as [ | c s IH ]; [ constructor | ].
  unfold escape_str. cbn [flat_map]. apply Forall_app.
  split; [ apply escape_char_visible | exact IH ].
Qed.

Lemma escape_char_ascii c :
  c < 0x110000 -> Forall (fun x => 32 <= x < 127) (escape_char true c).
Proof.
  intros Hv. unfold escape_char.
  repeat match goal with
         | |- context [ if ?x =? ?y then _ else _ ] =>
             destruct (N.eqb_spec x y); [ repeat constructor; lia | ]
         end.
  destruct (N.ltb_spec c 32); [ apply u_escape_all; [ auto | lia ] | ].
  cbn [negb].
  destruct (N.ltb_spec c 127); [ repeat constructor; lia | ].
  destruct (N.ltb_spec c 0x10000); [ apply u_escape_all; auto | ].
  destruct (pair_halves c) as (Ph & Pl & _); [ assumption .. | ].
  apply Forall_app. split; apply u_escape_all; auto; lia.
Qed.

Lemma escape_str_ascii s :
  valid_str s = true -> Forall (fun x => 32 <= x < 127) (escape_str true s).
Proof.
  induction s as [ | c s IH ]; [ constructor | ].
  cbn [valid_str forallb]. rewrite andb_true_iff, N.ltb_lt. intros [Hc Hs].
  unfold escape_str. cbn [flat_map]. apply Forall_app.
  split; [ apply escape_char_ascii; exact Hc | apply IH; exact Hs ].
Qed.

Lemma all_strings_any j : all_strings (fun _ => True) j.
Proof.
  induction j as [ | b | n | s | l IH | m IH ] using json_induction;
    cbn [all_strings]; auto.
  - induction IH; [ exact I | split; assumption ].
  - induction IH as [ | [k v] r Hx _ IHr ]; [ exact I | ].
    repeat split; assumption.
Qed.


(** The text [json.dumps] writes is one line. *)
Lemma dumps_visible a j : Forall (fun x => 32 <= x) (dumps a j).
Proof.
  apply dumps_all with (ok := fun _ => True).
  - intros c Hc. lia.
  - intros s _. apply escape_str_visible.
  - apply all_strings_any.
Qed.


Lemma str_encode_ascii s : Forall (fun x => x < 128) s -> str_encode s = Some s.
Proof.
  induction 1 as [ | c s Hc Hs IH ]; [ reflexivity | ].
  cbn [str_encode]. unfold utf8_char.
  rewrite (proj2 (N.ltb_lt c 128) Hc), IH. reflexivity.
Qed.





(** ** The dispatcher *)

(** The credential fields [load_config] requires. *)
Definition required : list pystr :=
  [lit "WECOM_CORP_ID"; lit "WECOM_CORP_SECRET"; lit "WECOM_AGENT_ID"].

(** The [env.vars] mapping of a configuration document, when it has one. *)
Definition cfg_vars (data : json) : option (list (pystr * json)) :=
  match data with
  | JObj top =>
      match lookup (lit "env") top with
      | Some (JObj e) =>
          match lookup (lit "vars") e with
          | Some (JObj v) => Some v
          | _ => None
          end
      | _ => None
      end
  | _ => None
  end.

(** A field of [env.vars]; [None] when the document does not have it. *)
Definition cfg_field (data : json) (k : pystr) : option json :=
  match cfg_vars data with
  | Some v => lookup k v
  | None => None
  end.

(** The document is an object, and [env] and [env.vars], where present,
    are objects too. *)
Definition env_shape_ok (data : json) : bool :=
  match data with
  | JObj top =>
      match lookup (lit "env") top with
      | None => true
      | Some (JObj e) =>
          match lookup (lit "vars") e with
          | None | Some (JObj _) => true
          | Some _ => false
          end
      | Some _ => false
      end
  | _ => false
  end.

(** At least one of the message, [--image] and [--file] is given and not
    empty: the test the script makes before anything else. *)
Definition provided (a : cli) : bool :=
  opt_truthy (cli_message a) || opt_truthy (cli_image a)
  || opt_truthy (cli_file a).

Lemma bind_halt {A B} (c : M A) (k : A -> M B) st st' h :
  c st = (st', Halt h) -> bind c k st = (st', Halt h).
Proof. intros H. unfold bind. rewrite H. reflexivity. Qed.

Lemma bind_ok {A B} (c : M A) (k : A -> M B) st st' x :
  c st = (st', Ok x) -> bind c k st = k x st'.
Proof. intros H. unfold bind. rewrite H. reflexivity. Qed.

Lemma bind_ret {A B} (x : A) (k : A -> M B) st : bind (ret x) k st = k x st.
Proof. reflexivity. Qed.

Lemma main_not_provided w a st :
  provided a = false ->
  main w a st
  = (st, Halt (Usage (lit "Must provide a message, --image, or --file"))).
Proof.
  unfold provided, main. cbn [parse_args message image file].
  rewrite !orb_false_iff. intros [[H1 H2] H3]. rewrite H1, H2, H3.
  reflexivity.
Qed.

Lemma main_provided w a st :
  provided a = true ->
  main w a st
  = bind (load_config w)
      (fun cfg =>
         let '(corp_id, corp_secret, agent_id, proxy) := cfg in
         let op := if py_truthy proxy then Proxied proxy else Direct in
         bind (get_access_token w corp_id corp_secret op)
           (fun token =>
              if opt_truthy (cli_image a) then
                media_id <- upload_media w token (opt_str (cli_image a))
                                         (lit "image") op ;;
                result <- send_image w token agent_id
                                     (JStr (to (parse_args a))) media_id op ;;
                msgid <- lift (py_get result (lit "msgid") (JStr [])) ;;
                print (py w) (dumps false
                         (JObj [(lit "ok", JBool true);
                                (lit "type", JStr (lit "image"));
                                (lit "to", JStr (to (parse_args a)));
                                (lit "media_id", media_id);
                                (lit "msgid", msgid)]))
              else if opt_truthy (cli_file a) then
                media_id <- upload_media w token (opt_str (cli_file a))
                                         (lit "file") op ;;
                result <- send_file w token agent_id
                                    (JStr (to (parse_args a))) media_id op ;;
                msgid <- lift (py_get result (lit "msgid") (JStr [])) ;;
                print (py w) (dumps false
                         (JObj [(lit "ok", JBool true);
                                (lit "type", JStr (lit "file"));
                                (lit "to", JStr (to (parse_args a)));
                                (lit "media_id", media_id);
                                (lit "msgid", msgid)]))
              else
                result <- send_text w token agent_id
                                    (JStr (to (parse_args a)))
                                    (py_opt (cli_message a)) op ;;
                msgid <- lift (py_get result (lit "msgid") (JStr [])) ;;
                print (py w) (dumps false
                         (JObj [(lit "ok", JBool true);
                                (lit "type", JStr (lit "text"));
                                (lit "to", JStr (to (parse_args a)));
                                (lit "msgid", msgid)]))))
      st.
Proof.
  unfold provided, main. cbn [parse_args message image file].
  intros H.
  destruct (opt_truthy (cli_message a)), (opt_truthy (cli_image a)),
    (opt_truthy (cli_file a)); try discriminate H; reflexivity.
Qed.

(** [load_config] makes no call and prints nothing. *)
Lemma load_config_state w st : fst (load_config w st) = st.
Proof.
  unfold load_config, bind, lift, sys_exit, raise, abort, ret.
  destruct (config_file w) as [ | e | data ]; try reflexivity.
  repeat match goal with
         | |- context [ py_get ?v ?k ?d ] => destruct (py_get v k d)
         | |- context [ py_int ?r ?v ] => destruct (py_int r v)
         | |- context [ if ?b then _ else _ ] => destruct b
         end; reflexivity.
Qed.

Lemma load_config_missing w st data k :
  config_file w = ConfigData data ->
  In k required -> cfg_field data k = None ->
  exists h, load_config w st = (st, Halt h)
            /\ (env_shape_ok data = true -> h = SysExit config_missing).
Proof.
  intros Hc Hk Hf.
  unfold load_config. rewrite Hc.
  unfold cfg_field, cfg_vars, env_shape_ok in *.
  unfold bind, lift, py_get, ret, raise, sys_exit, abort.
  destruct data as [ | | | | | top ];
    try (eexists; split; [ reflexivity | discriminate ]).
  destruct (lookup (lit "env") top) as [ [ | | | | | e ] | ];
    try (eexists; split; [ reflexivity | discriminate ]).
  - destruct (lookup (lit "vars") e) as [ [ | | | | | v ] | ];
      try (eexists; split; [ reflexivity | discriminate ]).
    + destruct Hk as [ <- | [ <- | [ <- | [] ] ] ]; rewrite Hf;
        repeat match goal with
               | |- context [ lookup ?k v ] => destruct (lookup k v)
               end;
        cbn [forallb py_truthy andb];
        repeat match goal with
               | |- context [ py_truthy ?x ] =>
                   is_var x; destruct (py_truthy x); cbn [andb]
               end;
        eexists; split; reflexivity.
    + eexists. split; reflexivity.
  - eexists. split; reflexivity.
Qed.

(** ** A sample world, for runs on concrete inputs *)

(** Decimal digits only: enough of [int(str)] for the samples; a UTF-8
    [sys.stdout] with the [strict] error handler. *)
Definition sample_int (s : pystr) : option Z :=
  match read_uint s with
  | (Nil, _) => None
  | (u, []) => Some (Z.of_uint u)
  | (_, _ :: _) => None
  end.

Definition sample_py : runtime :=
  {| repr_str := fun s => [39] ++ s ++ [39];
     int_of_str := sample_int;
     path_str := fun p => p;
     path_name := fun p => p;
     guess_type := fun _ => None;
     stdout_encodes := fun s => match str_encode s with
                                | Some _ => true
                                | None => false
                                end |}.

Definition sample_vars : list (pystr * json) :=
  [(lit "WECOM_CORP_ID", JStr (lit "corp"));
   (lit "WECOM_CORP_SECRET", JStr (lit "secret"));
   (lit "WECOM_AGENT_ID", JStr (lit "1000002"))].

Definition config_of (vars : list (pystr * json)) : json :=
  JObj [(lit "env", JObj [(lit "vars", JObj vars)])].

(** The vendor's replies: by the shape of the request, the token, the
    upload and the send reply. *)
Definition sample_net (token upload sent : reply) (_ : opener)
  (r : request) : reply :=
  match req_data r with
  | None => token
  | Some _ => if (req_timeout r =? 30)%Z then upload else sent
  end.

Definition token_ok : reply :=
  NetJson (JObj [(lit "errcode", JInt 0); (lit "access_token",
                                           JStr (lit "TOKEN"))]).
Definition upload_ok : reply :=
  NetJson (JObj [(lit "errcode", JInt 0); (lit "media_id",
                                           JStr (lit "MEDIA"))]).
Definition sent_ok : reply :=
  NetJson (JObj [(lit "errcode", JInt 0); (lit "msgid", JStr (lit "MSG"))]).

Definition sample_fs (p : pystr) : file_state :=
  if pystr_eq_dec p (lit "photo.png") then Content [137; 80; 78; 71]
  else Absent.

Definition sample_world (vars : list (pystr * json))
  (token upload sent : reply) : world :=
  {| py := sample_py;
     config_file := ConfigData (config_of vars);
     fs := sample_fs;
     uuid_hex := lit "0123456789abcdef0123456789abcdef";
     net := sample_net token upload sent |}.

(** A configuration without WECOM_AGENT_ID. *)
Definition no_agent_world : world :=
  sample_world [(lit "WECOM_CORP_ID", JStr (lit "corp"));
                (lit "WECOM_CORP_SECRET", JStr (lit "secret"))]
               token_ok upload_ok sent_ok.

Definition good_world : world :=
  sample_world sample_vars token_ok upload_ok sent_ok.

Definition text_cli (msg : string) : cli :=
  {| cli_message := Some (lit msg); cli_to := None;
     cli_image := None; cli_file := None |}.

Definition image_cli (path : string) : cli :=
  {| cli_message := None; cli_to := None;
     cli_image := Some (lit path); cli_file := None |}.

Definition file_cli (path : string) : cli :=
  {| cli_message := None; cli_to := None;
     cli_image := None; cli_file := Some (lit path) |}.

(** ** Configuration *)

(** C1: when the configuration lacks one of WECOM_CORP_ID,
    WECOM_CORP_SECRET and WECOM_AGENT_ID, a run makes no network call,
    prints nothing and ends with a status other than zero; for a document
    of the expected shape and a well-formed command line it ends in
    [sys.exit] with the "Missing ..." message. *)
Theorem missing_credential_aborts_before_network w a data k :
  config_file w = ConfigData data ->
  In k required -> cfg_field data k = None ->
  calls (fst (run w a)) = []
  /\ stdout (fst (run w a)) = []
  /\ exit_status (snd (run w a)) <> 0%Z
  /\ (provided a = true -> env_shape_ok data = true ->
      snd (run w a) = Halt (SysExit config_missing)).
Proof.
  intros Hc Hk Hf. unfold run.
  destruct (provided a) eqn:Hp.
  - rewrite main_provided by exact Hp.
    destruct (load_config_missing w init data k Hc Hk Hf) as (h & E & Hh).
    rewrite (bind_halt _ _ _ _ _ E). cbn [fst snd calls stdout init].
    repeat split.
    + destruct h; discriminate.
    + intros _ Hs. rewrite (Hh Hs). reflexivity.
  - rewrite main_not_provided by exact Hp. cbn.
    repeat split; discriminate.
Qed.

Lemma missing_credential_witness :
  calls (fst (run no_agent_world (text_cli "hello"))) = []
  /\ stdout (fst (run no_agent_world (text_cli "hello"))) = []
  /\ exit_status (snd (run no_agent_world (text_cli "hello"))) <> 0%Z
  /\ (provided (text_cli "hello") = true ->
      env_shape_ok (config_of [(lit "WECOM_CORP_ID", JStr (lit "corp"));
                               (lit "WECOM_CORP_SECRET",
                                JStr (lit "secret"))]) = true ->
      snd (run no_agent_world (text_cli "hello"))
      = Halt (SysExit config_missing)).
Proof.
  apply (missing_credential_aborts_before_network
           no_agent_world (text_cli "hello") _ (lit "WECOM_AGENT_ID")).
  - reflexivity.
  - right. right. left. reflexivity.
  - reflexivity.
Defined.

Lemma cfg_vars_inv data vars :
  cfg_vars data = Some vars ->
  exists top e, data = JObj top
                /\ lookup (lit "env") top = Some (JObj e)
                /\ lookup (lit "vars") e = Some (JObj vars).
Proof.
  unfold cfg_vars. destruct data as [ | | | | | top ]; try discriminate.
  destruct (lookup (lit "env") top) as [ [ | | | | | e ] | ] eqn:He;
    try discriminate.
  destruct (lookup (lit "vars") e) as [ [ | | | | | v ] | ] eqn:Hv;
    try discriminate.
  intros [= <-]. exists top, e. repeat split; reflexivity || assumption.
Qed.

(** What [load_config] does with the [env.vars] mapping it found. *)
Lemma load_config_vars w st data vars :
  config_file w = ConfigData data -> cfg_vars data = Some vars ->
  load_config w st
  = let get k d := match lookup k vars with Some x => x | None => d end in
    let corp_id := get (lit "WECOM_CORP_ID") JNull in
    let corp_secret := get (lit "WECOM_CORP_SECRET") JNull in
    let agent_id := get (lit "WECOM_AGENT_ID") JNull in
    let proxy := get (lit "WECOM_PROXY") (JStr []) in
    if py_truthy corp_id && py_truthy corp_secret && py_truthy agent_id
    then match py_int (py w) agent_id with
         | inr n => (st, Ok (corp_id, corp_secret, n, proxy))
         | inl e => (st, Halt (Uncaught e))
         end
    else (st, Halt (SysExit config_missing)).
Proof.
  intros Hc Hv.
  destruct (cfg_vars_inv data vars Hv) as (top & e & -> & He & Hvars).
  unfold load_config. rewrite Hc.
  unfold bind, lift, py_get, ret, raise, sys_exit, abort.
  rewrite He, Hvars. cbv zeta.
  destruct (lookup (lit "WECOM_CORP_ID") vars) as [ c | ],
    (lookup (lit "WECOM_CORP_SECRET") vars) as [ s | ],
    (lookup (lit "WECOM_AGENT_ID") vars) as [ g | ],
    (lookup (lit "WECOM_PROXY") vars) as [ p | ];
    cbn [forallb py_truthy andb negb];
    repeat match goal with
           | |- context [ py_truthy ?x ] =>
               is_var x; destruct (py_truthy x); cbn [andb negb]
           end;
    try reflexivity;
    destruct (py_int (py w) g); reflexivity.
Qed.

(** C10, amended: with the other two credentials in place, a
    WECOM_AGENT_ID that
    is truthy but that [int] does not convert makes [load_config] end in
    the uncaught conversion error, and not in the "Missing ..." exit: the
    error is [ValueError] when the value is a string and [TypeError] when
    it is an array or an object, the only other values [int] rejects; and
    a credential that is present but falsy (the empty string, zero, null,
    ...) is treated as a missing one. *)
Theorem agent_id_conversion_error_uncaught w st data vars :
  config_file w = ConfigData data -> cfg_vars data = Some vars ->
  (forall cid sec v e,
      lookup (lit "WECOM_CORP_ID") vars = Some cid ->
      py_truthy cid = true ->
      lookup (lit "WECOM_CORP_SECRET") vars = Some sec ->
      py_truthy sec = true ->
      lookup (lit "WECOM_AGENT_ID") vars = Some v ->
      py_truthy v = true ->
      py_int (py w) v = inl e ->
      load_config w st = (st, Halt (Uncaught e))
      /\ e = match v with
             | JStr _ => ValueError
             | _ => TypeError
             end
      /\ ((exists s, v = JStr s) \/ (exists l, v = JArr l)
          \/ (exists m, v = JObj m)))
  /\ (forall k x,
         In k required -> lookup k vars = Some x -> py_truthy x = false ->
         load_config w st = (st, Halt (SysExit config_missing))).
Proof.
  intros Hc Hv. rewrite (load_config_vars w st data vars Hc Hv). cbv zeta.
  split.
  - intros cid sec v e H1 T1 H2 T2 H3 T3 Hi.
    rewrite H1, H2, H3, T1, T2, T3, Hi. cbn [andb]. split; [ reflexivity | ].
    destruct v as [ | b | n | s | l | m ]; cbn [py_int] in Hi;
      try discriminate;
      try (destruct (int_of_str (py w) s); [ discriminate | ]);
      injection Hi as <-; (split; [ reflexivity | ]); eauto.
  - intros k x Hk Hx Hf.
    destruct Hk as [ <- | [ <- | [ <- | [] ] ] ]; rewrite Hx, Hf;
      rewrite ?andb_false_r; reflexivity.
Qed.

Lemma agent_id_conversion_error_witness :
  load_config
    (sample_world [(lit "WECOM_CORP_ID", JStr (lit "corp"));
                   (lit "WECOM_CORP_SECRET", JStr (lit "secret"));
                   (lit "WECOM_AGENT_ID", JStr (lit "abc"))]
                  token_ok upload_ok sent_ok) init
  = (init, Halt (Uncaught ValueError)).
Proof.
  apply (agent_id_conversion_error_uncaught
           (sample_world [(lit "WECOM_CORP_ID", JStr (lit "corp"));
                          (lit "WECOM_CORP_SECRET", JStr (lit "secret"));
                          (lit "WECOM_AGENT_ID", JStr (lit "abc"))]
                         token_ok upload_ok sent_ok)
           init _ _ eq_refl eq_refl)
    with (cid := JStr (lit "corp")) (sec := JStr (lit "secret"))
         (v := JStr (lit "abc")); reflexivity.
Defined.

(** ** The three network stages *)

Definition add_call (st : state) (c : call) : state :=
  {| calls := calls st ++ [c]; stdout := stdout st |}.

(** The [errcode] test every stage applies to the vendor's reply. *)
Definition checked (rt : runtime) (prefix : pystr) (data : json)
  : result json :=
  match py_get data (lit "errcode") (JInt 0) with
  | inl e => Halt (Uncaught e)
  | inr v =>
      if py_ne_zero v then Halt (SysExit (prefix ++ py_str rt data))
      else Ok data
  end.

(** How a stage ends, from the reply to its request: [field] is the key
    the stage returns, if it returns one. *)
Definition stage_result (rt : runtime) (prefix : pystr)
  (field : option pystr) (r : reply) : result json :=
  match r with
  | NetFail e => Halt (Uncaught e)
  | NetJunk => Halt (Uncaught JSONDecodeError)
  | NetJson data =>
      match checked rt prefix data with
      | Halt h => Halt h
      | Ok d =>
          match field with
          | None => Ok d
          | Some k =>
              match py_getitem d k with
              | inl e => Halt (Uncaught e)
              | inr x => Ok x
              end
          end
      end
  end.

Lemma stage_run_field w op req prefix k st :
  bind (open_json w op req)
    (fun data =>
       bind (lift (py_get data (lit "errcode") (JInt 0)))
         (fun errcode =>
            if py_ne_zero errcode
            then sys_exit (prefix ++ py_str (py w) data)
            else lift (py_getitem data k))) st
  = (add_call st (op, req),
     stage_result (py w) prefix (Some k) (net w op req)).
Proof.
  unfold bind, open_json, stage_result, checked, lift, sys_exit, raise,
    abort, ret, add_call.
  destruct (net w op req) as [ e | | data ]; try reflexivity.
  destruct (py_get data (lit "errcode") (JInt 0)) as [ e | v ];
    [ reflexivity | ].
  destruct (py_ne_zero v); [ reflexivity | ].
  destruct (py_getitem data k); reflexivity.
Qed.

Lemma stage_run_data w op req prefix st :
  bind (open_json w op req)
    (fun data =>
       bind (lift (py_get data (lit "errcode") (JInt 0)))
         (fun errcode =>
            if py_ne_zero errcode
            then sys_exit (prefix ++ py_str (py w) data)
            else ret data)) st
  = (add_call st (op, req), stage_result (py w) prefix None (net w op req)).
Proof.
  unfold bind, open_json, stage_result, checked, lift, sys_exit, raise,
    abort, ret, add_call.
  destruct (net w op req) as [ e | | data ]; try reflexivity.
  destruct (py_get data (lit "errcode") (JInt 0)) as [ e | v ];
    [ reflexivity | ].
  destruct (py_ne_zero v); reflexivity.
Qed.

Lemma get_access_token_run w corp_id corp_secret op st :
  get_access_token w corp_id corp_secret op st
  = (add_call st (op, token_request (py w) corp_id corp_secret),
     stage_result (py w) (lit "Error getting token: ")
       (Some (lit "access_token"))
       (net w op (token_request (py w) corp_id corp_secret))).
Proof. unfold get_access_token. apply stage_run_field. Qed.

(** The request [upload_media] sends for a readable file. *)
Definition upload_request (w : world) (access_token : json)
  (file_path media_type : pystr) (head file_data tail : bytes) : request :=
  {| req_url := upload_url (py w) access_token media_type;
     req_data := Some (head ++ file_data ++ tail);
     req_headers :=
       [(lit "Content-Type",
         lit "multipart/form-data; boundary=" ++ uuid_hex w)];
     req_timeout := 30 |}.

Definition content_type_of (w : world) (file_path : pystr) : pystr :=
  match guess_type (py w) (path_str (py w) file_path) with
  | Some (c :: t) => c :: t
  | _ => lit "application/octet-stream"
  end.

Lemma upload_media_run w token path kind op st :
  upload_media w token path kind op st
  = match fs w path with
    | Absent =>
        (st, Halt (SysExit (lit "Error: File not found: "
                            ++ path_str (py w) path)))
    | Unreadable e => (st, Halt (Uncaught e))
    | Content file_data =>
        match str_encode (multipart_head (uuid_hex w)
                            (path_name (py w) path)
                            (content_type_of w path)),
              str_encode (multipart_tail (uuid_hex w)) with
        | Some head, Some tail =>
            let req := upload_request w token path kind head file_data tail in
            (add_call st (op, req),
             stage_result (py w) (lit "Error uploading media: ")
               (Some (lit "media_id")) (net w op req))
        | _, _ => (st, Halt (Uncaught UnicodeEncodeError))
        end
    end.
Proof.
  unfold upload_media.
  destruct (fs w path) as [ | e | file_data ]; try reflexivity.
  fold (content_type_of w path). unfold encode.
  destruct (str_encode (multipart_head _ _ _)) as [ head | ];
    [ | reflexivity ].
  rewrite bind_ret.
  destruct (str_encode (multipart_tail _)) as [ tail | ]; [ | reflexivity ].
  rewrite bind_ret. cbv zeta. unfold upload_request.
  apply stage_run_field.
Qed.

(** The payloads of the three senders. *)
Definition text_payload (agent_id : Z) (to_user text : json) : json :=
  JObj [(lit "touser", to_user); (lit "msgtype", JStr (lit "text"));
        (lit "agentid", JInt agent_id);
        (lit "text", JObj [(lit "content", text)]); (lit "safe", JInt 0)].

Definition media_payload (kind : pystr) (agent_id : Z)
  (to_user media_id : json) : json :=
  JObj [(lit "touser", to_user); (lit "msgtype", JStr kind);
        (lit "agentid", JInt agent_id);
        (kind, JObj [(lit "media_id", media_id)]); (lit "safe", JInt 0)].

Definition send_request (w : world) (access_token : json) (body : bytes)
  : request :=
  {| req_url := send_url (py w) access_token;
     req_data := Some body;
     req_headers := json_headers;
     req_timeout := 10 |}.

(** A sender: serialise the payload, post it, test [errcode]. *)
Definition send_run (w : world) (access_token payload : json) (op : opener)
  (prefix : pystr) (st : state) : state * result json :=
  match str_encode (dumps true payload) with
  | Some body =>
      (add_call st (op, send_request w access_token body),
       stage_result (py w) prefix None
         (net w op (send_request w access_token body)))
  | None => (st, Halt (Uncaught UnicodeEncodeError))
  end.

Lemma send_text_run w token agent_id to_user text op st :
  send_text w token agent_id to_user text op st
  = send_run w token (text_payload agent_id to_user text) op
      (lit "Error sending message: ") st.
Proof.
  unfold send_text, send_run, encode. cbv zeta. fold (text_payload agent_id to_user text).
  destruct (str_encode _) as [ body | ]; [ | reflexivity ].
  rewrite bind_ret. apply stage_run_data.
Qed.

Lemma send_image_run w token agent_id to_user media_id op st :
  send_image w token agent_id to_user media_id op st
  = send_run w token (media_payload (lit "image") agent_id to_user media_id)
      op (lit "Error sending image: ") st.
Proof.
  unfold send_image, send_run, encode. cbv zeta.
  fold (media_payload (lit "image") agent_id to_user media_id).
  destruct (str_encode _) as [ body | ]; [ | reflexivity ].
  rewrite bind_ret. apply stage_run_data.
Qed.

Lemma send_file_run w token agent_id to_user media_id op st :
  send_file w token agent_id to_user media_id op st
  = send_run w token (media_payload (lit "file") agent_id to_user media_id)
      op (lit "Error sending file: ") st.
Proof.
  unfold send_file, send_run, encode. cbv zeta.
  fold (media_payload (lit "file") agent_id to_user media_id).
  destruct (str_encode _) as [ body | ]; [ | reflexivity ].
  rewrite bind_ret. apply stage_run_data.
Qed.

(** ** Runs of [main] *)

(** The attachment a run uploads: [--image] before [--file]. *)
Definition attachment (a : cli) : option (pystr * pystr) :=
  if opt_truthy (cli_image a) then Some (lit "image", opt_str (cli_image a))
  else if opt_truthy (cli_file a)
       then Some (lit "file", opt_str (cli_file a))
       else None.

Definition opener_of (proxy : json) : opener :=
  if py_truthy proxy then Proxied proxy else Direct.

(** The end of a run: the result line, from the reply to the send. *)
Definition report (rt : runtime) (fields : json -> json)
  (r : state * result json) : state * result unit :=
  match r with
  | (st, Halt h) => (st, Halt h)
  | (st, Ok result) =>
      match py_get result (lit "msgid") (JStr []) with
      | inl e => (st, Halt (Uncaught e))
      | inr msgid =>
          if stdout_encodes rt (dumps false (fields msgid))
          then ({| calls := calls st;
                   stdout := stdout st ++ [dumps false (fields msgid)] |},
                Ok tt)
          else (st, Halt (Uncaught UnicodeEncodeError))
      end
  end.

Definition text_fields (to_user : pystr) (msgid : json) : json :=
  JObj [(lit "ok", JBool true); (lit "type", JStr (lit "text"));
        (lit "to", JStr to_user); (lit "msgid", msgid)].

Definition media_fields (kind to_user : pystr) (media_id msgid : json)
  : json :=
  JObj [(lit "ok", JBool true); (lit "type", JStr kind);
        (lit "to", JStr to_user); (lit "media_id", media_id);
        (lit "msgid", msgid)].

Definition send_prefix (kind : pystr) : pystr :=
  lit "Error sending " ++ kind ++ lit ": ".

(** A run, stage by stage, once the configuration is loaded. *)
Definition after_config (w : world) (a : cli)
  (cfg : json * json * Z * json) : state * result unit :=
  let '(corp_id, corp_secret, agent_id, proxy) := cfg in
  let op := opener_of proxy in
  let to_user := to (parse_args a) in
  match get_access_token w corp_id corp_secret op init with
  | (st1, Halt h) => (st1, Halt h)
  | (st1, Ok token) =>
      match attachment a with
      | Some (kind, path) =>
          match upload_media w token path kind op st1 with
          | (st2, Halt h) => (st2, Halt h)
          | (st2, Ok media_id) =>
              report (py w) (media_fields kind to_user media_id)
                (send_run w token
                   (media_payload kind agent_id (JStr to_user) media_id)
                   op (send_prefix kind) st2)
          end
      | None =>
          report (py w) (text_fields to_user)
            (send_run w token
               (text_payload agent_id (JStr to_user) (py_opt (cli_message a)))
               op (lit "Error sending message: ") st1)
      end
  end.

Lemma report_bind rt fields (c : M json) st :
  bind c (fun result =>
            bind (lift (py_get result (lit "msgid") (JStr [])))
              (fun msgid => print rt (dumps false (fields msgid)))) st
  = report rt fields (c st).
Proof.
  unfold bind, report, lift, print, raise, abort, ret.
  destruct (c st) as [st' [ result | h ]]; [ | reflexivity ].
  destruct (py_get result (lit "msgid") (JStr [])); reflexivity.
Qed.

Lemma run_after_config w a cfg :
  provided a = true -> load_config w init = (init, Ok cfg) ->
  run w a = after_config w a cfg.
Proof.
  intros Hp Hc. unfold run. rewrite main_provided by exact Hp.
  rewrite (bind_ok _ _ _ _ _ Hc).
  destruct cfg as [[[corp_id corp_secret] agent_id] proxy].
  unfold after_config, attachment. fold (opener_of proxy).
  unfold bind at 1.
  destruct (get_access_token w corp_id corp_secret (opener_of proxy) init)
    as [st1 [ token | h ]]; [ | reflexivity ].
  destruct (opt_truthy (cli_image a)).
  - unfold bind at 1.
    destruct (upload_media w token (opt_str (cli_image a)) (lit "image")
                (opener_of proxy) st1) as [st2 [ media_id | h ]];
      [ | reflexivity ].
    rewrite (report_bind (py w) (media_fields (lit "image") (to (parse_args a))
                            media_id)).
    rewrite send_image_run. reflexivity.
  - destruct (opt_truthy (cli_file a)).
    + unfold bind at 1.
      destruct (upload_media w token (opt_str (cli_file a)) (lit "file")
                  (opener_of proxy) st1) as [st2 [ media_id | h ]];
        [ | reflexivity ].
      rewrite (report_bind (py w) (media_fields (lit "file") (to (parse_args a))
                              media_id)).
      rewrite send_file_run. reflexivity.
    + rewrite (report_bind (py w) (text_fields (to (parse_args a)))).
      rewrite send_text_run. reflexivity.
Qed.

(** A run that does not get past the configuration makes no call. *)
Lemma run_config_halt w a h :
  load_config w init = (init, Halt h) -> provided a = true ->
  run w a = (init, Halt h).
Proof.
  intros Hc Hp. unfold run. rewrite main_provided by exact Hp.
  apply bind_halt. exact Hc.
Qed.

Lemma load_config_cases w :
  (exists cfg, load_config w init = (init, Ok cfg))
  \/ (exists h, load_config w init = (init, Halt h)).
Proof.
  pose proof (load_config_state w init) as Hs.
  destruct (load_config w init) as [st [ cfg | h ]]; cbn [fst] in Hs;
    subst st; eauto.
Qed.

(** The trace of the token stage. *)
Lemma token_stage w corp_id corp_secret op :
  exists r,
    get_access_token w corp_id corp_secret op init
    = (add_call init (op, token_request (py w) corp_id corp_secret), r).
Proof. rewrite get_access_token_run. eexists. reflexivity. Qed.

(** C2: when the attachment of an image or file message is not an
    existing file, a run issues no request carrying a body (neither an
    upload nor a send) and at most one request, prints nothing and ends
    with a status other than zero; and once the configuration is loaded
    and the token obtained, the token request is the only call and the run
    ends in [sys.exit] with the "File not found" message. *)
Theorem missing_attachment_aborts_before_upload w a kind path :
  attachment a = Some (kind, path) -> fs w path = Absent ->
  (forall c, In c (calls (fst (run w a))) -> req_data (snd c) = None)
  /\ (List.length (calls (fst (run w a))) <= 1)%nat
  /\ stdout (fst (run w a)) = []
  /\ exit_status (snd (run w a)) <> 0%Z
  /\ (forall corp_id corp_secret agent_id proxy st1 token,
         load_config w init
         = (init, Ok (corp_id, corp_secret, agent_id, proxy)) ->
         get_access_token w corp_id corp_secret (opener_of proxy) init
         = (st1, Ok token) ->
         calls (fst (run w a))
         = [(opener_of proxy, token_request (py w) corp_id corp_secret)]
         /\ snd (run w a)
            = Halt (SysExit (lit "Error: File not found: "
                             ++ path_str (py w) path))).
Proof.
  intros Ha Hfs.
  assert (Hp : provided a = true).
  { unfold attachment in Ha. unfold provided.
    destruct (opt_truthy (cli_message a)), (opt_truthy (cli_image a)),
      (opt_truthy (cli_file a)); try reflexivity; discriminate. }
  destruct (load_config_cases w) as [ [cfg Hc] | [h Hc] ].
  - rewrite (run_after_config w a cfg Hp Hc).
    destruct cfg as [[[corp_id corp_secret] agent_id] proxy].
    unfold after_config. rewrite Ha.
    rewrite get_access_token_run.
    destruct (stage_result _ _ _ _) as [ token | h ] eqn:Ht.
    + rewrite upload_media_run, Hfs.
      cbn [fst snd calls stdout add_call init List.app In].
      split; [ | split; [ | split; [ | split ] ] ].
      * intros c Hin; destruct Hin as [ E | F ]; [ subst c; reflexivity | destruct F ].
      * cbn. lia.
      * reflexivity.
      * discriminate.
      * intros ? ? ? ? ? ? E1 _. rewrite Hc in E1.
        injection E1 as <- <- <- <-. split; reflexivity.
    + cbn [fst snd calls stdout add_call init List.app In].
      split; [ | split; [ | split; [ | split ] ] ].
      * intros c Hin; destruct Hin as [ E | F ]; [ subst c; reflexivity | destruct F ].
      * cbn. lia.
      * reflexivity.
      * destruct h; discriminate.
      * intros ? ? ? ? ? ? E1 E. rewrite Hc in E1.
        injection E1 as <- <- <- <-.
        rewrite get_access_token_run, Ht in E. discriminate.
  - rewrite (run_config_halt w a h Hc Hp). cbn [fst snd calls stdout init In].
    split; [ | split; [ | split; [ | split ] ] ].
    + intros c [].
    + cbn. lia.
    + reflexivity.
    + destruct h; discriminate.
    + intros. congruence.
Qed.

Lemma missing_attachment_witness :
  calls (fst (run good_world (image_cli "nowhere.png")))
  = [(Direct, token_request sample_py (JStr (lit "corp"))
                (JStr (lit "secret")))]
  /\ snd (run good_world (image_cli "nowhere.png"))
     = Halt (SysExit (lit "Error: File not found: nowhere.png")).
Proof.
  apply (missing_attachment_aborts_before_upload
           good_world (image_cli "nowhere.png")
           (lit "image") (lit "nowhere.png") eq_refl eq_refl)
    with (agent_id := 1000002%Z) (proxy := JStr [])
         (st1 := add_call init
                   (Direct, token_request sample_py (JStr (lit "corp"))
                              (JStr (lit "secret"))))
         (token := JStr (lit "TOKEN")); reflexivity.
Defined.

(** ** Vendor errors *)

(** The reply is a JSON object whose [errcode] is not zero. *)
Definition error_reply (r : reply) (data : json) : Prop :=
  exists m v, data = JObj m /\ r = NetJson data
              /\ lookup (lit "errcode") m = Some v /\ py_ne_zero v = true.

(** The messages of the five error exits after a request. *)
Definition stage_prefixes : list pystr :=
  [lit "Error getting token: "; lit "Error uploading media: ";
   lit "Error sending message: "; lit "Error sending image: ";
   lit "Error sending file: "].

Lemma stage_error rt prefix field r data :
  error_reply r data ->
  stage_result rt prefix field r
  = Halt (SysExit (prefix ++ py_str rt data)).
Proof.
  intros (m & v & -> & -> & Hl & Hv).
  unfold stage_result, checked, py_get. rewrite Hl, Hv. reflexivity.
Qed.

Lemma stage_ok_no_error rt prefix field r data x :
  stage_result rt prefix field r = Ok x -> ~ error_reply r data.
Proof.
  intros H E. rewrite (stage_error rt prefix field r data E) in H.
  discriminate.
Qed.

Lemma send_prefix_image : send_prefix (lit "image") = lit "Error sending image: ".
Proof. reflexivity. Qed.

Lemma send_prefix_file : send_prefix (lit "file") = lit "Error sending file: ".
Proof. reflexivity. Qed.

Lemma attachment_kind a kind path :
  attachment a = Some (kind, path) -> kind = lit "image" \/ kind = lit "file".
Proof.
  unfold attachment.
  destruct (opt_truthy (cli_image a)); [ intros [= <- _]; auto | ].
  destruct (opt_truthy (cli_file a)); [ intros [= <- _]; auto | discriminate ].
Qed.

Ltac pick_call Hn n :=
  first
    [ discriminate Hn
    | destruct n as [ | n ]; cbn [nth_error] in Hn;
      [ first [ discriminate Hn | injection Hn as <- ] | pick_call Hn n ] ].

(** C3: in any run, a request whose reply is a JSON object with a
    non-zero [errcode] is the last request made; nothing is printed, the
    status is 1, and the run ends in [sys.exit] with the stage's message
    followed by [str] of the parsed reply. *)
Theorem errcode_aborts_at_stage w a n c data :
  nth_error (calls (fst (run w a))) n = Some c ->
  error_reply (net w (fst c) (snd c)) data ->
  List.length (calls (fst (run w a))) = S n
  /\ stdout (fst (run w a)) = []
  /\ exit_status (snd (run w a)) = 1%Z
  /\ exists prefix,
       In prefix stage_prefixes
       /\ snd (run w a) = Halt (SysExit (prefix ++ py_str (py w) data)).
Proof.
  intros Hn He.
  destruct (provided a) eqn:Hp;
    [ | unfold run in Hn; rewrite main_not_provided in Hn by exact Hp;
        destruct n; discriminate Hn ].
  destruct (load_config_cases w) as [ [cfg Hc] | [h Hc] ];
    [ | rewrite (run_config_halt w a h Hc Hp) in Hn;
        destruct n; discriminate Hn ].
  rewrite (run_after_config w a cfg Hp Hc) in *.
  destruct cfg as [[[corp_id corp_secret] agent_id] proxy].
  unfold after_config in *. rewrite get_access_token_run in *.
  set (op := opener_of proxy) in *.
  set (c1 := (op, token_request (py w) corp_id corp_secret)) in *.
  destruct (stage_result (py w) (lit "Error getting token: ") _ _)
    as [ token | h ] eqn:R1.
  2:{ cbn [fst snd calls stdout add_call init List.app] in *.
      pick_call Hn n. unfold c1 in He. cbn [fst snd] in He.
      rewrite (stage_error _ _ _ _ _ He) in R1. injection R1 as <-.
      repeat split. eexists. split; [ left; reflexivity | reflexivity ]. }
  assert (N1 : ~ error_reply (net w (fst c1) (snd c1)) data)
    by (eapply stage_ok_no_error; exact R1).
  destruct (attachment a) as [ [kind path] | ] eqn:Ha.
  - rewrite upload_media_run in *.
    destruct (fs w path) as [ | e | file_data ];
      try (cbn [fst snd calls stdout add_call init List.app] in *;
           pick_call Hn n; contradiction).
    destruct (str_encode (multipart_head _ _ _)) as [ head | ];
      [ | cbn [fst snd calls stdout add_call init List.app] in *;
          pick_call Hn n; contradiction ].
    destruct (str_encode (multipart_tail _)) as [ tail | ];
      [ | cbn [fst snd calls stdout add_call init List.app] in *;
          pick_call Hn n; contradiction ].
    cbv zeta in *.
    set (c2 := (op, upload_request w token path kind head file_data tail))
      in *.
    destruct (stage_result (py w) (lit "Error uploading media: ") _ _)
      as [ media_id | h ] eqn:R2.
    2:{ cbn [fst snd calls stdout add_call init List.app] in *.
        pick_call Hn n; [ contradiction | ].
        unfold c2 in He. cbn [fst snd] in He.
        rewrite (stage_error _ _ _ _ _ He) in R2. injection R2 as <-.
        repeat split.
        eexists. split; [ right; left; reflexivity | reflexivity ]. }
    assert (N2 : ~ error_reply (net w (fst c2) (snd c2)) data)
      by (eapply stage_ok_no_error; exact R2).
    unfold send_run in *.
    destruct (str_encode (dumps true _)) as [ body | ];
      [ | cbn [report fst snd calls stdout add_call init List.app] in *;
          pick_call Hn n; contradiction ].
    set (c3 := (op, send_request w token body)) in *.
    destruct (stage_result (py w) (send_prefix kind) None _)
      as [ result | h ] eqn:R3.
    + assert (N3 : ~ error_reply (net w (fst c3) (snd c3)) data)
        by (eapply stage_ok_no_error; exact R3).
      unfold report in *.
      destruct (py_get result (lit "msgid") (JStr []));
        [ | destruct (stdout_encodes _ _) ];
        cbn [fst snd calls stdout add_call init List.app] in *;
        pick_call Hn n; contradiction.
    + cbn [report fst snd calls stdout add_call init List.app] in *.
      pick_call Hn n; try contradiction.
      unfold c3 in He. cbn [fst snd] in He.
      rewrite (stage_error _ _ _ _ _ He) in R3. injection R3 as <-.
      repeat split.
      destruct (attachment_kind a kind path Ha) as [ -> | -> ].
      * exists (lit "Error sending image: ").
        split; [ right; right; right; left; reflexivity | reflexivity ].
      * exists (lit "Error sending file: ").
        split; [ do 4 right; left; reflexivity | reflexivity ].
  - unfold send_run in *.
    destruct (str_encode (dumps true _)) as [ body | ];
      [ | cbn [report fst snd calls stdout add_call init List.app] in *;
          pick_call Hn n; contradiction ].
    set (c3 := (op, send_request w token body)) in *.
    destruct (stage_result (py w) (lit "Error sending message: ") None _)
      as [ result | h ] eqn:R3.
    + assert (N3 : ~ error_reply (net w (fst c3) (snd c3)) data)
        by (eapply stage_ok_no_error; exact R3).
      unfold report in *.
      destruct (py_get result (lit "msgid") (JStr []));
        [ | destruct (stdout_encodes _ _) ];
        cbn [fst snd calls stdout add_call init List.app] in *;
        pick_call Hn n; contradiction.
    + cbn [report fst snd calls stdout add_call init List.app] in *.
      pick_call Hn n; try contradiction.
      unfold c3 in He. cbn [fst snd] in He.
      rewrite (stage_error _ _ _ _ _ He) in R3. injection R3 as <-.
      repeat split.
      eexists. split; [ right; right; left; reflexivity | reflexivity ].
Qed.

Lemma errcode_aborts_witness :
  List.length
    (calls (fst (run (sample_world sample_vars
                        (NetJson (JObj [(lit "errcode", JInt 40013)]))
                        upload_ok sent_ok) (text_cli "hello")))) = 1%nat
  /\ stdout (fst (run (sample_world sample_vars
                         (NetJson (JObj [(lit "errcode", JInt 40013)]))
                         upload_ok sent_ok) (text_cli "hello"))) = []
  /\ exit_status
       (snd (run (sample_world sample_vars
                    (NetJson (JObj [(lit "errcode", JInt 40013)]))
                    upload_ok sent_ok) (text_cli "hello"))) = 1%Z
  /\ exists prefix,
       In prefix stage_prefixes
       /\ snd (run (sample_world sample_vars
                      (NetJson (JObj [(lit "errcode", JInt 40013)]))
                      upload_ok sent_ok) (text_cli "hello"))
          = Halt (SysExit
                    (prefix
                     ++ py_str sample_py
                          (JObj [(lit "errcode", JInt 40013)]))).
Proof.
  apply (errcode_aborts_at_stage
           (sample_world sample_vars
              (NetJson (JObj [(lit "errcode", JInt 40013)]))
              upload_ok sent_ok)
           (text_cli "hello") 0
           (Direct, token_request sample_py (JStr (lit "corp"))
                      (JStr (lit "secret")))
           (JObj [(lit "errcode", JInt 40013)])).
  - reflexivity.
  - exists [(lit "errcode", JInt 40013)], (JInt 40013).
    repeat split; reflexivity.
Defined.

(** ** Replies without [errcode] *)

(** C8, as stated, fails: a token reply that is an empty object has no
    [errcode], and the run does not proceed: it ends in an uncaught
    [KeyError] for [access_token], after the one token request. *)
Lemma errcode_absent_counterexample :
  lookup (lit "errcode") [] = None
  /\ run (sample_world sample_vars (NetJson (JObj [])) upload_ok sent_ok)
         (text_cli "hello")
     = (add_call init
          (Direct, token_request sample_py (JStr (lit "corp"))
                     (JStr (lit "secret"))),
        Halt (Uncaught (KeyError (lit "access_token")))).
Proof. split; reflexivity. Qed.

Lemma stage_no_errcode rt prefix field m :
  lookup (lit "errcode") m = None ->
  stage_result rt prefix field (NetJson (JObj m))
  = match field with
    | None => Ok (JObj m)
    | Some k =>
        match lookup k m with
        | Some x => Ok x
        | None => Halt (Uncaught (KeyError k))
        end
    end.
Proof.
  intros H. unfold stage_result, checked, py_get, py_getitem. rewrite H.
  cbn [py_ne_zero Z.eqb negb]. destruct field as [ k | ]; [ | reflexivity ].
  destruct (lookup k m); reflexivity.
Qed.

(** C8, amended: a reply that is a JSON object without [errcode] passes
    the [errcode] test of every stage.  The send stage then returns the
    reply; the token and the upload stage return its [access_token] and
    [media_id] field, and end in an uncaught [KeyError] when the reply
    does not have that field. *)
Theorem errcode_absent_passes_check w m op st :
  lookup (lit "errcode") m = None ->
  (forall corp_id corp_secret,
      net w op (token_request (py w) corp_id corp_secret)
      = NetJson (JObj m) ->
      get_access_token w corp_id corp_secret op st
      = (add_call st (op, token_request (py w) corp_id corp_secret),
         match lookup (lit "access_token") m with
         | Some token => Ok token
         | None => Halt (Uncaught (KeyError (lit "access_token")))
         end))
  /\ (forall token path kind file_data head tail,
         fs w path = Content file_data ->
         str_encode (multipart_head (uuid_hex w) (path_name (py w) path)
                       (content_type_of w path)) = Some head ->
         str_encode (multipart_tail (uuid_hex w)) = Some tail ->
         net w op (upload_request w token path kind head file_data tail)
         = NetJson (JObj m) ->
         upload_media w token path kind op st
         = (add_call st
              (op, upload_request w token path kind head file_data tail),
            match lookup (lit "media_id") m with
            | Some media_id => Ok media_id
            | None => Halt (Uncaught (KeyError (lit "media_id")))
            end))
  /\ (forall token payload prefix body,
         str_encode (dumps true payload) = Some body ->
         net w op (send_request w token body) = NetJson (JObj m) ->
         send_run w token payload op prefix st
         = (add_call st (op, send_request w token body), Ok (JObj m))).
Proof.
  intros H. split; [ | split ].
  - intros corp_id corp_secret Hr.
    rewrite get_access_token_run, Hr, stage_no_errcode by exact H.
    reflexivity.
  - intros token path kind file_data head tail Hf Hh Ht Hr.
    rewrite upload_media_run, Hf, Hh, Ht. cbv zeta.
    rewrite Hr, stage_no_errcode by exact H. reflexivity.
  - intros token payload prefix body Hb Hr.
    unfold send_run. rewrite Hb, Hr, stage_no_errcode by exact H.
    reflexivity.
Qed.

Lemma errcode_absent_witness :
  get_access_token
    (sample_world sample_vars
       (NetJson (JObj [(lit "access_token", JStr (lit "TOKEN"))]))
       upload_ok sent_ok)
    (JStr (lit "corp")) (JStr (lit "secret")) Direct init
  = (add_call init
       (Direct, token_request sample_py (JStr (lit "corp"))
                  (JStr (lit "secret"))),
     Ok (JStr (lit "TOKEN"))).
Proof.
  apply (errcode_absent_passes_check
           (sample_world sample_vars
              (NetJson (JObj [(lit "access_token", JStr (lit "TOKEN"))]))
              upload_ok sent_ok)
           [(lit "access_token", JStr (lit "TOKEN"))] Direct init eq_refl).
  reflexivity.
Defined.

(** ** Successful runs *)

Lemma stage_ok_inv rt prefix field r x :
  stage_result rt prefix field r = Ok x ->
  exists m, r = NetJson (JObj m)
            /\ match field with
               | None => x = JObj m
               | Some k => lookup k m = Some x
               end.
Proof.
  unfold stage_result, checked, py_get, py_getitem.
  destruct r as [ e | | data ]; try discriminate.
  destruct data as [ | | | | | m ]; try discriminate.
  assert (Hf : match field with
               | Some k =>
                   match match lookup k m with
                         | Some x0 => inr x0
                         | None => inl (KeyError k)
                         end with
                   | inl e => Halt (Uncaught e)
                   | inr x0 => Ok x0
                   end
               | None => Ok (JObj m)
               end = Ok x ->
               exists m0, NetJson (JObj m) = NetJson (JObj m0)
                          /\ match field with
                             | None => x = JObj m0
                             | Some k => lookup k m0 = Some x
                             end).
  { intros H. exists m. split; [ reflexivity | ].
    destruct field as [ k | ].
    - destruct (lookup k m); [ injection H as <-; reflexivity | discriminate ].
    - injection H as <-. reflexivity. }
  destruct (lookup (lit "errcode") m) as [ v | ].
  - destruct (py_ne_zero v); [ discriminate | exact Hf ].
  - cbn [py_ne_zero Z.eqb negb]. exact Hf.
Qed.

(** The [msgid] a run reports: the reply's, or the empty string. *)
Definition msgid_of (m : list (pystr * json)) : json :=
  match lookup (lit "msgid") m with
  | Some x => x
  | None => JStr []
  end.

(** A successful run, taken apart: the calls it made, the replies it got
    and the line it printed. *)
Lemma run_success w a st :
  run w a = (st, Ok tt) ->
  exists corp_id corp_secret agent_id proxy token body m3,
    load_config w init = (init, Ok (corp_id, corp_secret, agent_id, proxy))
    /\ let op := opener_of proxy in
       let c1 := (op, token_request (py w) corp_id corp_secret) in
       let c3 := (op, send_request w token body) in
       let to_user := to (parse_args a) in
       (exists m1, net w op (snd c1) = NetJson (JObj m1)
                   /\ lookup (lit "access_token") m1 = Some token)
       /\ net w op (snd c3) = NetJson (JObj m3)
       /\ match attachment a with
          | None =>
              str_encode (dumps true
                            (text_payload agent_id (JStr to_user)
                               (py_opt (cli_message a)))) = Some body
              /\ st = {| calls := [c1; c3];
                         stdout := [dumps false
                                      (text_fields to_user (msgid_of m3))] |}
          | Some (kind, path) =>
              exists media_id head file_data tail m2,
                let c2 := (op, upload_request w token path kind head
                                 file_data tail) in
                fs w path = Content file_data
                /\ net w op (snd c2) = NetJson (JObj m2)
                /\ lookup (lit "media_id") m2 = Some media_id
                /\ str_encode (dumps true
                                 (media_payload kind agent_id (JStr to_user)
                                    media_id)) = Some body
                /\ st = {| calls := [c1; c2; c3];
                           stdout := [dumps false
                                        (media_fields kind to_user media_id
                                           (msgid_of m3))] |}
          end.
Proof.
  intros Hr.
  destruct (provided a) eqn:Hp;
    [ | unfold run in Hr; rewrite main_not_provided in Hr by exact Hp;
        discriminate ].
  destruct (load_config_cases w) as [ [cfg Hc] | [h Hc] ];
    [ | rewrite (run_config_halt w a h Hc Hp) in Hr; discriminate ].
  rewrite (run_after_config w a cfg Hp Hc) in Hr.
  destruct cfg as [[[corp_id corp_secret] agent_id] proxy].
  unfold after_config in Hr. rewrite get_access_token_run in Hr.
  destruct (stage_result (py w) (lit "Error getting token: ") _ _)
    as [ token | h ] eqn:R1; [ | discriminate ].
  destruct (stage_ok_inv _ _ _ _ _ R1) as (m1 & N1 & L1).
  exists corp_id, corp_secret, agent_id, proxy, token.
  destruct (attachment a) as [ [kind path] | ].
  - rewrite upload_media_run in Hr.
    destruct (fs w path) as [ | e | file_data ] eqn:Hfs; try discriminate.
    destruct (str_encode (multipart_head _ _ _)) as [ head | ];
      [ | discriminate ].
    destruct (str_encode (multipart_tail _)) as [ tail | ];
      [ | discriminate ].
    cbv zeta in Hr.
    destruct (stage_result (py w) (lit "Error uploading media: ") _ _)
      as [ media_id | h ] eqn:R2; [ | discriminate ].
    destruct (stage_ok_inv _ _ _ _ _ R2) as (m2 & N2 & L2).
    unfold send_run in Hr.
    destruct (str_encode (dumps true _)) as [ body | ] eqn:Hb;
      [ | discriminate ].
    destruct (stage_result (py w) (send_prefix kind) None _)
      as [ result | h ] eqn:R3; [ | discriminate ].
    destruct (stage_ok_inv _ _ _ _ _ R3) as (m3 & N3 & ->).
    exists body, m3. split; [ exact Hc | ]. cbv zeta.
    unfold report, py_get in Hr. unfold msgid_of.
    destruct (lookup (lit "msgid") m3); cbv beta iota in Hr;
      (destruct (stdout_encodes _ _); [ | discriminate Hr ]);
      injection Hr as <-.
    all: cbn [calls stdout add_call init List.app].
    all: split; [ exists m1; split; assumption | ].
    all: split; [ exact N3 | ].
    all: exists media_id, head, file_data, tail, m2.
    all: repeat split; try assumption; reflexivity.
  - unfold send_run in Hr.
    destruct (str_encode (dumps true _)) as [ body | ] eqn:Hb;
      [ | discriminate ].
    destruct (stage_result (py w) (lit "Error sending message: ") None _)
      as [ result | h ] eqn:R3; [ | discriminate ].
    destruct (stage_ok_inv _ _ _ _ _ R3) as (m3 & N3 & ->).
    exists body, m3. split; [ exact Hc | ]. cbv zeta.
    unfold report, py_get in Hr. unfold msgid_of.
    destruct (lookup (lit "msgid") m3); cbv beta iota in Hr;
      (destruct (stdout_encodes _ _); [ | discriminate Hr ]);
      injection Hr as <-.
    all: cbn [calls stdout add_call init List.app].
    all: split; [ exists m1; split; assumption | ].
    all: split; [ exact N3 | ].
    all: split; [ exact Hb | reflexivity ].
Qed.

Lemma dumps_one_line a j : ~ In 10 (dumps a j).
Proof.
  intros H. pose proof (dumps_visible a j) as V.
  rewrite Forall_forall in V. specialize (V 10 H). lia.
Qed.

Lemma join_items_snoc l x :
  l <> [] -> join_items (l ++ [x]) = join_items l ++ [44; 32] ++ x.
Proof.
  induction l as [ | y r IH ]; [ congruence | ]. intros _.
  destruct r as [ | z r ]; [ reflexivity | ].
  change ((y :: z :: r) ++ [x]) with (y :: (z :: r) ++ [x]).
  change ((z :: r) ++ [x]) with (z :: r ++ [x]) at 1.
  rewrite join_items_cons.
  change (z :: r ++ [x]) with ((z :: r) ++ [x]).
  rewrite IH by discriminate. rewrite join_items_cons.
  rewrite <- !List.app_assoc. reflexivity.
Qed.

(** The text that ends a result line whose [msgid] is the empty string. *)
Definition empty_msgid_tail : pystr :=
  lit ", " ++ [34] ++ lit "msgid" ++ [34] ++ lit ": " ++ [34; 34; 125].

Lemma dumps_empty_msgid fields :
  fields <> [] ->
  dumps false (JObj (fields ++ [(lit "msgid", JStr [])]))
  = (123 :: join_items (map (member_text false) fields)) ++ empty_msgid_tail.
Proof.
  intros H. rewrite dumps_obj, map_app. cbn [map].
  rewrite join_items_snoc by (destruct fields; [ congruence | discriminate ]).
  cbn [List.app]. rewrite <- !List.app_assoc. reflexivity.
Qed.

(** C9: when the reply to the send of a successful run has no [msgid],
    the one line printed is the JSON text of an object that has the key
    [msgid] with the empty string as its value: the line ends with
    [, "msgid": ""}]. *)
Theorem missing_msgid_printed_empty w a st pre c m3 :
  run w a = (st, Ok tt) ->
  calls st = pre ++ [c] ->
  net w (fst c) (snd c) = NetJson (JObj m3) ->
  lookup (lit "msgid") m3 = None ->
  exists line fields front,
    stdout st = [line]
    /\ line = dumps false (JObj fields)
    /\ lookup (lit "msgid") fields = Some (JStr [])
    /\ line = front ++ empty_msgid_tail.
Proof.
  intros Hr Hcalls Hn Hm.
  destruct (run_success w a st Hr)
    as (corp_id & corp_secret & agent_id & proxy & token & body & m3'
        & Hc & _ & N3 & Hrest).
  cbv zeta in N3. cbn [fst snd] in N3.
  assert (Hlast : forall front' : list call,
             calls st = front' ++ [(opener_of proxy,
                                    send_request w token body)] ->
             msgid_of m3' = JStr []).
  { intros front' E. rewrite E in Hcalls.
    apply app_inj_tail in Hcalls. destruct Hcalls as [_ <-].
    cbn [fst snd] in Hn. rewrite Hn in N3. injection N3 as <-.
    unfold msgid_of. rewrite Hm. reflexivity. }
  destruct (attachment a) as [ [kind path] | ].
  - destruct Hrest as (media_id & head & file_data & tail & m2
                       & Hf & N2 & L2 & Hb & ->).
    cbn [calls stdout] in *.
    rewrite (Hlast [_; _] eq_refl).
    eexists _, _, _. split; [ reflexivity | ].
    split; [ reflexivity | ]. split; [ reflexivity | ].
    apply (dumps_empty_msgid
             [(lit "ok", JBool true); (lit "type", JStr kind);
              (lit "to", JStr (to (parse_args a)));
              (lit "media_id", media_id)]).
    discriminate.
  - destruct Hrest as (Hb & ->).
    cbn [calls stdout] in *.
    rewrite (Hlast [_] eq_refl).
    eexists _, _, _. split; [ reflexivity | ].
    split; [ reflexivity | ]. split; [ reflexivity | ].
    apply (dumps_empty_msgid
             [(lit "ok", JBool true); (lit "type", JStr (lit "text"));
              (lit "to", JStr (to (parse_args a)))]).
    discriminate.
Qed.

Lemma missing_msgid_witness :
  exists line fields front,
    stdout (fst (run (sample_world sample_vars token_ok upload_ok
                        (NetJson (JObj [(lit "errcode", JInt 0)])))
                   (text_cli "hello"))) = [line]
    /\ line = dumps false (JObj fields)
    /\ lookup (lit "msgid") fields = Some (JStr [])
    /\ line = front ++ empty_msgid_tail.
Proof.
  apply (missing_msgid_printed_empty
           (sample_world sample_vars token_ok upload_ok
              (NetJson (JObj [(lit "errcode", JInt 0)])))
           (text_cli "hello") _
           [(Direct, token_request sample_py (JStr (lit "corp"))
                       (JStr (lit "secret")))]
           (Direct,
            send_request
              (sample_world sample_vars token_ok upload_ok
                 (NetJson (JObj [(lit "errcode", JInt 0)])))
              (JStr (lit "TOKEN"))
              (dumps true (text_payload 1000002 (JStr (lit "LiXueHeng"))
                             (JStr (lit "hello")))))
           [(lit "errcode", JInt 0)]).
  - reflexivity.
  - reflexivity.
  - reflexivity.
  - reflexivity.
Defined.

(** ** The payloads *)






(** ** The command line *)

(** The one argument a run acts on, by the precedence image, file, text:
    the kind of message and the path or text. *)
Definition selected (a : cli) : option (pystr * pystr) :=
  if opt_truthy (cli_image a) then Some (lit "image", opt_str (cli_image a))
  else if opt_truthy (cli_file a)
       then Some (lit "file", opt_str (cli_file a))
       else if opt_truthy (cli_message a)
            then Some (lit "text", opt_str (cli_message a))
            else None.

Lemma opt_truthy_str o : opt_truthy o = true -> py_opt o = JStr (opt_str o).
Proof. destruct o as [ [ | c s ] | ]; try discriminate; reflexivity. Qed.

Lemma selected_provided a : selected a <> None -> provided a = true.
Proof.
  unfold selected, provided.
  destruct (opt_truthy (cli_image a)), (opt_truthy (cli_file a)),
    (opt_truthy (cli_message a)); try reflexivity; congruence.
Qed.

(** A run in terms of the selected argument and the recipient. *)
Definition run_selected (w : world) (to_user : pystr)
  (sel : pystr * pystr) (cfg : json * json * Z * json)
  : state * result unit :=
  let '(corp_id, corp_secret, agent_id, proxy) := cfg in
  let op := opener_of proxy in
  let '(kind, value) := sel in
  match get_access_token w corp_id corp_secret op init with
  | (st1, Halt h) => (st1, Halt h)
  | (st1, Ok token) =>
      if pystr_eq_dec kind (lit "text") then
        report (py w) (text_fields to_user)
          (send_run w token (text_payload agent_id (JStr to_user) (JStr value))
             op (lit "Error sending message: ") st1)
      else
        match upload_media w token value kind op st1 with
        | (st2, Halt h) => (st2, Halt h)
        | (st2, Ok media_id) =>
            report (py w) (media_fields kind to_user media_id)
              (send_run w token
                 (media_payload kind agent_id (JStr to_user) media_id)
                 op (send_prefix kind) st2)
        end
  end.

Lemma after_config_selected w a cfg sel :
  selected a = Some sel ->
  after_config w a cfg = run_selected w (to (parse_args a)) sel cfg.
Proof.
  unfold selected, after_config, run_selected, attachment.
  destruct cfg as [[[corp_id corp_secret] agent_id] proxy].
  destruct (opt_truthy (cli_image a));
    [ intros [= <-]; reflexivity | ].
  destruct (opt_truthy (cli_file a));
    [ intros [= <-]; reflexivity | ].
  destruct (opt_truthy (cli_message a)) eqn:Hm; [ | discriminate ].
  intros [= <-]. rewrite (opt_truthy_str _ Hm). reflexivity.
Qed.

Lemma run_by_selection w a sel :
  selected a = Some sel ->
  run w a
  = match load_config w init with
    | (_, Ok cfg) => run_selected w (to (parse_args a)) sel cfg
    | (_, Halt h) => (init, Halt h)
    end.
Proof.
  intros Hs.
  assert (Hp : provided a = true)
    by (apply selected_provided; rewrite Hs; discriminate).
  destruct (load_config_cases w) as [ [cfg Hc] | [h Hc] ]; rewrite Hc.
  - rewrite (run_after_config w a cfg Hp Hc).
    apply after_config_selected. exact Hs.
  - apply run_config_halt; assumption.
Qed.

(** The command line with another [--to]. *)
Definition with_to (a : cli) (t : option pystr) : cli :=
  {| cli_message := cli_message a; cli_to := t;
     cli_image := cli_image a; cli_file := cli_file a |}.

Definition recipient (t : option pystr) : pystr :=
  match t with
  | Some s => s
  | None => lit "LiXueHeng"
  end.

(** The fields of a send payload after [touser]. *)
Definition payload_rest (kind : pystr) (agent_id : Z) (content : json)
  : list (pystr * json) :=
  [(lit "msgtype", JStr kind); (lit "agentid", JInt agent_id);
   (kind, JObj [(if pystr_eq_dec kind (lit "text")
                 then lit "content" else lit "media_id", content)]);
   (lit "safe", JInt 0)].

Lemma report_calls rt fields r :
  calls (fst (report rt fields r)) = calls (fst r).
Proof.
  unfold report. destruct r as [st [ result | h ]]; [ | reflexivity ].
  destruct (py_get result (lit "msgid") (JStr [])); [ reflexivity | ].
  destruct (stdout_encodes _ _); reflexivity.
Qed.

Lemma send_run_calls w token payload op prefix st :
  calls (fst (send_run w token payload op prefix st))
  = match str_encode (dumps true payload) with
    | Some body => calls st ++ [(op, send_request w token body)]
    | None => calls st
    end.
Proof.
  unfold send_run. destruct (str_encode (dumps true payload)); reflexivity.
Qed.

(** The calls of a run, given the configuration: the calls before the
    send, which do not depend on the recipient, then the send, if the
    run gets that far. *)
Lemma run_selected_calls w kind value cfg :
  exists before content,
    forall t,
      calls (fst (run_selected w t (kind, value) cfg)) = before
      \/ calls (fst (run_selected w t (kind, value) cfg))
         = before
           ++ match str_encode
                      (dumps true
                         (JObj ((lit "touser", JStr t)
                                :: payload_rest kind (snd (fst cfg))
                                     content))) with
              | Some body =>
                  [(opener_of (snd cfg),
                    send_request w
                      match stage_result (py w) (lit "Error getting token: ")
                              (Some (lit "access_token"))
                              (net w (opener_of (snd cfg))
                                 (token_request (py w) (fst (fst (fst cfg)))
                                    (snd (fst (fst cfg))))) with
                      | Ok token => token
                      | Halt _ => JNull
                      end body)]
              | None => []
              end.
Proof.
  destruct cfg as [[[corp_id corp_secret] agent_id] proxy].
  cbn [fst snd]. unfold run_selected. rewrite get_access_token_run.
  destruct (stage_result (py w) (lit "Error getting token: ") _ _)
    as [ token | h ].
  2:{ exists [(opener_of proxy, token_request (py w) corp_id corp_secret)],
        JNull. intros t. left. reflexivity. }
  destruct (pystr_eq_dec kind (lit "text")) as [ -> | Hk ].
  - exists [(opener_of proxy, token_request (py w) corp_id corp_secret)],
      (JStr value).
    intros t. right. rewrite report_calls, send_run_calls.
    change (text_payload agent_id (JStr t) (JStr value))
      with (JObj ((lit "touser", JStr t)
                  :: payload_rest (lit "text") agent_id (JStr value))).
    destruct (str_encode _); reflexivity.
  - rewrite upload_media_run.
    destruct (fs w value) as [ | e | file_data ];
      try (exists [(opener_of proxy,
                    token_request (py w) corp_id corp_secret)], JNull;
           intros t; left; reflexivity).
    destruct (str_encode (multipart_head _ _ _)) as [ head | ];
      [ | exists [(opener_of proxy,
                   token_request (py w) corp_id corp_secret)], JNull;
          intros t; left; reflexivity ].
    destruct (str_encode (multipart_tail _)) as [ tail | ];
      [ | exists [(opener_of proxy,
                   token_request (py w) corp_id corp_secret)], JNull;
          intros t; left; reflexivity ].
    cbv zeta.
    destruct (stage_result (py w) (lit "Error uploading media: ") _ _)
      as [ media_id | h ].
    2:{ eexists _, JNull. intros t. left. reflexivity. }
    eexists _, media_id. intros t. right.
    rewrite report_calls, send_run_calls.
    assert (Hrest : media_payload kind agent_id (JStr t) media_id
                    = JObj ((lit "touser", JStr t)
                            :: payload_rest kind agent_id media_id)).
    { unfold media_payload, payload_rest.
      destruct (pystr_eq_dec kind (lit "text")); [ contradiction | ].
      reflexivity. }
    rewrite Hrest. destruct (str_encode _); reflexivity.
Qed.

Lemma selected_kind a kind value :
  selected a = Some (kind, value) ->
  kind = lit "image" \/ kind = lit "file" \/ kind = lit "text".
Proof.
  unfold selected.
  destruct (opt_truthy (cli_image a)); [ intros [= <- _]; auto | ].
  destruct (opt_truthy (cli_file a)); [ intros [= <- _]; auto | ].
  destruct (opt_truthy (cli_message a)); [ intros [= <- _]; auto | ].
  discriminate.
Qed.

(** C7: without [--to] the recipient is "LiXueHeng"; and two runs in the
    same world whose command lines differ in [--to] only make, position
    by position, either the same call or two send requests to the same
    URL whose payloads differ in [touser] only: msgtype, agentid, the
    body and safe are the same. *)
Theorem recipient_changes_touser_only w a t1 t2 :
  to (parse_args (with_to a None)) = lit "LiXueHeng"
  /\ forall n c1 c2,
       nth_error (calls (fst (run w (with_to a t1)))) n = Some c1 ->
       nth_error (calls (fst (run w (with_to a t2)))) n = Some c2 ->
       c1 = c2
       \/ exists op token rest b1 b2,
            c1 = (op, send_request w token b1)
            /\ c2 = (op, send_request w token b2)
            /\ str_encode
                 (dumps true
                    (JObj ((lit "touser", JStr (recipient t1)) :: rest)))
               = Some b1
            /\ str_encode
                 (dumps true
                    (JObj ((lit "touser", JStr (recipient t2)) :: rest)))
               = Some b2
            /\ lookup (lit "touser") rest = None.
Proof.
  split; [ reflexivity | ].
  intros n c1 c2 H1 H2.
  destruct (selected a) as [ [kind value] | ] eqn:Hs.
  2:{ assert (Hp : provided (with_to a t1) = false).
      { unfold selected in Hs. unfold provided, with_to.
        cbn [cli_message cli_image cli_file].
        destruct (opt_truthy (cli_image a)), (opt_truthy (cli_file a)),
          (opt_truthy (cli_message a)); try discriminate; reflexivity. }
      unfold run in H1. rewrite main_not_provided in H1 by exact Hp.
      destruct n; discriminate H1. }
  assert (S1 : selected (with_to a t1) = Some (kind, value)) by exact Hs.
  assert (S2 : selected (with_to a t2) = Some (kind, value)) by exact Hs.
  rewrite (run_by_selection w _ _ S1) in H1.
  rewrite (run_by_selection w _ _ S2) in H2.
  change (to (parse_args (with_to a t1))) with (recipient t1) in H1.
  change (to (parse_args (with_to a t2))) with (recipient t2) in H2.
  destruct (load_config w init) as [st0 [ cfg | h ]];
    [ | destruct n; discriminate H1 ].
  destruct (run_selected_calls w kind value cfg) as (before & content & Hc).
  assert (Hrest : lookup (lit "touser")
                    (payload_rest kind (snd (fst cfg)) content) = None).
  { destruct (selected_kind a kind value Hs) as [ -> | [ -> | -> ] ];
      reflexivity. }
  destruct (Nat.lt_ge_cases n (List.length before)) as [ Hlt | Hge ].
  - left.
    assert (Hb : forall t c,
               nth_error (calls (fst (run_selected w t (kind, value) cfg)))
                 n = Some c -> nth_error before n = Some c).
    { intros t c Hn. destruct (Hc t) as [ E | E ]; rewrite E in Hn;
        [ exact Hn | rewrite nth_error_app1 in Hn by exact Hlt; exact Hn ]. }
    apply Hb in H1. apply Hb in H2. congruence.
  - right.
    assert (Hb : forall t c,
               nth_error (calls (fst (run_selected w t (kind, value) cfg)))
                 n = Some c ->
               exists body,
                 str_encode
                   (dumps true
                      (JObj ((lit "touser", JStr t)
                             :: payload_rest kind (snd (fst cfg)) content)))
                 = Some body
                 /\ c = (opener_of (snd cfg),
                         send_request w
                           match stage_result (py w)
                                   (lit "Error getting token: ")
                                   (Some (lit "access_token"))
                                   (net w (opener_of (snd cfg))
                                      (token_request (py w)
                                         (fst (fst (fst cfg)))
                                         (snd (fst (fst cfg))))) with
                           | Ok token => token
                           | Halt _ => JNull
                           end body)).
    { intros t c Hn. destruct (Hc t) as [ E | E ]; rewrite E in Hn.
      - apply nth_error_None in Hge. congruence.
      - rewrite nth_error_app2 in Hn by exact Hge.
        destruct (str_encode _) as [ body | ].
        + exists body. split; [ reflexivity | ].
          destruct (n - List.length before)%nat as [ | k ];
            cbn [nth_error] in Hn; [ congruence | ].
          destruct k; discriminate Hn.
        + destruct (n - List.length before)%nat; discriminate Hn. }
    destruct (Hb _ _ H1) as (b1 & E1 & ->).
    destruct (Hb _ _ H2) as (b2 & E2 & ->).
    eexists _, _, _, b1, b2.
    split; [ reflexivity | ]. split; [ reflexivity | ].
    split; [ exact E1 | ]. split; [ exact E2 | exact Hrest ].
Qed.

Lemma recipient_witness :
  (Direct,
   send_request good_world (JStr (lit "TOKEN"))
     (dumps true (text_payload 1000002 (JStr (lit "LiXueHeng"))
                    (JStr (lit "hello")))))
  = (Direct,
     send_request good_world (JStr (lit "TOKEN"))
       (dumps true (text_payload 1000002 (JStr (lit "@all"))
                      (JStr (lit "hello")))))
  \/ exists op token rest b1 b2,
       (Direct,
        send_request good_world (JStr (lit "TOKEN"))
          (dumps true (text_payload 1000002 (JStr (lit "LiXueHeng"))
                         (JStr (lit "hello")))))
       = (op, send_request good_world token b1)
       /\ (Direct,
           send_request good_world (JStr (lit "TOKEN"))
             (dumps true (text_payload 1000002 (JStr (lit "@all"))
                            (JStr (lit "hello")))))
          = (op, send_request good_world token b2)
       /\ str_encode
            (dumps true
               (JObj ((lit "touser", JStr (recipient None)) :: rest)))
          = Some b1
       /\ str_encode
            (dumps true
               (JObj ((lit "touser", JStr (recipient (Some (lit "@all"))))
                      :: rest)))
          = Some b2
       /\ lookup (lit "touser") rest = None.
Proof.
  exact (proj2 (recipient_changes_touser_only good_world (text_cli "hello")
                  None (Some (lit "@all")))
           1%nat _ _ eq_refl eq_refl).
Defined.

(** ** More on runs *)

(** How a run ends, path by path: [walk] leaves one goal for each. *)
Ltac walk w a :=
  let Hp := fresh "Hp" in
  let Hc := fresh "Hc" in
  destruct (provided a) eqn:Hp;
  [ destruct (load_config_cases w) as [ [cfg Hc] | [h Hc] ];
    [ rewrite (run_after_config w a cfg Hp Hc);
      destruct cfg as [[[corp_id corp_secret] agent_id] proxy];
      unfold after_config; rewrite get_access_token_run;
      destruct (stage_result (py w) (lit "Error getting token: ")
                  (Some (lit "access_token"))
                  (net w (opener_of proxy)
                     (token_request (py w) corp_id corp_secret)))
        as [ token | h ] eqn:R1;
      [ destruct (attachment a) as [ [kind path] | ] eqn:Ha;
        [ rewrite upload_media_run;
          destruct (fs w path) as [ | e | file_data ] eqn:Hfs;
          [ | | destruct (str_encode
                            (multipart_head (uuid_hex w)
                               (path_name (py w) path)
                               (content_type_of w path)))
                  as [ head | ] eqn:Hhead;
                [ destruct (str_encode (multipart_tail (uuid_hex w)))
                    as [ tail | ] eqn:Htail;
                  [ cbv zeta;
                    destruct (stage_result (py w)
                                (lit "Error uploading media: ")
                                (Some (lit "media_id"))
                                (net w (opener_of proxy)
                                   (upload_request w token path kind head
                                      file_data tail)))
                      as [ media_id | h ] eqn:R2;
                    [ unfold send_run;
                      destruct (str_encode
                                  (dumps true
                                     (media_payload kind agent_id
                                        (JStr (to (parse_args a)))
                                        media_id)))
                        as [ body | ] eqn:Hbody;
                      [ destruct (stage_result (py w) (send_prefix kind)
                                    None
                                    (net w (opener_of proxy)
                                       (send_request w token body)))
                          as [ result | h ] eqn:R3
                      | ]
                    | ]
                  | ]
                | ] ]
        | unfold send_run;
          destruct (str_encode
                      (dumps true
                         (text_payload agent_id (JStr (to (parse_args a)))
                            (py_opt (cli_message a)))))
            as [ body | ] eqn:Hbody;
          [ destruct (stage_result (py w) (lit "Error sending message: ")
                        None
                        (net w (opener_of proxy)
                           (send_request w token body)))
              as [ result | h ] eqn:R3
          | ] ]
      | ]
    | rewrite (run_config_halt w a h Hc Hp) ]
  | unfold run; rewrite (main_not_provided w a init Hp) ].

Lemma report_ok rt fields st m :
  report rt fields (st, Ok (JObj m))
  = if stdout_encodes rt (dumps false (fields (msgid_of m)))
    then ({| calls := calls st;
             stdout := stdout st ++ [dumps false (fields (msgid_of m))] |},
          Ok tt)
    else (st, Halt (Uncaught UnicodeEncodeError)).
Proof.
  unfold report, py_get, msgid_of.
  destruct (lookup (lit "msgid") m); reflexivity.
Qed.

Lemma stage_data_ok rt prefix r x :
  stage_result rt prefix None r = Ok x -> exists m, x = JObj m.
Proof.
  intros H. destruct (stage_ok_inv _ _ _ _ _ H) as (m & _ & ->). eauto.
Qed.

(** For a command line [argparse] accepts, the status is 2 exactly when
    neither a message nor [--image] nor [--file] is given (or all are
    empty); the run then ends in [parser.error] before the configuration
    is read and makes no call, whatever the configuration. *)
Theorem usage_error_iff_nothing_given w a :
  (exit_status (snd (run w a)) = 2%Z <-> provided a = false)
  /\ (provided a = false ->
      run w a
      = (init,
         Halt (Usage (lit "Must provide a message, --image, or --file")))).
Proof.
  split.
  - assert (Hstage : forall prefix field r h,
               stage_result (py w) prefix field r = Halt h ->
               exit_status (@Halt unit h) = 1%Z).
    { intros prefix field r h. unfold stage_result, checked.
      destruct r as [ e | | data ]; try (intros [= <-]; reflexivity).
      destruct (py_get data (lit "errcode") (JInt 0)) as [ e | v ];
        [ intros [= <-]; reflexivity | ].
      destruct (py_ne_zero v); [ intros [= <-]; reflexivity | ].
      destruct field as [ k | ]; [ | discriminate ].
      destruct (py_getitem data k); [ intros [= <-]; reflexivity | ].
      discriminate. }
    assert (Hcfg : forall h, load_config w init = (init, Halt h) ->
                             exit_status (@Halt unit h) = 1%Z).
    { intros h. unfold load_config, bind, lift, sys_exit, raise, abort, ret.
      destruct (config_file w) as [ | e | data ];
        try (intros [= <-]; reflexivity).
      repeat match goal with
             | |- context [ py_get ?v ?k ?d ] => destruct (py_get v k d)
             | |- context [ py_int ?r ?v ] => destruct (py_int r v)
             | |- context [ if ?b then _ else _ ] => destruct b
             end;
        intros [= <-] || discriminate; reflexivity. }
    walk w a; cbn [snd];
      try (destruct (stage_data_ok _ _ _ _ R3) as (m3 & ->);
           rewrite report_ok; destruct (stdout_encodes _ _));
      cbn [report snd];
      try (apply Hstage in R1); try (apply Hstage in R2);
      try (apply Hstage in R3); try (apply Hcfg in Hc);
      cbn [exit_status] in *;
      split; intros; try discriminate; try congruence; try reflexivity.
  - intros Hp. unfold run. apply main_not_provided. exact Hp.
Qed.

(** Every run issues its requests in one order: the token request, then
    the upload when an attachment is selected, then the send; each at most
    once, all through the opener the configuration selects.  The upload
    carries the token of the first reply, the send the token and, for an
    attachment, the [media_id] of the upload's reply. *)
Theorem requests_in_order w a :
  calls (fst (run w a)) = []
  \/ exists corp_id corp_secret agent_id proxy,
       load_config w init = (init, Ok (corp_id, corp_secret, agent_id, proxy))
       /\ let op := opener_of proxy in
          let c1 := (op, token_request (py w) corp_id corp_secret) in
          calls (fst (run w a)) = [c1]
          \/ exists token m1,
               net w op (snd c1) = NetJson (JObj m1)
               /\ lookup (lit "access_token") m1 = Some token
               /\ match attachment a with
                  | None =>
                      exists body,
                        str_encode
                          (dumps true
                             (text_payload agent_id
                                (JStr (to (parse_args a)))
                                (py_opt (cli_message a)))) = Some body
                        /\ calls (fst (run w a))
                           = [c1; (op, send_request w token body)]
                  | Some (kind, path) =>
                      exists head file_data tail,
                        fs w path = Content file_data
                        /\ let c2 := (op, upload_request w token path kind
                                            head file_data tail) in
                           calls (fst (run w a)) = [c1; c2]
                           \/ exists media_id m2 body,
                                net w op (snd c2) = NetJson (JObj m2)
                                /\ lookup (lit "media_id") m2 = Some media_id
                                /\ str_encode
                                     (dumps true
                                        (media_payload kind agent_id
                                           (JStr (to (parse_args a)))
                                           media_id)) = Some body
                                /\ calls (fst (run w a))
                                   = [c1; c2; (op, send_request w token body)]
                  end.
Proof.
  walk w a;
    try (destruct (stage_data_ok _ _ _ _ R3) as (m3 & ->); rewrite report_ok;
         destruct (stdout_encodes _ _));
    cbn [fst snd calls stdout add_call init List.app report];
    try (left; reflexivity);
    right; exists corp_id, corp_secret, agent_id, proxy;
    (split; [ exact Hc | ]); cbv zeta;
    try (left; reflexivity);
    right; destruct (stage_ok_inv _ _ _ _ _ R1) as (m1 & N1 & L1);
    exists token, m1; (split; [ exact N1 | ]); (split; [ exact L1 | ]);
    try (exists body; split; [ exact Hbody | reflexivity ]).
  all: exists head, file_data, tail; (split; [ reflexivity | ]); cbv zeta;
    try (left; reflexivity);
    right; destruct (stage_ok_inv _ _ _ _ _ R2) as (m2 & N2 & L2);
    exists media_id, m2, body; repeat split; assumption.
Qed.

(** A reply the script cannot use: the request fails, the body is not
    JSON, or it is JSON but not an object; with the exception that ends
    the run. *)
Definition unusable_reply (r : reply) (e : exn) : Prop :=
  r = NetFail e
  \/ (r = NetJunk /\ e = JSONDecodeError)
  \/ (exists data, r = NetJson data /\ (forall m, data <> JObj m)
                   /\ e = AttributeError).

Lemma stage_unusable rt prefix field r e :
  unusable_reply r e -> stage_result rt prefix field r = Halt (Uncaught e).
Proof.
  intros [ -> | [ [-> ->] | (data & -> & Hd & ->) ] ]; try reflexivity.
  unfold stage_result, checked.
  destruct data; try reflexivity. destruct (Hd m). reflexivity.
Qed.

(** No request is retried and no failure is caught: a request that fails
    (time-out, refused connection), or whose reply is not a JSON object,
    is the last one of the run, which ends with that exception uncaught,
    status 1 and nothing printed. *)
Theorem failed_request_is_last w a n c err :
  nth_error (calls (fst (run w a))) n = Some c ->
  unusable_reply (net w (fst c) (snd c)) err ->
  List.length (calls (fst (run w a))) = S n
  /\ stdout (fst (run w a)) = []
  /\ snd (run w a) = Halt (Uncaught err)
  /\ exit_status (snd (run w a)) = 1%Z.
Proof.
  revert n c.
  assert (Hok : forall prefix field r x,
             stage_result (py w) prefix field r = Ok x ->
             ~ unusable_reply r err).
  { intros prefix field r x H U.
    rewrite (stage_unusable _ prefix field _ _ U) in H. discriminate. }
  assert (Hbad : forall prefix field r h,
             stage_result (py w) prefix field r = Halt h ->
             unusable_reply r err -> h = Uncaught err).
  { intros prefix field r h H U.
    rewrite (stage_unusable _ prefix field _ _ U) in H.
    injection H as <-. reflexivity. }
  walk w a;
    try (destruct (stage_data_ok _ _ _ _ R3) as (m3 & ->); rewrite report_ok;
         destruct (stdout_encodes _ _));
    cbn [fst snd calls stdout add_call init List.app report];
    intros n c Hn U;
    try (apply Hok in R1); try (apply Hok in R2); try (apply Hok in R3);
    pick_call Hn n; cbn [fst snd] in U; try contradiction.
  all: first [ rewrite (Hbad _ _ _ _ R1 U)
             | rewrite (Hbad _ _ _ _ R2 U)
             | rewrite (Hbad _ _ _ _ R3 U) ];
    repeat split.
Qed.

Lemma failed_request_witness :
  List.length
    (calls (fst (run (sample_world sample_vars token_ok upload_ok
                        (NetFail URLError)) (text_cli "hello")))) = 2%nat
  /\ stdout (fst (run (sample_world sample_vars token_ok upload_ok
                         (NetFail URLError)) (text_cli "hello"))) = []
  /\ snd (run (sample_world sample_vars token_ok upload_ok
                 (NetFail URLError)) (text_cli "hello"))
     = Halt (Uncaught URLError)
  /\ exit_status
       (snd (run (sample_world sample_vars token_ok upload_ok
                    (NetFail URLError)) (text_cli "hello"))) = 1%Z.
Proof.
  refine (failed_request_is_last
            (sample_world sample_vars token_ok upload_ok (NetFail URLError))
            (text_cli "hello") 1
            (Direct,
             send_request
               (sample_world sample_vars token_ok upload_ok
                  (NetFail URLError))
               (JStr (lit "TOKEN"))
               (dumps true
                  (text_payload 1000002 (JStr (lit "LiXueHeng"))
                     (JStr (lit "hello")))))
            URLError _ _).
  - vm_compute. reflexivity.
  - left. vm_compute. reflexivity.
Defined.

(** The result line is the only output and is written last: a run that
    ends in any error, at any stage, has printed nothing, and a run that
    has printed nothing ended in an error. *)
Theorem stdout_empty_iff_failure w a :
  stdout (fst (run w a)) = [] <-> exists h, snd (run w a) = Halt h.
Proof.
  walk w a;
    try (destruct (stage_data_ok _ _ _ _ R3) as (m3 & ->); rewrite report_ok;
         destruct (stdout_encodes _ _));
    cbn [fst snd calls stdout add_call init List.app report];
    split; intros H; try reflexivity; try discriminate;
    try (eexists; reflexivity);
    destruct H as [h' H]; discriminate.
Qed.

(** A configuration file the script cannot use, with the way the run
    then ends: the file is absent; reading or decoding it raises; its JSON,
    its [env] or its [env.vars] is not an object. *)
Definition unusable_config (c : cfg_state) (h : halt) : Prop :=
  (c = NoConfig
   /\ h = SysExit (lit "Error: ~/.openclaw/openclaw.json not found"))
  \/ (exists err, c = ConfigRaises err /\ h = Uncaught err)
  \/ (exists data, c = ConfigData data /\ (forall m, data <> JObj m)
                   /\ h = Uncaught AttributeError)
  \/ (exists top x, c = ConfigData (JObj top)
                    /\ lookup (lit "env") top = Some x
                    /\ (forall m, x <> JObj m)
                    /\ h = Uncaught AttributeError)
  \/ (exists top env x, c = ConfigData (JObj top)
                        /\ lookup (lit "env") top = Some (JObj env)
                        /\ lookup (lit "vars") env = Some x
                        /\ (forall m, x <> JObj m)
                        /\ h = Uncaught AttributeError).

(** A configuration file that is absent, that cannot be read or decoded,
    or in which the file, [env] or [env.vars] is not a JSON object, ends
    the run before any request, with status 1: with the "not found"
    message in the first case, with the exception of the read, or
    [AttributeError], uncaught in the others. *)
Theorem unusable_config_file_ends_run w a h :
  provided a = true -> unusable_config (config_file w) h ->
  run w a = (init, Halt h) /\ exit_status (snd (run w a)) = 1%Z.
Proof.
  intros Hp Hu.
  assert (Hl : load_config w init = (init, Halt h)).
  { unfold load_config.
    destruct Hu as [ [-> ->] | [ (err & -> & ->) | [ (data & -> & Hd & ->)
                   | [ (top & x & -> & Hx & Hd & ->)
                     | (top & env & x & -> & He & Hx & Hd & ->) ] ] ] ];
      try reflexivity.
    - destruct data; try reflexivity. destruct (Hd m). reflexivity.
    - unfold py_get at 1. rewrite Hx. cbn [lift]. rewrite bind_ret.
      destruct x; try reflexivity. destruct (Hd m). reflexivity.
    - unfold py_get at 1. rewrite He. cbn [lift]. rewrite bind_ret.
      unfold py_get at 1. rewrite Hx. cbn [lift]. rewrite bind_ret.
      destruct x; try reflexivity. destruct (Hd m). reflexivity. }
  rewrite (run_config_halt w a h Hl Hp). split; [ reflexivity | ].
  cbn [snd].
  destruct Hu as [ [_ ->] | [ (err & _ & ->) | [ (data & _ & _ & ->)
                 | [ (top & x & _ & _ & _ & ->)
                   | (top & env & x & _ & _ & _ & _ & ->) ] ] ] ];
    reflexivity.
Qed.

Lemma unusable_config_witness :
  run {| py := sample_py; config_file := NoConfig; fs := sample_fs;
         uuid_hex := lit "0123456789abcdef0123456789abcdef";
         net := sample_net token_ok upload_ok sent_ok |}
      (text_cli "hello")
  = (init, Halt (SysExit (lit "Error: ~/.openclaw/openclaw.json not found")))
  /\ exit_status
       (snd (run {| py := sample_py; config_file := NoConfig;
                    fs := sample_fs;
                    uuid_hex := lit "0123456789abcdef0123456789abcdef";
                    net := sample_net token_ok upload_ok sent_ok |}
                 (text_cli "hello"))) = 1%Z.
Proof.
  apply (unusable_config_file_ends_run
           {| py := sample_py; config_file := NoConfig; fs := sample_fs;
              uuid_hex := lit "0123456789abcdef0123456789abcdef";
              net := sample_net token_ok upload_ok sent_ok |}
           (text_cli "hello")).
  - reflexivity.
  - left. split; reflexivity.
Defined.

(** The proxy setting is optional and selects one opener for the whole
    run: with WECOM_PROXY absent from [env.vars], or falsy, every request
    of the run is made with the opener of [build_opener()], which has no
    handler of the script's own; otherwise every request is made with the
    opener built around the [ProxyHandler] for its value. *)
Theorem proxy_selects_opener w a data vars c :
  config_file w = ConfigData data -> cfg_vars data = Some vars ->
  In c (calls (fst (run w a))) ->
  fst c = match lookup (lit "WECOM_PROXY") vars with
          | Some p => if py_truthy p then Proxied p else Direct
          | None => Direct
          end.
Proof.
  intros Hf Hv. pose proof (load_config_vars w init data vars Hf Hv) as E.
  cbv zeta in E.
  assert (Hop : forall corp_id corp_secret agent_id proxy,
             load_config w init
             = (init, Ok (corp_id, corp_secret, agent_id, proxy)) ->
             opener_of proxy
             = match lookup (lit "WECOM_PROXY") vars with
               | Some p => if py_truthy p then Proxied p else Direct
               | None => Direct
               end).
  { intros corp_id corp_secret agent_id proxy Hc. rewrite E in Hc.
    destruct (_ && _); [ | discriminate ].
    destruct (py_int _ _); [ discriminate | ].
    injection Hc as _ _ _ <-. unfold opener_of.
    destruct (lookup (lit "WECOM_PROXY") vars); reflexivity. }
  clear E. revert c.
  walk w a;
    try (destruct (stage_data_ok _ _ _ _ R3) as (m3 & ->); rewrite report_ok;
         destruct (stdout_encodes _ _));
    cbn [fst snd calls stdout add_call init List.app report In];
    intros c Hin; try contradiction;
    rewrite <- (Hop _ _ _ _ Hc);
    repeat match goal with
           | H : _ \/ _ |- _ => destruct H as [ H | H ]
           | H : False |- _ => contradiction
           end; subst c; reflexivity.
Qed.

Lemma proxy_selects_opener_witness :
  fst (Proxied (JStr (lit "http://127.0.0.1:7890")),
       token_request sample_py (JStr (lit "corp")) (JStr (lit "secret")))
  = match lookup (lit "WECOM_PROXY")
            (sample_vars
             ++ [(lit "WECOM_PROXY", JStr (lit "http://127.0.0.1:7890"))]) with
    | Some p => if py_truthy p then Proxied p else Direct
    | None => Direct
    end.
Proof.
  apply (proxy_selects_opener
           (sample_world
              (sample_vars
               ++ [(lit "WECOM_PROXY", JStr (lit "http://127.0.0.1:7890"))])
              token_ok upload_ok sent_ok)
           (text_cli "hello")
           (config_of
              (sample_vars
               ++ [(lit "WECOM_PROXY", JStr (lit "http://127.0.0.1:7890"))]))
           (sample_vars
            ++ [(lit "WECOM_PROXY", JStr (lit "http://127.0.0.1:7890"))])).
  - reflexivity.
  - reflexivity.
  - vm_compute. left. reflexivity.
Defined.

(** ** The upload *)

Lemma str_encode_app s t :
  str_encode (s ++ t)
  = match str_encode s, str_encode t with
    | Some x, Some y => Some (x ++ y)
    | _, _ => None
    end.
Proof.
  induction s as [ | c s IH ]; cbn [List.app str_encode].
  - destruct (str_encode t); reflexivity.
  - rewrite IH. destruct (utf8_char c) as [ b | ]; [ | reflexivity ].
    destruct (str_encode s) as [ x | ]; [ | reflexivity ].
    destruct (str_encode t) as [ y | ]; [ | reflexivity ].
    rewrite List.app_assoc. reflexivity.
Qed.

Lemma str_encode_surrogate s c :
  In c s -> is_high c || is_low c = true -> str_encode s = None.
Proof.
  intros Hin Hc. induction s as [ | d s IH ]; [ destruct Hin | ].
  cbn [str_encode]. destruct Hin as [ -> | Hin ].
  - unfold utf8_char. rewrite Hc.
    assert (H : 0xD800 <= c).
    { unfold is_high, is_low in Hc.
      rewrite orb_true_iff, !andb_true_iff, !N.leb_le in Hc. lia. }
    destruct (N.ltb_spec c 0x80); [ lia | ].
    destruct (N.ltb_spec c 0x800); [ lia | ]. reflexivity.
  - rewrite (IH Hin). destruct (utf8_char d); reflexivity.
Qed.

(** A file whose name holds a surrogate code point (a name that is not
    valid UTF-8 reaches the script this way) is never uploaded: the body
    cannot be encoded.  The run makes the token request only, prints
    nothing, and, once the token is obtained, ends in an uncaught
    [UnicodeEncodeError]. *)
Theorem file_name_not_encodable w a kind path file_data c :
  attachment a = Some (kind, path) -> fs w path = Content file_data ->
  In c (path_name (py w) path) -> is_high c || is_low c = true ->
  (forall r, In r (calls (fst (run w a))) -> req_data (snd r) = None)
  /\ stdout (fst (run w a)) = []
  /\ exit_status (snd (run w a)) <> 0%Z
  /\ (forall corp_id corp_secret agent_id proxy st1 token,
         load_config w init
         = (init, Ok (corp_id, corp_secret, agent_id, proxy)) ->
         get_access_token w corp_id corp_secret (opener_of proxy) init
         = (st1, Ok token) ->
         calls (fst (run w a))
         = [(opener_of proxy, token_request (py w) corp_id corp_secret)]
         /\ snd (run w a) = Halt (Uncaught UnicodeEncodeError)).
Proof.
  intros Ha Hfs Hin Hc.
  assert (Hhead : str_encode (multipart_head (uuid_hex w)
                                (path_name (py w) path)
                                (content_type_of w path)) = None).
  { apply (str_encode_surrogate _ c); [ | exact Hc ].
    unfold multipart_head. rewrite !in_app_iff. tauto. }
  assert (Hp : provided a = true).
  { unfold attachment in Ha. unfold provided.
    destruct (opt_truthy (cli_image a));
      [ rewrite orb_true_r; reflexivity | ].
    destruct (opt_truthy (cli_file a));
      [ rewrite orb_true_r; reflexivity | discriminate ]. }
  destruct (load_config_cases w) as [ [cfg Hl] | [h Hl] ].
  - rewrite (run_after_config w a cfg Hp Hl).
    destruct cfg as [[[corp_id corp_secret] agent_id] proxy].
    unfold after_config. rewrite Ha.
    destruct (get_access_token w corp_id corp_secret (opener_of proxy) init)
      as [st1 [ token | h ]] eqn:R1.
    + rewrite upload_media_run, Hfs, Hhead.
      rewrite get_access_token_run in R1. injection R1 as <- R1.
      cbn [fst snd calls stdout add_call init List.app In].
      split; [ intros r [ <- | [] ]; reflexivity | ].
      split; [ reflexivity | ]. split; [ discriminate | ].
      intros ? ? ? ? ? ? H _. rewrite Hl in H. injection H as <- <- <- <-.
      split; reflexivity.
    + rewrite get_access_token_run in R1. injection R1 as <- R1.
      cbn [fst snd calls stdout add_call init List.app In].
      split; [ intros r [ <- | [] ]; reflexivity | ].
      split; [ reflexivity | ].
      split; [ destruct h; discriminate | ].
      intros ? ? ? ? ? ? H. rewrite Hl in H. injection H as <- <- <- <-.
      rewrite get_access_token_run, R1. discriminate.
  - rewrite (run_config_halt w a h Hl Hp).
    cbn [fst snd calls stdout init In].
    split; [ intros r []| ]. split; [ reflexivity | ].
    split; [ destruct h; discriminate | ].
    intros ? ? ? ? ? ? H. rewrite Hl in H. discriminate.
Qed.

Lemma file_name_not_encodable_witness :
  (forall r,
      In r (calls (fst (run {| py := sample_py;
                               config_file := ConfigData (config_of sample_vars);
                               fs := fun _ => Content [37; 80; 68; 70];
                               uuid_hex := lit "0123456789abcdef0123456789abcdef";
                               net := sample_net token_ok upload_ok sent_ok |}
                            {| cli_message := None; cli_to := None;
                               cli_image := None;
                               cli_file := Some (lit "r" ++ [0xDCE9]
                                                 ++ lit ".pdf") |}))) ->
      req_data (snd r) = None)
  /\ stdout (fst (run {| py := sample_py;
                         config_file := ConfigData (config_of sample_vars);
                         fs := fun _ => Content [37; 80; 68; 70];
                         uuid_hex := lit "0123456789abcdef0123456789abcdef";
                         net := sample_net token_ok upload_ok sent_ok |}
                      {| cli_message := None; cli_to := None;
                         cli_image := None;
                         cli_file := Some (lit "r" ++ [0xDCE9]
                                           ++ lit ".pdf") |})) = [].
Proof.
  pose proof (file_name_not_encodable
                {| py := sample_py;
                   config_file := ConfigData (config_of sample_vars);
                   fs := fun _ => Content [37; 80; 68; 70];
                   uuid_hex := lit "0123456789abcdef0123456789abcdef";
                   net := sample_net token_ok upload_ok sent_ok |}
                {| cli_message := None; cli_to := None; cli_image := None;
                   cli_file := Some (lit "r" ++ [0xDCE9] ++ lit ".pdf") |}
                (lit "file") (lit "r" ++ [0xDCE9] ++ lit ".pdf")
                [37; 80; 68; 70] 0xDCE9
                eq_refl eq_refl (or_intror (or_introl eq_refl)) eq_refl)
    as (H1 & H2 & _).
  split; [ exact H1 | exact H2 ].
Defined.

Lemma str_encode_text s :
  forallb (fun x => x <? 128) s = true -> str_encode s = Some s.
Proof.
  intros H. apply str_encode_ascii. apply Forall_forall. intros x Hx.
  rewrite forallb_forall in H. apply N.ltb_lt, H, Hx.
Qed.

(** The request [upload_media] makes for a readable file: a POST, with a
    time-out of 30 seconds, of one multipart part named [media].  The
    file's bytes go into the body as they are, after a header block that
    holds the file's name in UTF-8, unescaped, and the guessed content
    type, and before the closing delimiter; the boundary is the one the
    Content-Type header announces. *)
Theorem upload_body_layout w token path kind op st file_data name :
  fs w path = Content file_data ->
  forallb (fun x => x <? 128) (uuid_hex w) = true ->
  forallb (fun x => x <? 128) (content_type_of w path) = true ->
  str_encode (path_name (py w) path) = Some name ->
  calls (fst (upload_media w token path kind op st))
  = calls st
    ++ [(op,
         {| req_url :=
              lit "https://qyapi.weixin.qq.com/cgi-bin/media/upload?access_token="
              ++ py_str (py w) token ++ lit "&type=" ++ kind;
            req_data :=
              Some ((lit "--" ++ uuid_hex w ++ [13; 10]
                     ++ lit "Content-Disposition: form-data; name="
                     ++ [34] ++ lit "media" ++ [34]
                     ++ lit "; filename=" ++ [34] ++ name ++ [34]
                     ++ [13; 10]
                     ++ lit "Content-Type: " ++ content_type_of w path
                     ++ [13; 10; 13; 10])
                    ++ file_data
                    ++ [13; 10] ++ lit "--" ++ uuid_hex w ++ lit "--"
                    ++ [13; 10]);
            req_headers :=
              [(lit "Content-Type",
                lit "multipart/form-data; boundary=" ++ uuid_hex w)];
            req_timeout := 30 |})]
  /\ (content_type_of w path = lit "application/octet-stream"
      \/ guess_type (py w) (path_str (py w) path)
         = Some (content_type_of w path)).
Proof.
  intros Hfs Hb Hct Hname. split.
  - rewrite upload_media_run, Hfs.
    assert (Hhead : str_encode (multipart_head (uuid_hex w)
                                  (path_name (py w) path)
                                  (content_type_of w path))
                    = Some (lit "--" ++ uuid_hex w ++ [13; 10]
                            ++ lit "Content-Disposition: form-data; name="
                            ++ [34] ++ lit "media" ++ [34]
                            ++ lit "; filename=" ++ [34] ++ name ++ [34]
                            ++ [13; 10]
                            ++ lit "Content-Type: " ++ content_type_of w path
                            ++ [13; 10; 13; 10])).
    { unfold multipart_head. rewrite !str_encode_app, Hname.
      rewrite (str_encode_text (uuid_hex w) Hb).
      rewrite (str_encode_text (content_type_of w path) Hct).
      reflexivity. }
    assert (Htail : str_encode (multipart_tail (uuid_hex w))
                    = Some ([13; 10] ++ lit "--" ++ uuid_hex w ++ lit "--"
                            ++ [13; 10])).
    { unfold multipart_tail. rewrite !str_encode_app.
      rewrite (str_encode_text (uuid_hex w) Hb). reflexivity. }
    rewrite Hhead, Htail. reflexivity.
  - unfold content_type_of.
    destruct (guess_type (py w) (path_str (py w) path)) as [ [ | x t ] | ];
      auto.
Qed.

Lemma upload_body_layout_witness :
  exists body,
    calls (fst (upload_media good_world (JStr (lit "TOKEN"))
                  (lit "photo.png") (lit "image") Direct init))
    = [(Direct,
        {| req_url :=
             lit "https://qyapi.weixin.qq.com/cgi-bin/media/upload?access_token=TOKEN&type=image";
           req_data := Some body;
           req_headers :=
             [(lit "Content-Type",
               lit "multipart/form-data; boundary=0123456789abcdef0123456789abcdef")];
           req_timeout := 30 |})].
Proof.
  eexists.
  exact (proj1 (upload_body_layout good_world (JStr (lit "TOKEN"))
                  (lit "photo.png") (lit "image") Direct init
                  [137; 80; 78; 71] (lit "photo.png")
                  eq_refl eq_refl eq_refl eq_refl)).
Defined.

(** ** What is posted and what is printed *)

Lemma all_strings_lookup ok m k x :
  all_strings ok (JObj m) -> lookup k m = Some x -> all_strings ok x.
Proof.
  induction m as [ | [k' v] m IH ]; cbn [all_strings lookup];
    [ discriminate | ].
  intros (Hk & Hv & Hm).
  destruct (pystr_eq_dec k k'); [ intros [= <-]; exact Hv | ].
  apply IH. exact Hm.
Qed.

Lemma dumps_ascii_valid j :
  all_strings (fun s => valid_str s = true) j ->
  Forall (fun x => 32 <= x < 127) (dumps true j).
Proof.
  intros H. apply dumps_all with (ok := fun s => valid_str s = true).
  - auto.
  - apply escape_str_ascii.
  - exact H.
Qed.

Lemma encode_dumps_valid j body :
  all_strings (fun s => valid_str s = true) j ->
  str_encode (dumps true j) = Some body ->
  Forall (fun x => 32 <= x < 127) body.
Proof.
  intros H E. pose proof (dumps_ascii_valid j H) as A.
  rewrite str_encode_ascii in E
    by (eapply Forall_impl; [ | exact A ]; cbn; intros; lia).
  injection E as <-. exact A.
Qed.

(** Whatever the text, the recipient and the vendor's [media_id], the JSON
    a run posts to the send endpoint is printable ASCII: characters
    outside ASCII leave as [\u] escapes, and encoding the body cannot
    fail. *)
Theorem posted_json_is_ascii w a o tk posted :
  valid_str (to (parse_args a)) = true ->
  (forall s, cli_message a = Some s -> valid_str s = true) ->
  (forall o' r data,
      net w o' r = NetJson data ->
      all_strings (fun s => valid_str s = true) data) ->
  In (o, send_request w tk posted) (calls (fst (run w a))) ->
  Forall (fun x => 32 <= x < 127) posted.
Proof.
  intros Hto Hmsg Hnet.
  assert (Htext : forall agent_id,
             all_strings (fun s => valid_str s = true)
               (text_payload agent_id (JStr (to (parse_args a)))
                  (py_opt (cli_message a)))).
  { intros agent_id. cbn [all_strings text_payload].
    repeat split; try reflexivity; try exact Hto.
    destruct (cli_message a) as [ s | ]; cbn [py_opt all_strings];
      [ apply Hmsg; reflexivity | exact I ]. }
  assert (Hmedia : forall kind path agent_id media_id,
             attachment a = Some (kind, path) ->
             all_strings (fun s => valid_str s = true) media_id ->
             all_strings (fun s => valid_str s = true)
               (media_payload kind agent_id (JStr (to (parse_args a)))
                  media_id)).
  { intros kind path agent_id media_id Ha Hm.
    destruct (attachment_kind a kind path Ha) as [ -> | -> ];
      cbn [all_strings media_payload];
      repeat split; try reflexivity; try exact Hto; exact Hm. }
  walk w a;
    try (destruct (stage_data_ok _ _ _ _ R3) as (m3 & ->); rewrite report_ok;
         destruct (stdout_encodes _ _));
    cbn [fst snd calls stdout add_call init List.app report In];
    intros Hin;
    repeat match goal with
           | H : _ \/ _ |- _ => destruct H as [ H | H ]
           | H : False |- _ => contradiction
           end;
    try (unfold token_request, send_request in Hin; discriminate Hin);
    try (unfold upload_request, send_request in Hin; discriminate Hin);
    unfold send_request in Hin; injection Hin as _ _ <-.
  all: first
         [ destruct (stage_ok_inv _ _ _ _ _ R2) as (m2 & N2 & L2);
           apply (encode_dumps_valid _ _
                    (Hmedia kind path agent_id media_id eq_refl
                       (all_strings_lookup _ _ _ _ (Hnet _ _ _ N2) L2))
                    Hbody)
         | exact (encode_dumps_valid _ _ (Htext agent_id) Hbody) ].
Qed.

Lemma posted_json_is_ascii_witness :
  Forall (fun x => 32 <= x < 127)
    (dumps true
       (text_payload 1000002 (JStr (lit "LiXueHeng"))
          (JStr [20320; 22909; 128512]))).
Proof.
  apply (posted_json_is_ascii good_world
           {| cli_message := Some [20320; 22909; 128512]; cli_to := None;
              cli_image := None; cli_file := None |}
           Direct (JStr (lit "TOKEN"))).
  - reflexivity.
  - intros s [= <-]. reflexivity.
  - intros o' r data. cbn [net good_world sample_world].
    unfold sample_net.
    destruct (req_data r); [ destruct (req_timeout r =? 30)%Z | ];
      intros [= <-]; cbn; repeat split; reflexivity.
  - vm_compute. right. left. reflexivity.
Defined.

Lemma wf_json_lookup a m k x :
  wf_json a (JObj m) = true -> lookup k m = Some x -> wf_json a x = true.
Proof.
  rewrite wf_json_obj, andb_true_iff. intros [_ H]. revert H.
  induction m as [ | [k' v] m IH ]; cbn [lookup forallb wf_member];
    [ discriminate | ].
  rewrite !andb_true_iff. intros [[_ Hv] Hm].
  destruct (pystr_eq_dec k k'); [ intros [= <-]; exact Hv | ].
  apply IH. exact Hm.
Qed.

Lemma wf_msgid_of m : wf_json false (JObj m) = true ->
                      wf_json false (msgid_of m) = true.
Proof.
  intros H. unfold msgid_of.
  destruct (lookup (lit "msgid") m) as [ x | ] eqn:L; [ | reflexivity ].
  exact (wf_json_lookup _ _ _ _ H L).
Qed.

(** The type a run reports: the kind of the attachment, or [text]. *)
Definition reported_type (a : cli) : pystr :=
  match attachment a with
  | Some (kind, _) => kind
  | None => lit "text"
  end.

(** The line a successful run prints is JSON that [json.loads] reads back
    as an object with [ok] true, [type] the kind of message sent, [to] the
    recipient and, for an attachment, the [media_id] of the upload reply:
    with [ensure_ascii=False] the recipient is written as it is and
    survives the round trip whatever its characters. *)
Theorem result_line_parses_back w a st :
  (forall o r data, net w o r = NetJson data -> wf_json false data = true) ->
  run w a = (st, Ok tt) ->
  exists line fields,
    stdout st = [line]
    /\ loads line = Some (JObj fields)
    /\ lookup (lit "ok") fields = Some (JBool true)
    /\ lookup (lit "type") fields = Some (JStr (reported_type a))
    /\ lookup (lit "to") fields = Some (JStr (to (parse_args a)))
    /\ (attachment a = None -> lookup (lit "media_id") fields = None)
    /\ (attachment a <> None ->
        exists c m2 media_id,
          nth_error (calls st) 1 = Some c
          /\ net w (fst c) (snd c) = NetJson (JObj m2)
          /\ lookup (lit "media_id") m2 = Some media_id
          /\ lookup (lit "media_id") fields = Some media_id).
Proof.
  intros Hnet Hr.
  destruct (run_success w a st Hr)
    as (corp_id & corp_secret & agent_id & proxy & token & body & m3
        & Hc & H).
  cbv zeta in H. destruct H as (_ & N3 & H).
  pose proof (wf_msgid_of m3 (Hnet _ _ _ N3)) as W3.
  unfold reported_type.
  destruct (attachment a) as [ [kind path] | ] eqn:Ha.
  - destruct H as (media_id & head & file_data & tail & m2 & H).
    cbv zeta in H. destruct H as (Hfs & N2 & L2 & Hb & ->).
    pose proof (wf_json_lookup _ _ _ _ (Hnet _ _ _ N2) L2) as W2.
    exists (dumps false
              (media_fields kind (to (parse_args a)) media_id (msgid_of m3))).
    eexists. split; [ reflexivity | ].
    split; [ apply loads_dumps | ].
    + destruct (attachment_kind a kind path Ha) as [ -> | -> ];
        cbn [wf_json media_fields nodup_keys lookup forallb negb orb andb];
        cbn; rewrite W2, W3; reflexivity.
    + destruct (attachment_kind a kind path Ha) as [ -> | -> ];
        (repeat split; [ discriminate | ]);
        intros _; eexists; exists m2, media_id;
        (split; [ reflexivity | ]); cbn [fst snd];
        repeat split; assumption.
  - destruct H as (Hb & ->).
    exists (dumps false (text_fields (to (parse_args a)) (msgid_of m3))).
    eexists. split; [ reflexivity | ].
    split; [ apply loads_dumps | ].
    + cbn [wf_json text_fields nodup_keys lookup forallb negb orb andb].
      cbn. rewrite W3. reflexivity.
    + repeat split. intros H. destruct H. reflexivity.
Qed.

Lemma result_line_parses_back_witness :
  exists line fields,
    stdout (fst (run good_world
                   {| cli_message := None; cli_to := Some [24352; 19977];
                      cli_image := Some (lit "photo.png");
                      cli_file := None |})) = [line]
    /\ loads line = Some (JObj fields)
    /\ lookup (lit "to") fields = Some (JStr [24352; 19977]).
Proof.
  destruct (result_line_parses_back good_world
              {| cli_message := None; cli_to := Some [24352; 19977];
                 cli_image := Some (lit "photo.png"); cli_file := None |}
              (fst (run good_world
                      {| cli_message := None; cli_to := Some [24352; 19977];
                         cli_image := Some (lit "photo.png");
                         cli_file := None |})))
    as (line & fields & H1 & H2 & _ & _ & H3 & _).
  - intros o r data. cbn [net good_world sample_world]. unfold sample_net.
    destruct (req_data r); [ destruct (req_timeout r =? 30)%Z | ];
      intros [= <-]; reflexivity.
  - reflexivity.
  - exists line, fields. repeat split; assumption.
Defined.

(** Characters [json.dumps] writes as they are with [ensure_ascii=False]. *)
Definition plain (s : pystr) : bool :=
  forallb (fun c => (32 <=? c) && negb (c =? 34) && negb (c =? 92)) s.

Lemma escape_plain s : plain s = true -> escape_str false s = s.
Proof.
  induction s as [ | c s IH ]; [ reflexivity | ].
  cbn [plain forallb]. rewrite !andb_true_iff, !negb_true_iff.
  rewrite N.leb_le, !N.eqb_neq. intros [[[H32 H34] H92] Hs].
  unfold escape_str. cbn [flat_map]. fold (escape_str false s).
  rewrite (IH Hs). unfold escape_char.
  destruct (N.eqb_spec c 34); [ contradiction | ].
  destruct (N.eqb_spec c 92); [ contradiction | ].
  destruct (N.eqb_spec c 10); [ lia | ].
  destruct (N.eqb_spec c 13); [ lia | ].
  destruct (N.eqb_spec c 9); [ lia | ].
  destruct (N.eqb_spec c 8); [ lia | ].
  destruct (N.eqb_spec c 12); [ lia | ].
  destruct (N.ltb_spec c 32); [ lia | ]. reflexivity.
Qed.

Lemma encode_plain s : plain s = true -> encode_str false s = 34 :: s ++ [34].
Proof. intros H. unfold encode_str. rewrite (escape_plain s H). reflexivity. Qed.

(** The result line of a successful run begins with the fields [ok],
    [type] and [to], in this order and in this spelling; a recipient
    without control characters, quotes and backslashes stands in it
    character for character, outside ASCII too. *)
Theorem result_line_begins w a st :
  run w a = (st, Ok tt) -> plain (to (parse_args a)) = true ->
  exists rest,
    stdout st
    = [lit "{" ++ [34] ++ lit "ok" ++ [34] ++ lit ": true, "
       ++ [34] ++ lit "type" ++ [34] ++ lit ": "
       ++ [34] ++ reported_type a ++ [34] ++ lit ", "
       ++ [34] ++ lit "to" ++ [34] ++ lit ": "
       ++ [34] ++ to (parse_args a) ++ [34] ++ lit ", " ++ rest].
Proof.
  intros Hr Hto.
  destruct (run_success w a st Hr)
    as (corp_id & corp_secret & agent_id & proxy & token & body & m3
        & Hc & H).
  cbv zeta in H. destruct H as (_ & N3 & H).
  unfold reported_type.
  destruct (attachment a) as [ [kind path] | ] eqn:Ha.
  - destruct H as (media_id & head & file_data & tail & m2 & H).
    cbv zeta in H. destruct H as (Hfs & N2 & L2 & Hb & ->).
    cbn [stdout].
    destruct (attachment_kind a kind path Ha) as [ -> | -> ];
      unfold media_fields; rewrite dumps_obj; cbn [map member_text dumps];
      rewrite !join_items_cons;
      rewrite (encode_plain _ Hto);
      rewrite !(encode_plain (lit _)) by reflexivity;
      eexists; rewrite <- !List.app_assoc; cbn [List.app];
      rewrite <- !List.app_assoc; cbn [List.app]; reflexivity.
  - destruct H as (Hb & ->). cbn [stdout].
    unfold text_fields; rewrite dumps_obj; cbn [map member_text dumps];
      rewrite !join_items_cons;
      rewrite (encode_plain _ Hto);
      rewrite !(encode_plain (lit _)) by reflexivity;
      eexists; rewrite <- !List.app_assoc; cbn [List.app];
      rewrite <- !List.app_assoc; cbn [List.app]; reflexivity.
Qed.

Lemma result_line_begins_witness :
  exists rest,
    stdout (fst (run good_world
                   {| cli_message := Some (lit "hello");
                      cli_to := Some [24352; 19977];
                      cli_image := None; cli_file := None |}))
    = [lit "{" ++ [34] ++ lit "ok" ++ [34] ++ lit ": true, "
       ++ [34] ++ lit "type" ++ [34] ++ lit ": "
       ++ [34] ++ lit "text" ++ [34] ++ lit ", "
       ++ [34] ++ lit "to" ++ [34] ++ lit ": "
       ++ [34] ++ [24352; 19977] ++ [34] ++ lit ", " ++ rest].
Proof.
  exact (result_line_begins good_world
           {| cli_message := Some (lit "hello");
              cli_to := Some [24352; 19977];
              cli_image := None; cli_file := None |}
           (fst (run good_world
                   {| cli_message := Some (lit "hello");
                      cli_to := Some [24352; 19977];
                      cli_image := None; cli_file := None |}))
           eq_refl eq_refl).
Defined.

(** ** Accepted sends *)

(** The vendor accepts a request: the reply is a JSON object whose
    [errcode] is absent or equal to zero. *)
Definition accepted (r : reply) (m : list (pystr * json)) : Prop :=
  r = NetJson (JObj m)
  /\ match lookup (lit "errcode") m with
     | Some v => py_ne_zero v = false
     | None => True
     end.

Lemma accepted_stage rt prefix r m :
  accepted r m -> stage_result rt prefix None r = Ok (JObj m).
Proof.
  intros [-> H]. unfold stage_result, checked, py_get.
  destruct (lookup (lit "errcode") m) as [ v | ]; [ rewrite H | ];
    reflexivity.
Qed.

Ltac last_call H pre :=
  match type of H with
  | [] = _ => destruct pre; discriminate H
  | [?x] = _ ++ [?c] => pose proof (app_inj_tail [] pre x c H)
  | [?x; ?y] = _ ++ [?c] => pose proof (app_inj_tail [x] pre y c H)
  | [?x; ?y; ?z] = _ ++ [?c] => pose proof (app_inj_tail [x; y] pre z c H)
  end.

(** C5, amended: when the send request of a run is accepted by the
    vendor, the run writes the result to stdout and nothing else: one
    line, free of line
    breaks, the JSON text of the object with the keys ok, type, to,
    media_id and msgid in this order, where type is the kind of message
    sent, to is the recipient, media_id is there for image and file
    messages only and is the [media_id] of the upload reply, whatever
    JSON value that is, and msgid is the [msgid] of the send reply,
    whatever JSON value that is, or the empty string without one.  The
    run then returns with status 0.  When stdout cannot encode this line
    the run ends instead in an uncaught [UnicodeEncodeError], with status
    1 and nothing printed, the message being sent. *)
Theorem accepted_send_prints_result_line w a pre o tk posted m3 :
  calls (fst (run w a)) = pre ++ [(o, send_request w tk posted)] ->
  accepted (net w o (send_request w tk posted)) m3 ->
  exists fields,
    ~ In 10 (dumps false (JObj fields))
    /\ (if stdout_encodes (py w) (dumps false (JObj fields))
        then snd (run w a) = Ok tt
             /\ exit_status (snd (run w a)) = 0%Z
             /\ stdout (fst (run w a)) = [dumps false (JObj fields)]
        else snd (run w a) = Halt (Uncaught UnicodeEncodeError)
             /\ exit_status (snd (run w a)) = 1%Z
             /\ stdout (fst (run w a)) = [])
    /\ match attachment a with
       | None =>
           (exists c1, pre = [c1])
           /\ fields = [(lit "ok", JBool true);
                        (lit "type", JStr (lit "text"));
                        (lit "to", JStr (to (parse_args a)));
                        (lit "msgid", msgid_of m3)]
       | Some (kind, path) =>
           (kind = lit "image" \/ kind = lit "file")
           /\ exists c1 c2 m2 media_id,
                pre = [c1; c2]
                /\ net w (fst c2) (snd c2) = NetJson (JObj m2)
                /\ lookup (lit "media_id") m2 = Some media_id
                /\ fields = [(lit "ok", JBool true);
                             (lit "type", JStr kind);
                             (lit "to", JStr (to (parse_args a)));
                             (lit "media_id", media_id);
                             (lit "msgid", msgid_of m3)]
       end.
Proof.
  revert pre o tk posted m3.
  walk w a; intros pre o tk posted m3 Hcalls Hacc;
    rewrite ?report_calls in Hcalls;
    cbn [fst snd calls stdout add_call init List.app] in Hcalls.
  all: last_call Hcalls pre.
  all: match goal with
       | H : _ = _ /\ _ = _ |- _ => destruct H as [<- E]
       end.
  all: try (unfold token_request, send_request in E; discriminate E).
  all: try (unfold upload_request, send_request in E; discriminate E).
  all: pose proof (f_equal fst E) as Eo; pose proof (f_equal snd E) as Er;
    cbn [fst snd] in Eo, Er; rewrite <- Eo, <- Er in Hacc;
    match goal with
    | R : stage_result _ ?p None _ = _ |- _ =>
        rewrite (accepted_stage (py w) p _ _ Hacc) in R
    end;
    try discriminate R3; injection R3 as <-; rewrite report_ok.
  - exists [(lit "ok", JBool true); (lit "type", JStr kind);
            (lit "to", JStr (to (parse_args a))); (lit "media_id", media_id);
            (lit "msgid", msgid_of m3)].
    split; [ apply dumps_one_line | ].
    unfold media_fields.
    split.
    + destruct (stdout_encodes _ _); cbn [fst snd stdout add_call init
                                           List.app exit_status];
        repeat split.
    + split; [ exact (attachment_kind a kind path Ha) | ].
      destruct (stage_ok_inv _ _ _ _ _ R2) as (m2 & N2 & L2).
      eexists; eexists; exists m2, media_id.
      split; [ reflexivity | ]. cbn [fst snd]. repeat split; assumption.
  - exists [(lit "ok", JBool true); (lit "type", JStr (lit "text"));
            (lit "to", JStr (to (parse_args a)));
            (lit "msgid", msgid_of m3)].
    split; [ apply dumps_one_line | ].
    unfold text_fields.
    split.
    + destruct (stdout_encodes _ _); cbn [fst snd stdout add_call init
                                           List.app exit_status];
        repeat split.
    + split; [ eexists; reflexivity | reflexivity ].
Qed.

Lemma accepted_send_witness :
  exists fields,
    ~ In 10 (dumps false (JObj fields))
    /\ (snd (run good_world (image_cli "photo.png")) = Ok tt
        /\ exit_status (snd (run good_world (image_cli "photo.png"))) = 0%Z
        /\ stdout (fst (run good_world (image_cli "photo.png")))
           = [dumps false (JObj fields)])
    /\ fields = [(lit "ok", JBool true); (lit "type", JStr (lit "image"));
                 (lit "to", JStr (lit "LiXueHeng"));
                 (lit "media_id", JStr (lit "MEDIA"));
                 (lit "msgid", JStr (lit "MSG"))].
Proof.
  destruct (accepted_send_prints_result_line good_world
              (image_cli "photo.png")
              [(Direct, token_request sample_py (JStr (lit "corp"))
                          (JStr (lit "secret")));
               (Direct, upload_request good_world (JStr (lit "TOKEN"))
                          (lit "photo.png") (lit "image")
                          (multipart_head (uuid_hex good_world)
                             (lit "photo.png")
                             (lit "application/octet-stream"))
                          [137; 80; 78; 71]
                          (multipart_tail (uuid_hex good_world)))]
              Direct (JStr (lit "TOKEN"))
              (dumps true
                 (media_payload (lit "image") 1000002
                    (JStr (lit "LiXueHeng")) (JStr (lit "MEDIA"))))
              [(lit "errcode", JInt 0); (lit "msgid", JStr (lit "MSG"))])
    as (fields & H1 & H2 & H3).
  - vm_compute. reflexivity.
  - split; vm_compute; reflexivity.
  - cbn [attachment image_cli cli_image opt_truthy lit
           list_ascii_of_string map] in H3.
    destruct H3 as (_ & c1 & c2 & m2 & media_id & Hpre & N2 & L2 & ->).
    injection Hpre as <- <-.
    vm_compute in N2. injection N2 as <-.
    vm_compute in L2. injection L2 as <-.
    eexists. split; [ exact H1 | ].
    split; [ | reflexivity ].
    vm_compute in H2. vm_compute. exact H2.
Defined.

(** C5, as stated, fails in two ways.  The values of [media_id] and
    [msgid] are the vendor's, passed through unchecked: a send reply with
    [msgid] null makes a successful run print [null] where the claim has a
    string.  And a run whose send is accepted does not always end with
    status 0 and a line: with a recipient a UTF-8 stdout cannot encode,
    the message is sent, nothing is printed and the run ends in an
    uncaught [UnicodeEncodeError]. *)
Lemma result_line_counterexample :
  run (sample_world sample_vars token_ok upload_ok
         (NetJson (JObj [(lit "errcode", JInt 0); (lit "msgid", JNull)])))
      (text_cli "hello")
  = ({| calls :=
          [(Direct, token_request sample_py (JStr (lit "corp"))
                      (JStr (lit "secret")));
           (Direct,
            send_request good_world (JStr (lit "TOKEN"))
              (dumps true
                 (text_payload 1000002 (JStr (lit "LiXueHeng"))
                    (JStr (lit "hello")))))];
        stdout :=
          [lit "{" ++ [34] ++ lit "ok" ++ [34] ++ lit ": true, "
           ++ [34] ++ lit "type" ++ [34] ++ lit ": "
           ++ [34] ++ lit "text" ++ [34] ++ lit ", "
           ++ [34] ++ lit "to" ++ [34] ++ lit ": "
           ++ [34] ++ lit "LiXueHeng" ++ [34] ++ lit ", "
           ++ [34] ++ lit "msgid" ++ [34] ++ lit ": null}"] |},
     Ok tt)
  /\ run good_world
       {| cli_message := Some (lit "hello"); cli_to := Some [0xDCE9];
          cli_image := None; cli_file := None |}
     = ({| calls :=
             [(Direct, token_request sample_py (JStr (lit "corp"))
                         (JStr (lit "secret")));
              (Direct,
               send_request good_world (JStr (lit "TOKEN"))
                 (dumps true
                    (text_payload 1000002 (JStr [0xDCE9])
                       (JStr (lit "hello")))))];
           stdout := [] |},
        Halt (Uncaught UnicodeEncodeError))
  /\ accepted
       (net good_world Direct
          (send_request good_world (JStr (lit "TOKEN"))
             (dumps true
                (text_payload 1000002 (JStr [0xDCE9])
                   (JStr (lit "hello"))))))
       [(lit "errcode", JInt 0); (lit "msgid", JStr (lit "MSG"))].
Proof.
  split; [ vm_compute; reflexivity | ].
  split; [ vm_compute; reflexivity | ].
  split; vm_compute; reflexivity.
Qed.


(** C10, as stated, fails: the error is not always [ValueError].  An
    agent id that is a non-empty array is present and truthy, [int] does
    not convert it, and [load_config] ends in an uncaught [TypeError]. *)
Lemma agent_id_type_error_counterexample :
  py_truthy (JArr [JInt 1000002]) = true
  /\ py_int sample_py (JArr [JInt 1000002]) = inl TypeError
  /\ load_config
       (sample_world [(lit "WECOM_CORP_ID", JStr (lit "corp"));
                      (lit "WECOM_CORP_SECRET", JStr (lit "secret"));
                      (lit "WECOM_AGENT_ID", JArr [JInt 1000002])]
                     token_ok upload_ok sent_ok) init
     = (init, Halt (Uncaught TypeError))
  /\ TypeError <> ValueError.
Proof. repeat split; try reflexivity. discriminate. Qed.

(** ** The selected argument *)

(** C6: a run depends on the command line only through the recipient and
    the one argument selected by the precedence image, then file, then
    text (an argument counts as given when it is not empty): two command
    lines that agree on these give the same calls, output and result.
    The run acts on the selected argument and on no other: once the token
    is obtained, a selected text is posted in a text payload, with no
    upload; a selected image or file path is the one tested, read and
    uploaded, with its kind as the media type, and the send that follows
    an accepted upload carries the payload of that kind with the
    [media_id] returned; and every send request of the run carries the
    payload of the selected kind. *)
Theorem selection_by_precedence w a kind value :
  selected a = Some (kind, value) ->
  (forall a', cli_to a' = cli_to a -> selected a' = Some (kind, value) ->
              run w a' = run w a)
  /\ (forall op token body,
         In (op, send_request w token body) (calls (fst (run w a))) ->
         exists payload,
           str_encode (dumps true (JObj payload)) = Some body
           /\ lookup (lit "msgtype") payload = Some (JStr kind))
  /\ (forall corp_id corp_secret agent_id proxy st1 token,
         load_config w init
         = (init, Ok (corp_id, corp_secret, agent_id, proxy)) ->
         get_access_token w corp_id corp_secret (opener_of proxy) init
         = (st1, Ok token) ->
         let op := opener_of proxy in
         let c1 := (op, token_request (py w) corp_id corp_secret) in
         if pystr_eq_dec kind (lit "text") then
           match str_encode
                   (dumps true
                      (text_payload agent_id (JStr (to (parse_args a)))
                         (JStr value))) with
           | Some body =>
               calls (fst (run w a)) = [c1; (op, send_request w token body)]
           | None => calls (fst (run w a)) = [c1]
           end
         else
           (kind = lit "image" \/ kind = lit "file")
           /\ match fs w value with
              | Content file_data =>
                  match str_encode
                          (multipart_head (uuid_hex w)
                             (path_name (py w) value)
                             (content_type_of w value)),
                        str_encode (multipart_tail (uuid_hex w)) with
                  | Some head, Some tail =>
                      let c2 := (op, upload_request w token value kind head
                                       file_data tail) in
                      match stage_result (py w)
                              (lit "Error uploading media: ")
                              (Some (lit "media_id"))
                              (net w op (snd c2)) with
                      | Ok media_id =>
                          match str_encode
                                  (dumps true
                                     (media_payload kind agent_id
                                        (JStr (to (parse_args a)))
                                        media_id)) with
                          | Some body =>
                              calls (fst (run w a))
                              = [c1; c2; (op, send_request w token body)]
                          | None => calls (fst (run w a)) = [c1; c2]
                          end
                      | Halt _ => calls (fst (run w a)) = [c1; c2]
                      end
                  | _, _ => calls (fst (run w a)) = [c1]
                  end
              | _ => calls (fst (run w a)) = [c1]
              end).
Proof.
  intros Hs. split; [ | split ].
  - intros a' Hto Hs'.
    rewrite (run_by_selection w a _ Hs), (run_by_selection w a' _ Hs').
    unfold parse_args. cbn [to]. rewrite Hto. reflexivity.
  - intros op token body Hin.
    rewrite (run_by_selection w a _ Hs) in Hin.
    destruct (load_config w init) as [st0 [ cfg | h ]];
      [ | destruct Hin ].
    destruct cfg as [[[corp_id corp_secret] agent_id] proxy].
    unfold run_selected in Hin. rewrite get_access_token_run in Hin.
    destruct (stage_result (py w) (lit "Error getting token: ") _ _)
      as [ tok | h ];
      [ | cbn in Hin; destruct Hin as [ E | [] ]; discriminate E ].
    destruct (pystr_eq_dec kind (lit "text")) as [ -> | Hk ].
    + unfold send_run in Hin.
      destruct (str_encode (dumps true _)) as [ b | ] eqn:Hb;
        [ | cbn in Hin; destruct Hin as [ E | [] ]; discriminate E ].
      assert (Hcalls : In (op, send_request w token body)
                         [(opener_of proxy,
                           token_request (py w) corp_id corp_secret);
                          (opener_of proxy, send_request w tok b)]).
      { rewrite report_calls in Hin. exact Hin. }
      destruct Hcalls as [ E | [ E | [] ] ]; [ discriminate E | ].
      injection E as _ _ <-.
      eexists. split; [ exact Hb | reflexivity ].
    + rewrite upload_media_run in Hin.
      destruct (fs w value) as [ | e | file_data ];
        try (cbn in Hin; destruct Hin as [ E | [] ]; discriminate E).
      destruct (str_encode (multipart_head _ _ _)) as [ head | ];
        [ | cbn in Hin; destruct Hin as [ E | [] ]; discriminate E ].
      destruct (str_encode (multipart_tail _)) as [ tail | ];
        [ | cbn in Hin; destruct Hin as [ E | [] ]; discriminate E ].
      cbv zeta in Hin.
      destruct (stage_result (py w) (lit "Error uploading media: ") _ _)
        as [ media_id | h ];
        [ | cbn in Hin; destruct Hin as [ E | [ E | [] ] ];
            discriminate E ].
      unfold send_run in Hin.
      destruct (str_encode (dumps true _)) as [ b | ] eqn:Hb;
        [ | cbn in Hin; destruct Hin as [ E | [ E | [] ] ];
            discriminate E ].
      assert (Hcalls : In (op, send_request w token body)
                         [(opener_of proxy,
                           token_request (py w) corp_id corp_secret);
                          (opener_of proxy,
                           upload_request w tok value kind head file_data
                             tail);
                          (opener_of proxy, send_request w tok b)]).
      { rewrite report_calls in Hin. exact Hin. }
      destruct Hcalls as [ E | [ E | [ E | [] ] ] ];
        [ discriminate E | discriminate E | ].
      injection E as _ _ <-.
      eexists. split; [ exact Hb | reflexivity ].
  - intros corp_id corp_secret agent_id proxy st1 token Hc Hg. cbv zeta.
    rewrite (run_by_selection w a _ Hs), Hc.
    unfold run_selected. rewrite Hg.
    rewrite get_access_token_run in Hg. injection Hg as <- R1.
    destruct (pystr_eq_dec kind (lit "text")) as [ -> | Hk ].
    + rewrite report_calls. unfold send_run.
      destruct (str_encode (dumps true _)); reflexivity.
    + split.
      { destruct (selected_kind a kind value Hs) as [ K | [ K | K ] ];
          auto; contradiction. }
      rewrite upload_media_run.
      destruct (fs w value) as [ | e | file_data ]; try reflexivity.
      destruct (str_encode (multipart_head _ _ _)) as [ head | ];
        [ | reflexivity ].
      destruct (str_encode (multipart_tail _)) as [ tail | ];
        [ | reflexivity ].
      cbv zeta. cbn [snd].
      destruct (stage_result (py w) (lit "Error uploading media: ") _ _)
        as [ media_id | h ]; [ | reflexivity ].
      rewrite report_calls. unfold send_run.
      destruct (str_encode (dumps true _)); reflexivity.
Qed.

Lemma selection_witness :
  run good_world (image_cli "photo.png")
  = run good_world
      {| cli_message := Some (lit "hello"); cli_to := None;
         cli_image := Some (lit "photo.png");
         cli_file := Some (lit "report.pdf") |}
  /\ calls (fst (run good_world
                   {| cli_message := Some (lit "hello"); cli_to := None;
                      cli_image := Some (lit "photo.png");
                      cli_file := Some (lit "report.pdf") |}))
     = [(Direct, token_request sample_py (JStr (lit "corp"))
                   (JStr (lit "secret")));
        (Direct, upload_request good_world (JStr (lit "TOKEN"))
                   (lit "photo.png") (lit "image")
                   (multipart_head (uuid_hex good_world) (lit "photo.png")
                      (lit "application/octet-stream"))
                   [137; 80; 78; 71]
                   (multipart_tail (uuid_hex good_world)));
        (Direct, send_request good_world (JStr (lit "TOKEN"))
                   (dumps true
                      (media_payload (lit "image") 1000002
                         (JStr (lit "LiXueHeng")) (JStr (lit "MEDIA")))))].
Proof.
  destruct (selection_by_precedence good_world
              {| cli_message := Some (lit "hello"); cli_to := None;
                 cli_image := Some (lit "photo.png");
                 cli_file := Some (lit "report.pdf") |}
              (lit "image") (lit "photo.png") eq_refl)
    as (H1 & _ & H3).
  split.
  - exact (H1 (image_cli "photo.png") eq_refl eq_refl).
  - specialize (H3 (JStr (lit "corp")) (JStr (lit "secret")) 1000002%Z
                  (JStr []) _ (JStr (lit "TOKEN")) eq_refl eq_refl).
    vm_compute in H3. vm_compute. exact (proj2 H3).
Defined.
